(** * EU AI Act governance core: lineage integrity and the compliance gate

    A shallow embedding of [governance/data_lineage.py] and
    [compliance_gate.py].  Python objects are values of [pyval]; a call
    either returns or raises ([outcome]); methods that talk to the storage
    backend, the model registry or the clock are state transformers over a
    world that also logs every collaborator call. *)

From Stdlib Require Import ZArith List String Ascii Bool Lia Floats.
From Stdlib Require Import DecimalString Permutation OrderedTypeEx.
Import ListNotations.

Set Warnings "-inexact-float,-register-all".
Local Open Scope string_scope.
Local Open Scope Z_scope.

(** ** Python values *)

Module Py.

(** Exception classes the code names or that the interpreter raises in the
    modelled operations; all derive from [Exception]. *)
Inductive exn_class : Type :=
| KeyError
| TypeError
| AttributeError
| ValueError
| OtherError (name : string).

Record exn : Type := Exn { exn_kind : exn_class; exn_str : string }.

Inductive outcome (A : Type) : Type :=
| Returns (a : A)
| Raises (e : exn).
Arguments Returns {A} a.
Arguments Raises {A} e.

Definition obind {A B} (m : outcome A) (k : A -> outcome B) : outcome B :=
  match m with
  | Returns a => k a
  | Raises e => Raises e
  end.

(** Python dicts keep insertion order: an association list, first binding
    of a key is the binding. *)
Fixpoint dict_get {V : Type} (k : string) (d : list (string * V)) : option V :=
  match d with
  | [] => None
  | (k', v) :: d' => if String.eqb k k' then Some v else dict_get k d'
  end.

Definition dict_mem {V : Type} (k : string) (d : list (string * V)) : bool :=
  match dict_get k d with Some _ => true | None => false end.

(** [d[k] = v]: overwrite in place, or append a new key. *)
Fixpoint dict_set {V : Type} (k : string) (v : V) (d : list (string * V))
  : list (string * V) :=
  match d with
  | [] => [(k, v)]
  | (k', v') :: d' =>
      if String.eqb k k' then (k', v) :: d' else (k', v') :: dict_set k v d'
  end.

(** [dict(pairs)] *)
Definition dict_of_pairs {V : Type} (l : list (string * V)) : list (string * V) :=
  fold_left (fun d kv => dict_set (fst kv) (snd kv) d) l [].

Inductive pyval : Type :=
| VNone
| VBool (b : bool)
| VInt (z : Z)
| VFloat (f : float)
| VStr (s : string)
| VDatetime (t : Z)               (* naive datetime, microseconds since the epoch *)
| VList (l : list pyval)
| VDict (d : list (string * pyval)).

Definition dict : Type := list (string * pyval).

Definition type_name (v : pyval) : string :=
  match v with
  | VNone => "NoneType"
  | VBool _ => "bool"
  | VInt _ => "int"
  | VFloat _ => "float"
  | VStr _ => "str"
  | VDatetime _ => "datetime.datetime"
  | VList _ => "list"
  | VDict _ => "dict"
  end.

(** [bool(v)] *)
Definition truthy (v : pyval) : bool :=
  match v with
  | VNone => false
  | VBool b => b
  | VInt z => negb (z =? 0)
  | VFloat f => negb (PrimFloat.eqb f 0%float)
  | VStr s => negb (String.eqb s "")
  | VDatetime _ => true
  | VList l => match l with [] => false | _ => true end
  | VDict d => match d with [] => false | _ => true end
  end.

(** Numbers: [bool] is a subclass of [int]. *)
Inductive num : Type := NInt (z : Z) | NFloat (f : float).

Definition as_num (v : pyval) : option num :=
  match v with
  | VBool b => Some (NInt (if b then 1 else 0))
  | VInt z => Some (NInt z)
  | VFloat f => Some (NFloat f)
  | _ => None
  end.

(** An int against a float, compared exactly as CPython does. *)
Definition Z_compare_float (z : Z) (f : float) : option comparison :=
  match Prim2SF f with
  | S754_zero _ => Some (z ?= 0)
  | S754_infinity true => Some Gt
  | S754_infinity false => Some Lt
  | S754_nan => None
  | S754_finite s m e =>
      let sm := if s then Z.neg m else Z.pos m in
      if 0 <=? e then Some (z ?= sm * 2 ^ e)
      else Some (z * 2 ^ (- e) ?= sm)
  end.

Definition num_compare (x y : num) : option comparison :=
  match x, y with
  | NInt a, NInt b => Some (a ?= b)
  | NFloat a, NFloat b =>
      match PrimFloat.compare a b with
      | FEq => Some Eq
      | FLt => Some Lt
      | FGt => Some Gt
      | FNotComparable => None
      end
  | NInt a, NFloat b => Z_compare_float a b
  | NFloat a, NInt b => option_map CompOpp (Z_compare_float b a)
  end.

Definition num_eqb (x y : num) : bool :=
  match num_compare x y with Some Eq => true | _ => false end.

(** [a == b] on the modelled values (never raises). *)
Fixpoint py_eq (a b : pyval) {struct a} : bool :=
  match a, b with
  | VNone, VNone => true
  | VStr s, VStr t => String.eqb s t
  | VDatetime s, VDatetime t => s =? t
  | VList l1, VList l2 =>
      (fix go (l1 l2 : list pyval) {struct l1} : bool :=
         match l1, l2 with
         | [], [] => true
         | x :: l1', y :: l2' => py_eq x y && go l1' l2'
         | _, _ => false
         end) l1 l2
  | VDict d1, VDict d2 =>
      Nat.eqb (List.length d1) (List.length d2) &&
      (fix go (d : list (string * pyval)) : bool :=
         match d with
         | [] => true
         | (k, v) :: d' =>
             match dict_get k d2 with
             | Some w => py_eq v w
             | None => false
             end && go d'
         end) d1
  | _, _ =>
      match as_num a, as_num b with
      | Some x, Some y => num_eqb x y
      | _, _ => false
      end
  end.

Definition py_ne (a b : pyval) : bool := negb (py_eq a b).

(** The ordering operators [<] and [>]. *)
Inductive order_op : Type := OpLt | OpGt.

Definition op_symbol (op : order_op) : string :=
  match op with OpLt => "<" | OpGt => ">" end.

Definition op_holds (op : order_op) (c : comparison) : bool :=
  match op, c with
  | OpLt, Lt => true
  | OpGt, Gt => true
  | _, _ => false
  end.

Definition not_supported (op : order_op) (a b : pyval) : exn :=
  Exn TypeError
      ("'" ++ op_symbol op ++ "' not supported between instances of '"
           ++ type_name a ++ "' and '" ++ type_name b ++ "'").

Fixpoint py_order (op : order_op) (a b : pyval) {struct a} : outcome bool :=
  match a, b with
  | VStr s, VStr t => Returns (op_holds op (String.compare s t))
  | VDatetime s, VDatetime t => Returns (op_holds op (s ?= t))
  | VList l1, VList l2 =>
      (fix go (l1 l2 : list pyval) {struct l1} : outcome bool :=
         match l1, l2 with
         | x :: l1', y :: l2' =>
             if py_eq x y then go l1' l2' else py_order op x y
         | [], [] => Returns false
         | [], _ :: _ => Returns (op_holds op Lt)
         | _ :: _, [] => Returns (op_holds op Gt)
         end) l1 l2
  | _, _ =>
      match as_num a, as_num b with
      | Some x, Some y =>
          match num_compare x y with
          | Some c => Returns (op_holds op c)
          | None => Returns false
          end
      | _, _ => Raises (not_supported op a b)
      end
  end.

Definition py_lt : pyval -> pyval -> outcome bool := py_order OpLt.
Definition py_gt : pyval -> pyval -> outcome bool := py_order OpGt.

Definition no_attribute (v : pyval) (attr : string) : exn :=
  Exn AttributeError
      ("'" ++ type_name v ++ "' object has no attribute '" ++ attr ++ "'").

(** [v.get(k, default)] *)
Definition py_get (v : pyval) (k : string) (default : pyval) : outcome pyval :=
  match v with
  | VDict d => Returns (match dict_get k d with Some x => x | None => default end)
  | _ => Raises (no_attribute v "get")
  end.

(** [v.items()] *)
Definition py_items (v : pyval) : outcome (list (string * pyval)) :=
  match v with
  | VDict d => Returns d
  | _ => Raises (no_attribute v "items")
  end.

(** [d[k]] on a dict: [KeyError(k)], whose [str] is the key's repr. *)
Definition dict_getitem (d : dict) (k : string) : outcome pyval :=
  match dict_get k d with
  | Some x => Returns x
  | None => Raises (Exn KeyError ("'" ++ k ++ "'"))
  end.

(** [len(v)] *)
Definition py_len (v : pyval) : outcome Z :=
  match v with
  | VStr s => Returns (Z.of_nat (String.length s))
  | VList l => Returns (Z.of_nat (List.length l))
  | VDict d => Returns (Z.of_nat (List.length d))
  | _ => Raises (Exn TypeError
                     ("object of type '" ++ type_name v ++ "' has no len()"))
  end.

Fixpoint chars (s : string) : list pyval :=
  match s with
  | EmptyString => []
  | String c s' => VStr (String c EmptyString) :: chars s'
  end.

(** [iter(v)] for the values that have a length. *)
Definition py_iter (v : pyval) : outcome (list pyval) :=
  match v with
  | VStr s => Returns (chars s)
  | VList l => Returns l
  | VDict d => Returns (map (fun kv => VStr (fst kv)) d)
  | _ => Raises (Exn TypeError
                     ("'" ++ type_name v ++ "' object is not iterable"))
  end.

(** [k in v] for a string [k]. *)
Definition py_contains (k : string) (v : pyval) : outcome bool :=
  match v with
  | VDict d => Returns (dict_mem k d)
  | VList l => Returns (existsb (py_eq (VStr k)) l)
  | VStr s => Returns (match String.index 0 k s with Some _ => true | None => false end)
  | _ => Raises (Exn TypeError
                     ("argument of type '" ++ type_name v ++ "' is not iterable"))
  end.

(** [str(z)] for an int. *)
Definition str_int (z : Z) : string := NilZero.string_of_int (Z.to_int z).

Definition microseconds_per_day : Z := 86400000000.

(** [(now - v).days], with [now] a datetime. *)
Definition days_since (now : Z) (v : pyval) : outcome Z :=
  match v with
  | VDatetime t => Returns ((now - t) / microseconds_per_day)
  | _ => Raises (Exn TypeError
                     ("unsupported operand type(s) for -: 'datetime.datetime' and '"
                        ++ type_name v ++ "'"))
  end.

(** [float(z)]: round to nearest even; [OverflowError] past the largest double. *)
Definition float_of_int (z : Z) : outcome float :=
  match binary_normalize 53 1024 z 0 false with
  | S754_infinity _ =>
      Raises (Exn (OtherError "OverflowError") "int too large to convert to float")
  | sf => Returns (SF2Prim sf)
  end.

Definition two_digits (n : Z) : string :=
  (if n <? 10 then "0" else "") ++ str_int n.

(** [format(f, '.2f')] for a double that is zero or finite: the exact
    binary value, rounded half to even at the second decimal. *)
Definition fixed2 (sf : spec_float) : string :=
  match sf with
  | S754_finite s m e =>
      let hundredths :=
        if 0 <=? e then Z.pos m * 100 * 2 ^ e
        else
          let d := 2 ^ (- e) in
          let q := (Z.pos m * 100) / d in
          let r := (Z.pos m * 100) mod d in
          if (d <? 2 * r) || ((d =? 2 * r) && Z.odd q) then q + 1 else q in
      (if s then "-" else "") ++ str_int (hundredths / 100) ++ "."
        ++ two_digits (hundredths mod 100)
  | S754_zero s => (if s then "-" else "") ++ "0.00"
  | S754_infinity s => (if s then "-" else "") ++ "inf"
  | S754_nan => "nan"
  end.

(** [format(f, '.2%')] for a float: scale by 100 in double arithmetic,
    then fixed notation with two decimals. *)
Definition percent2 (f : float) : string :=
  fixed2 (Prim2SF (PrimFloat.mul f 100%float)) ++ "%".

(** Builtins whose text output the model does not compute: [str(v)] of a
    float, datetime, list or dict (for a float also its [repr]),
    [datetime.isoformat()], [datetime.strftime(fmt)], and the iteration
    order of a set of strings. *)
Class Builtins : Type := {
  py_str : pyval -> string;
  isoformat : Z -> string;
  strftime : Z -> string -> string;
  set_order : list string -> list string
}.

(** [format(v, '.2%')], the f-string field [{v:.2%}]. *)
Definition format_pct2 `{Builtins} (v : pyval) : outcome string :=
  match v with
  | VFloat f => Returns (percent2 f)
  | VInt z => obind (float_of_int z) (fun f => Returns (percent2 f))
  | VBool b => obind (float_of_int (if b then 1 else 0)) (fun f => Returns (percent2 f))
  | VDatetime t => Returns (strftime t ".2%")
  | VStr _ =>
      Raises (Exn ValueError "Unknown format code '%' for object of type 'str'")
  | _ =>
      Raises (Exn TypeError
                  ("unsupported format string passed to " ++ type_name v ++ ".__format__"))
  end.

(** [str(v)], which is also how an f-string renders [{v}]. *)
Definition str_of `{Builtins} (v : pyval) : string :=
  match v with
  | VNone => "None"
  | VBool true => "True"
  | VBool false => "False"
  | VInt z => str_int z
  | VStr s => s
  | _ => py_str v
  end.

(** [d.get(k, default)] on a dict. *)
Definition dict_get_or (d : dict) (k : string) (default : pyval) : pyval :=
  match dict_get k d with Some x => x | None => default end.

End Py.

(** ** [json.dumps] *)

Module Json.
Import Py.

Definition hex_digit (n : Z) : ascii :=
  match n with
  | 0 => "0" | 1 => "1" | 2 => "2" | 3 => "3" | 4 => "4" | 5 => "5"
  | 6 => "6" | 7 => "7" | 8 => "8" | 9 => "9" | 10 => "a" | 11 => "b"
  | 12 => "c" | 13 => "d" | 14 => "e" | _ => "f"
  end%char.

Definition dquote : ascii := "034"%char.
Definition backslash : ascii := "092"%char.

Definition escape_seq (c : ascii) : string := String backslash (String c EmptyString).

(** [ensure_ascii=True]: everything outside [' '..'~'] is escaped. *)
Definition escape_char (c : ascii) : string :=
  let n := Z.of_N (N_of_ascii c) in
  if n =? 34 then escape_seq dquote
  else if n =? 92 then escape_seq backslash
  else if n =? 10 then escape_seq "n"
  else if n =? 13 then escape_seq "r"
  else if n =? 9 then escape_seq "t"
  else if n =? 8 then escape_seq "b"
  else if n =? 12 then escape_seq "f"
  else if (n <? 32) || (126 <? n) then
    String backslash
      (String "u" (String "0" (String "0"
         (String (hex_digit (n / 16)) (String (hex_digit (n mod 16)) EmptyString)))))
  else String c EmptyString.

Fixpoint escape (s : string) : string :=
  match s with
  | EmptyString => EmptyString
  | String c s' => escape_char c ++ escape s'
  end.

Definition json_string (s : string) : string :=
  String dquote (escape s ++ String dquote EmptyString).

(** [allow_nan=True]; a finite float is written as its [repr]. *)
Definition json_float `{Builtins} (f : float) : string :=
  if PrimFloat.is_nan f then "NaN"
  else if PrimFloat.is_infinity f then
    (if PrimFloat.ltb f 0%float then "-Infinity" else "Infinity")
  else py_str (VFloat f).

(** [sorted(d.items())] for string keys: insertion by code-point order. *)
Fixpoint insert_item {V : Type} (kv : string * V) (l : list (string * V))
  : list (string * V) :=
  match l with
  | [] => [kv]
  | kv' :: l' =>
      if String.leb (fst kv) (fst kv') then kv :: l
      else kv' :: insert_item kv l'
  end.

Definition sort_items {V : Type} (l : list (string * V)) : list (string * V) :=
  fold_right insert_item [] l.

(** [sort_keys=True]: every dict is emitted in key order, at every depth. *)
Fixpoint sort_keys (v : pyval) : pyval :=
  match v with
  | VList l => VList (map sort_keys l)
  | VDict d => VDict (sort_items (map (fun kv => (fst kv, sort_keys (snd kv))) d))
  | _ => v
  end.

Definition not_serializable (v : pyval) : exn :=
  Exn TypeError ("Object of type " ++
                 match v with VDatetime _ => "datetime" | _ => type_name v end
                 ++ " is not JSON serializable").

Fixpoint encode `{Builtins} (v : pyval) : outcome string :=
  match v with
  | VNone => Returns "null"
  | VBool true => Returns "true"
  | VBool false => Returns "false"
  | VInt z => Returns (str_int z)
  | VFloat f => Returns (json_float f)
  | VStr s => Returns (json_string s)
  | VDatetime _ => Raises (not_serializable v)
  | VList l =>
      obind
        ((fix items (l : list pyval) : outcome (list string) :=
            match l with
            | [] => Returns []
            | x :: l' =>
                obind (encode x) (fun s =>
                obind (items l') (fun ss => Returns (s :: ss)))
            end) l)
        (fun ss => Returns ("[" ++ String.concat ", " ss ++ "]"))
  | VDict d =>
      obind
        ((fix items (d : list (string * pyval)) : outcome (list string) :=
            match d with
            | [] => Returns []
            | (k, x) :: d' =>
                obind (encode x) (fun s =>
                obind (items d') (fun ss =>
                Returns ((json_string k ++ ": " ++ s) :: ss)))
            end) d)
        (fun ss => Returns ("{" ++ String.concat ", " ss ++ "}"))
  end.

(** [json.dumps(v, sort_keys=sorted)] *)
Definition dumps `{Builtins} (sorted : bool) (v : pyval) : outcome string :=
  encode (if sorted then sort_keys v else v).

End Json.

(** ** [hashlib.sha256] (FIPS 180-4), on bytes as integers below 256 *)

Module Sha256.

Definition w32 (x : Z) : Z := x mod 4294967296.
Definition add32 (x y : Z) : Z := w32 (x + y).
Definition rotr (n x : Z) : Z := Z.lor (Z.shiftr x n) (w32 (Z.shiftl x (32 - n))).

Definition choose (x y z : Z) : Z := Z.lxor (Z.land x y) (Z.land (Z.lnot x) z).
Definition majority (x y z : Z) : Z :=
  Z.lxor (Z.lxor (Z.land x y) (Z.land x z)) (Z.land y z).
Definition big_sigma0 (x : Z) : Z := Z.lxor (Z.lxor (rotr 2 x) (rotr 13 x)) (rotr 22 x).
Definition big_sigma1 (x : Z) : Z := Z.lxor (Z.lxor (rotr 6 x) (rotr 11 x)) (rotr 25 x).
Definition small_sigma0 (x : Z) : Z :=
  Z.lxor (Z.lxor (rotr 7 x) (rotr 18 x)) (Z.shiftr x 3).
Definition small_sigma1 (x : Z) : Z :=
  Z.lxor (Z.lxor (rotr 17 x) (rotr 19 x)) (Z.shiftr x 10).

Definition round_constants : list Z :=
  [
    1116352408; 1899447441; 3049323471; 3921009573; 961987163; 1508970993;
    2453635748; 2870763221; 3624381080; 310598401; 607225278; 1426881987;
    1925078388; 2162078206; 2614888103; 3248222580; 3835390401; 4022224774;
    264347078; 604807628; 770255983; 1249150122; 1555081692; 1996064986;
    2554220882; 2821834349; 2952996808; 3210313671; 3336571891; 3584528711;
    113926993; 338241895; 666307205; 773529912; 1294757372; 1396182291;
    1695183700; 1986661051; 2177026350; 2456956037; 2730485921; 2820302411;
    3259730800; 3345764771; 3516065817; 3600352804; 4094571909; 275423344;
    430227734; 506948616; 659060556; 883997877; 958139571; 1322822218;
    1537002063; 1747873779; 1955562222; 2024104815; 2227730452; 2361852424;
    2428436474; 2756734187; 3204031479; 3329325298
  ].

Record state : Type :=
  State { ha : Z; hb : Z; hc : Z; hd : Z; he : Z; hf : Z; hg : Z; hh : Z }.

Definition initial_state : state :=
  State 1779033703 3144134277 1013904242 2773480762
        1359893119 2600822924 528734635 1541459225.

(** Padding: a one bit, zeros up to 56 mod 64, the bit length on 8 bytes. *)
Definition length_bytes (bits : Z) : list Z :=
  map (fun i => (bits / 2 ^ (8 * i)) mod 256) [7; 6; 5; 4; 3; 2; 1; 0].

Definition pad (msg : list Z) : list Z :=
  let len := Z.of_nat (List.length msg) in
  let zeros := (55 - len) mod 64 in
  msg ++ [128] ++ repeat 0 (Z.to_nat zeros) ++ length_bytes (8 * len).

Fixpoint words (bytes : list Z) : list Z :=
  match bytes with
  | b0 :: b1 :: b2 :: b3 :: rest =>
      (((b0 * 256 + b1) * 256 + b2) * 256 + b3) :: words rest
  | _ => []
  end.

Fixpoint blocks (fuel : nat) (bytes : list Z) : list (list Z) :=
  match fuel, bytes with
  | S fuel', _ :: _ => words (firstn 64 bytes) :: blocks fuel' (skipn 64 bytes)
  | _, _ => []
  end.

(** The message schedule, newest word first while it is extended. *)
Fixpoint extend (n : nat) (rev_w : list Z) : list Z :=
  match n with
  | O => rev_w
  | S n' =>
      let w := add32 (add32 (small_sigma1 (nth 1 rev_w 0)) (nth 6 rev_w 0))
                     (add32 (small_sigma0 (nth 14 rev_w 0)) (nth 15 rev_w 0)) in
      extend n' (w :: rev_w)
  end.

Definition schedule (block : list Z) : list Z := rev (extend 48 (rev block)).

Definition round (s : state) (kw : Z * Z) : state :=
  let t1 := add32 (add32 (add32 (hh s) (big_sigma1 (he s)))
                         (add32 (choose (he s) (hf s) (hg s)) (fst kw))) (snd kw) in
  let t2 := add32 (big_sigma0 (ha s)) (majority (ha s) (hb s) (hc s)) in
  State (add32 t1 t2) (ha s) (hb s) (hc s) (add32 (hd s) t1) (he s) (hf s) (hg s).

Definition compress (s : state) (block : list Z) : state :=
  let r := fold_left round (combine round_constants (schedule block)) s in
  State (add32 (ha s) (ha r)) (add32 (hb s) (hb r)) (add32 (hc s) (hc r))
        (add32 (hd s) (hd r)) (add32 (he s) (he r)) (add32 (hf s) (hf r))
        (add32 (hg s) (hg r)) (add32 (hh s) (hh r)).

Definition digest_state (msg : list Z) : state :=
  let padded := pad msg in
  fold_left compress (blocks (List.length padded) padded) initial_state.

Definition hex_word (x : Z) (rest : string) : string :=
  String (Json.hex_digit ((x / 268435456) mod 16))
  (String (Json.hex_digit ((x / 16777216) mod 16))
  (String (Json.hex_digit ((x / 1048576) mod 16))
  (String (Json.hex_digit ((x / 65536) mod 16))
  (String (Json.hex_digit ((x / 4096) mod 16))
  (String (Json.hex_digit ((x / 256) mod 16))
  (String (Json.hex_digit ((x / 16) mod 16))
  (String (Json.hex_digit (x mod 16)) rest))))))).

Definition hex_state (s : state) : string :=
  hex_word (ha s) (hex_word (hb s) (hex_word (hc s) (hex_word (hd s)
  (hex_word (he s) (hex_word (hf s) (hex_word (hg s) (hex_word (hh s) ""))))))).

Definition bytes_of_string (s : string) : list Z :=
  map (fun c => Z.of_N (N_of_ascii c)) (list_ascii_of_string s).

(** [hashlib.sha256(s.encode()).hexdigest()] *)
Definition hexdigest (s : string) : string := hex_state (digest_state (bytes_of_string s)).

End Sha256.

(** ** Collaborators and effects *)

Module World.
Import Py.

(** [GovernanceStorageBackend] (storage_backends.py): the abstract storage
    interface; each method may raise and may change the backend. *)
Class GovernanceStorageBackend (E : Type) : Type := {
  insert : string -> dict -> E -> outcome bool * E;
  update : string -> dict -> dict -> E -> outcome bool * E;
  query : string -> list pyval -> E -> outcome (list dict) * E;
  bulk_insert : string -> list dict -> E -> outcome bool * E
}.

(** The model registry: [get_compliance_report(model_id)]. *)
Class ModelRegistry (E : Type) : Type := {
  get_compliance_report : string -> E -> outcome dict * E
}.

(** [datetime.now()] *)
Class Clock (E : Type) : Type := {
  now : E -> Z * E
}.

(** Every call that reaches the storage backend or the registry. *)
Inductive call : Type :=
| CallInsert (table : string) (record : dict)
| CallUpdate (table : string) (condition data : dict)
| CallQuery (sql : string) (params : list pyval)
| CallRegistry (model_id : string).

Record world (E : Type) : Type := World { env : E; calls : list call }.
Arguments World {E} env calls.
Arguments env {E} w.
Arguments calls {E} w.

(** Computations that read and write a state and may raise; the state
    reached when an exception is raised is kept. *)
Definition M (S A : Type) : Type := S -> outcome A * S.

Definition ret {S A : Type} (a : A) : M S A := fun s => (Returns a, s).

Definition bind {S A B : Type} (m : M S A) (k : A -> M S B) : M S B :=
  fun s => match m s with
           | (Returns a, s') => k a s'
           | (Raises e, s') => (Raises e, s')
           end.

Definition raise {S A : Type} (e : exn) : M S A := fun s => (Raises e, s).

Definition lift {S A : Type} (o : outcome A) : M S A := fun s => (o, s).

(** [try: m] with the outcome handed to the continuation. *)
Definition attempt {S A : Type} (m : M S A) : M S (outcome A) :=
  fun s => match m s with (r, s') => (Returns r, s') end.

Declare Scope monad_scope.
Delimit Scope monad_scope with monad.
Notation "x <- m ;; k" := (bind m (fun x => k))
  (at level 61, m at next level, right associativity) : monad_scope.
Notation "m ;;; k" := (bind m (fun _ => k))
  (at level 61, right associativity) : monad_scope.

Section Calls.
Context {E : Type} `{GovernanceStorageBackend E} `{ModelRegistry E} `{Clock E}.

Definition datetime_now : M (world E) Z :=
  fun w => match now (env w) with (t, e) => (Returns t, World e (calls w)) end.

Definition storage_insert (table : string) (record : dict) : M (world E) bool :=
  fun w => match insert table record (env w) with
           | (r, e) => (r, World e (calls w ++ [CallInsert table record]))
           end.

Definition storage_update (table : string) (condition data : dict) : M (world E) bool :=
  fun w => match update table condition data (env w) with
           | (r, e) => (r, World e (calls w ++ [CallUpdate table condition data]))
           end.

Definition storage_query (sql : string) (params : list pyval) : M (world E) (list dict) :=
  fun w => match query sql params (env w) with
           | (r, e) => (r, World e (calls w ++ [CallQuery sql params]))
           end.

Definition registry_get_compliance_report (model_id : string) : M (world E) dict :=
  fun w => match get_compliance_report model_id (env w) with
           | (r, e) => (r, World e (calls w ++ [CallRegistry model_id]))
           end.
End Calls.

Definition is_write (c : call) : bool :=
  match c with
  | CallInsert _ _ | CallUpdate _ _ _ => true
  | _ => false
  end.

End World.

(** ** governance/data_lineage.py *)

Module Lineage.
Import Py World.
Local Open Scope monad_scope.

(** A pandas DataFrame: column labels in order, and the rows. *)
Record DataFrame : Type := { columns : list string; rows : list (list pyval) }.

(** What the tracker is handed as data: a DataFrame or a plain value. *)
Inductive pyobj : Type :=
| ODataFrame (df : DataFrame)
| OValue (v : pyval).

Record DataLineage : Type := {
  dataset_id : string;
  source_systems : list string;
  extraction_timestamp : Z;
  transformation_pipeline : list dict;
  data_quality_metrics : dict;
  content_hash : string
}.

(** The timestamp loop of [validate_lineage_chain]: [false] is its
    [return False], [true] is falling out of the loop. *)
Fixpoint check_timestamp_ordering (prev_timestamp : pyval) (pipeline : list dict)
  : outcome bool :=
  match pipeline with
  | [] => Returns true
  | step :: rest =>
      let step_time := dict_get_or step "timestamp" VNone in
      obind (if truthy step_time then py_lt step_time prev_timestamp
             else Returns false)
            (fun backwards =>
               if backwards then Returns false
               else check_timestamp_ordering step_time rest)
  end.

Definition required_fields : list string :=
  ["step"; "input_hash"; "output_hash"; "timestamp"].

Definition has_required_fields (step : dict) : bool :=
  forallb (fun field => dict_mem field step) required_fields.

(** The continuity loop, over adjacent steps. *)
Fixpoint check_hash_continuity (pipeline : list dict) : outcome bool :=
  match pipeline with
  | prev :: rest =>
      match rest with
      | cur :: _ =>
          obind (dict_getitem prev "output_hash") (fun prev_output =>
          obind (dict_getitem cur "input_hash") (fun current_input =>
          if py_ne prev_output current_input then Returns false
          else check_hash_continuity rest))
      | [] => Returns true
      end
  | [] => Returns true
  end.

Definition check_final_hash (self : DataLineage) : outcome bool :=
  match rev (transformation_pipeline self) with
  | last_step :: _ =>
      obind (dict_getitem last_step "output_hash") (fun last_output =>
      Returns (negb (py_ne (VStr (content_hash self)) last_output)))
  | [] => Returns true
  end.

Definition validate_lineage_chain (self : DataLineage) : outcome bool :=
  match transformation_pipeline self with
  | [] => Returns false
  | _ :: _ =>
      obind (check_timestamp_ordering (VDatetime (extraction_timestamp self))
                                      (transformation_pipeline self))
      (fun ordered =>
      if negb ordered then Returns false
      else if negb (forallb has_required_fields (transformation_pipeline self))
      then Returns false
      else
        obind (check_hash_continuity (transformation_pipeline self))
        (fun continuous =>
        if negb continuous then Returns false
        else
          obind (check_final_hash self) (fun final =>
          if negb final then Returns false else Returns true)))
  end.

(** [LineageTracker]: the storage it writes to (with the log of calls made
    so far) and the lineage under construction. *)
Record LineageTracker (E : Type) : Type := {
  storage : world E;
  current_lineage : option DataLineage
}.
Arguments storage {E} l.
Arguments current_lineage {E} l.

(** [LineageTracker.__init__] *)
Definition LineageTracker_init {E : Type} (storage_backend : world E) : LineageTracker E :=
  {| storage := storage_backend; current_lineage := None |}.

(** [df.to_dict(orient='records')] *)
Definition to_dict_records (df : DataFrame) : pyval :=
  VList (map (fun row => VDict (dict_of_pairs (combine (columns df) row))) (rows df)).

Definition _stable_hash `{Builtins} (data : pyobj) : outcome string :=
  obind
    match data with
    | ODataFrame df => Json.dumps true (to_dict_records df)
    | OValue (VDict d) => Json.dumps true (VDict d)
    | OValue v => Json.dumps true (VStr (str_of v))
    end
    (fun data_str => Returns (Sha256.hexdigest data_str)).

(** [len(data)] and [data.columns] *)
Definition data_len (data : pyobj) : outcome Z :=
  match data with
  | ODataFrame df => Returns (Z.of_nat (List.length (rows df)))
  | OValue v => py_len v
  end.

Definition data_columns (data : pyobj) : outcome (list string) :=
  match data with
  | ODataFrame df => Returns (columns df)
  | OValue v => Raises (no_attribute v "columns")
  end.

Definition mem_string (x : string) (l : list string) : bool :=
  existsb (String.eqb x) l.

(** [list(set(a) - set(b))] *)
Definition set_difference `{Builtins} (a b : list string) : list string :=
  set_order (nodup string_dec (filter (fun x => negb (mem_string x b)) a)).

Section Tracker.
Context {E : Type} `{GovernanceStorageBackend E} `{ModelRegistry E} `{Clock E}
        `{Builtins}.

Definition on_storage {A : Type} (m : M (world E) A) : M (LineageTracker E) A :=
  fun self => match m (storage self) with
              | (r, w) => (r, {| storage := w; current_lineage := current_lineage self |})
              end.

Definition set_current_lineage (l : DataLineage) : M (LineageTracker E) unit :=
  fun self => (Returns tt, {| storage := storage self; current_lineage := Some l |}).

Definition get_current_lineage : M (LineageTracker E) (option DataLineage) :=
  fun self => (Returns (current_lineage self), self).

Definition track_transformation (step_name : string) (input_data output_data : pyobj)
           (transformation_code : string) : M (LineageTracker E) unit :=
  cur <- get_current_lineage ;;
  match cur with
  | None =>
      raise (Exn ValueError "Must call track_extraction() before track_transformation()")
  | Some lineage =>
      input_hash <- lift (_stable_hash input_data) ;;
      output_hash <- lift (_stable_hash output_data) ;;
      timestamp <- on_storage datetime_now ;;
      row_count_before <- lift (data_len input_data) ;;
      row_count_after <- lift (data_len output_data) ;;
      out_columns <- lift (data_columns output_data) ;;
      in_columns <- lift (data_columns input_data) ;;
      let columns_added := set_difference out_columns in_columns in
      in_columns' <- lift (data_columns input_data) ;;
      out_columns' <- lift (data_columns output_data) ;;
      let columns_removed := set_difference in_columns' out_columns' in
      let transformation_step : dict :=
        [("step", VStr step_name);
         ("input_hash", VStr input_hash);
         ("output_hash", VStr output_hash);
         ("transformation_code", VStr transformation_code);
         ("timestamp", VDatetime timestamp);
         ("row_count_before", VInt row_count_before);
         ("row_count_after", VInt row_count_after);
         ("rows_removed", VInt (row_count_before - row_count_after));
         ("columns_added", VList (map VStr columns_added));
         ("columns_removed", VList (map VStr columns_removed))] in
      let appended :=
        {| dataset_id := dataset_id lineage;
           source_systems := source_systems lineage;
           extraction_timestamp := extraction_timestamp lineage;
           transformation_pipeline :=
             transformation_pipeline lineage ++ [transformation_step];
           data_quality_metrics := data_quality_metrics lineage;
           content_hash := content_hash lineage |} in
      set_current_lineage appended ;;;
      new_hash <- lift (_stable_hash output_data) ;;
      let updated :=
        {| dataset_id := dataset_id appended;
           source_systems := source_systems appended;
           extraction_timestamp := extraction_timestamp appended;
           transformation_pipeline := transformation_pipeline appended;
           data_quality_metrics := data_quality_metrics appended;
           content_hash := new_hash |} in
      set_current_lineage updated ;;;
      on_storage
        (storage_update "data_lineage"
           [("dataset_id", VStr (dataset_id updated))]
           [("transformation_pipeline",
             VList (map VDict (transformation_pipeline updated)));
            ("content_hash", VStr (content_hash updated))]) ;;;
      ret tt
  end.

Definition link_to_model (model_id : string) : M (LineageTracker E) dict :=
  cur <- get_current_lineage ;;
  match cur with
  | None => raise (Exn ValueError "No active lineage to link")
  | Some lineage =>
      linked_at <- on_storage datetime_now ;;
      let link_record : dict :=
        [("dataset_id", VStr (dataset_id lineage));
         ("model_id", VStr model_id);
         ("linked_at", VDatetime linked_at);
         ("dataset_hash", VStr (content_hash lineage))] in
      on_storage (storage_insert "model_data_lineage" link_record) ;;;
      ret link_record
  end.
End Tracker.

End Lineage.

(** ** compliance_gate.py *)

Module Gate.
Import Py World.
Local Open Scope monad_scope.

Inductive RiskLevel : Type := UNACCEPTABLE | HIGH | LIMITED | MINIMAL.

Definition RiskLevel_value (r : RiskLevel) : string :=
  match r with
  | UNACCEPTABLE => "unacceptable"
  | HIGH => "high"
  | LIMITED => "limited"
  | MINIMAL => "minimal"
  end.

Definition RiskLevel_eqb (a b : RiskLevel) : bool :=
  match a, b with
  | UNACCEPTABLE, UNACCEPTABLE | HIGH, HIGH | LIMITED, LIMITED | MINIMAL, MINIMAL => true
  | _, _ => false
  end.

(** [risk_level in levels] *)
Definition risk_in (r : RiskLevel) (levels : list RiskLevel) : bool :=
  existsb (RiskLevel_eqb r) levels.

Record ComplianceCheck (E : Type) : Type := {
  name : string;
  required_for_risk_levels : list RiskLevel;
  check_function : string -> RiskLevel -> M (world E) (bool * string);
  blocking : bool;
  description : string
}.
Arguments name {E} c.
Arguments required_for_risk_levels {E} c.
Arguments check_function {E} c.
Arguments blocking {E} c.
Arguments description {E} c.

Record ComplianceGate (E : Type) : Type := {
  config : dict;
  bias_threshold : pyval;
  min_accuracy_high : pyval;
  min_accuracy_limited : pyval;
  min_f1_high : pyval;
  min_f1_limited : pyval;
  max_risk_assessment_age : pyval;
  max_security_assessment_age : pyval;
  checks : list (ComplianceCheck E)
}.
Arguments config {E} c.
Arguments bias_threshold {E} c.
Arguments min_accuracy_high {E} c.
Arguments min_accuracy_limited {E} c.
Arguments min_f1_high {E} c.
Arguments min_f1_limited {E} c.
Arguments max_risk_assessment_age {E} c.
Arguments max_security_assessment_age {E} c.
Arguments checks {E} c.

Section Gate.
Context {E : Type} `{GovernanceStorageBackend E} `{ModelRegistry E} `{Clock E}
        `{Builtins}.

Definition _verify_risk_assessment (self : ComplianceGate E) (model_id : string)
           (risk_level : RiskLevel) : M (world E) (bool * string) :=
  r <- attempt (storage_query "SELECT * FROM risk_assessments WHERE model_id = %s"
                              [VStr model_id]) ;;
  match r with
  | Raises e => ret (false, "Database error: " ++ exn_str e)
  | Returns [] => ret (false, "No risk assessment found")
  | Returns (first :: _) =>
      let max_age_days :=
        if RiskLevel_eqb risk_level HIGH then max_risk_assessment_age self
        else VInt 365 in
      r <- attempt
             (completed_at <- lift (dict_getitem first "completed_at") ;;
              today <- datetime_now ;;
              age_days <- lift (days_since today completed_at) ;;
              too_old <- lift (py_gt (VInt age_days) max_age_days) ;;
              if too_old then
                ret (false, "Assessment " ++ str_int age_days ++ " days old (max: "
                              ++ str_of max_age_days ++ ")")
              else if negb (truthy (dict_get_or first "assessment_complete" (VBool false)))
              then ret (false, "Assessment marked as incomplete")
              else ret (true, "Valid assessment (age: " ++ str_int age_days ++ " days)")) ;;
      match r with
      | Returns res => ret res
      | Raises e =>
          match exn_kind e with
          | KeyError | TypeError => ret (false, "Invalid assessment data: " ++ exn_str e)
          | _ => raise e
          end
      end
  end.

(** The field loop of [_verify_data_lineage]: the message of its
    [return False], if it returns. *)
Fixpoint missing_fields (required : list string) (step : pyval)
  : outcome (list string) :=
  match required with
  | [] => Returns []
  | f :: rest =>
      obind (py_contains f step) (fun present =>
      obind (missing_fields rest step) (fun missing =>
      Returns (if present then missing else f :: missing)))
  end.

Fixpoint check_steps (i : Z) (steps : list pyval) : outcome (option string) :=
  match steps with
  | [] => Returns None
  | step :: rest =>
      obind (missing_fields ["step"; "timestamp"; "input_hash"; "output_hash"] step)
      (fun missing =>
         match missing with
         | [] => check_steps (i + 1) rest
         | _ :: _ =>
             Returns (Some ("Step " ++ str_int i ++ " missing fields: "
                              ++ str_of (VList (map VStr missing))))
         end)
  end.

Definition _verify_data_lineage (self : ComplianceGate E) (model_id : string)
           (risk_level : RiskLevel) : M (world E) (bool * string) :=
  r <- attempt (registry_get_compliance_report model_id) ;;
  match r with
  | Raises e => ret (false, "Could not retrieve model metadata: " ++ exn_str e)
  | Returns model_metadata =>
      let lineage_id := dict_get_or model_metadata "data_lineage_id" VNone in
      if negb (truthy lineage_id) then ret (false, "No data lineage ID")
      else
        r <- attempt (storage_query "SELECT * FROM data_lineage WHERE dataset_id = %s"
                                    [lineage_id]) ;;
        match r with
        | Raises e => ret (false, "Database error: " ++ exn_str e)
        | Returns [] => ret (false, "Lineage " ++ str_of lineage_id ++ " not found")
        | Returns (first :: _) =>
            let transformation_pipeline :=
              dict_get_or first "transformation_pipeline" (VList []) in
            n <- lift (py_len transformation_pipeline) ;;
            if n =? 0 then ret (false, "No transformation steps recorded")
            else
              steps <- lift (py_iter transformation_pipeline) ;;
              bad <- lift (check_steps 0 steps) ;;
              match bad with
              | Some msg => ret (false, msg)
              | None => ret (true, "Complete lineage with " ++ str_int n ++ " steps")
              end
        end
  end.

(** The attribute loop of [_verify_bias_thresholds]. *)
Fixpoint bias_failures (threshold : pyval) (items : list (string * pyval))
         (failed_attributes : list string) : outcome (list string) :=
  match items with
  | [] => Returns failed_attributes
  | (attribute, metrics) :: rest =>
      obind (py_get metrics "disparate_impact" (VFloat 1.0)) (fun fallback =>
      obind (py_get metrics "demographic_parity_difference" fallback)
      (fun demographic_parity =>
      obind (py_gt demographic_parity threshold) (fun exceeded =>
      if exceeded then
        obind (format_pct2 demographic_parity) (fun shown =>
        obind (format_pct2 threshold) (fun shown_threshold =>
        bias_failures threshold rest
          (failed_attributes ++
             [attribute ++ ": " ++ shown ++ " (threshold: " ++ shown_threshold ++ ")"])))
      else bias_failures threshold rest failed_attributes)))
  end.

Definition _verify_bias_thresholds (self : ComplianceGate E) (model_id : string)
           (risk_level : RiskLevel) : M (world E) (bool * string) :=
  r <- attempt (registry_get_compliance_report model_id) ;;
  match r with
  | Raises e => ret (false, "Could not retrieve model metadata: " ++ exn_str e)
  | Returns model_metadata =>
      bias_assessment <-
        lift (py_get (dict_get_or model_metadata "full_metadata" (VDict []))
                     "bias_assessment" (VDict [])) ;;
      if negb (truthy bias_assessment) then
        ret (false, "No bias assessment results found")
      else
        items <- lift (py_items bias_assessment) ;;
        failed_attributes <- lift (bias_failures (bias_threshold self) items []) ;;
        match failed_attributes with
        | _ :: _ =>
            ret (false, "Bias thresholds exceeded for: "
                          ++ String.concat ", " failed_attributes)
        | [] =>
            n <- lift (py_len bias_assessment) ;;
            ret (true, "Bias check passed for " ++ str_int n ++ " attributes")
        end
  end.

Definition _verify_documentation (self : ComplianceGate E) (model_id : string)
           (risk_level : RiskLevel) : M (world E) (bool * string) :=
  r <- attempt (registry_get_compliance_report model_id) ;;
  match r with
  | Raises e => ret (false, "Could not retrieve model metadata: " ++ exn_str e)
  | Returns model_metadata =>
      let model_card_id := dict_get_or model_metadata "model_card_id" VNone in
      if negb (truthy model_card_id) then ret (false, "No model card")
      else ret (true, "Documentation complete")
  end.

Definition _verify_oversight_config (self : ComplianceGate E) (model_id : string)
           (risk_level : RiskLevel) : M (world E) (bool * string) :=
  r <- attempt (registry_get_compliance_report model_id) ;;
  match r with
  | Raises e => ret (false, "Could not retrieve model metadata: " ++ exn_str e)
  | Returns model_metadata =>
      if negb (truthy (dict_get_or model_metadata "human_oversight_enabled" VNone))
      then ret (false, "Human oversight not enabled")
      else
        measures <-
          lift (py_get (dict_get_or model_metadata "full_metadata" (VDict []))
                       "oversight_measures" (VList [])) ;;
        if negb (truthy measures) then ret (false, "No oversight measures documented")
        else
          n <- lift (py_len measures) ;;
          ret (true, "Oversight configured with " ++ str_int n ++ " measures")
  end.

Definition _verify_performance (self : ComplianceGate E) (model_id : string)
           (risk_level : RiskLevel) : M (world E) (bool * string) :=
  r <- attempt (registry_get_compliance_report model_id) ;;
  match r with
  | Raises e => ret (false, "Could not retrieve model metadata: " ++ exn_str e)
  | Returns model_metadata =>
      accuracy_metrics <-
        lift (py_get (dict_get_or model_metadata "full_metadata" (VDict []))
                     "accuracy_metrics" (VDict [])) ;;
      if negb (truthy accuracy_metrics) then ret (false, "No performance metrics")
      else
        let min_accuracy :=
          if RiskLevel_eqb risk_level HIGH then min_accuracy_high self
          else min_accuracy_limited self in
        let min_f1 :=
          if RiskLevel_eqb risk_level HIGH then min_f1_high self
          else min_f1_limited self in
        accuracy <- lift (py_get accuracy_metrics "accuracy" (VInt 0)) ;;
        f1_fallback <- lift (py_get accuracy_metrics "f1" (VInt 0)) ;;
        f1_score <- lift (py_get accuracy_metrics "f1_score" f1_fallback) ;;
        low_accuracy <- lift (py_lt accuracy min_accuracy) ;;
        issues <-
          (if low_accuracy then
             shown <- lift (format_pct2 accuracy) ;;
             shown_min <- lift (format_pct2 min_accuracy) ;;
             ret ["Accuracy " ++ shown ++ " below " ++ shown_min]
           else ret []) ;;
        low_f1 <- lift (py_lt f1_score min_f1) ;;
        issues <-
          (if low_f1 then
             shown <- lift (format_pct2 f1_score) ;;
             shown_min <- lift (format_pct2 min_f1) ;;
             ret (issues ++ [("F1 score " ++ shown ++ " below " ++ shown_min)%string])%list
           else ret issues) ;;
        match issues with
        | _ :: _ => ret (false, String.concat "; " issues)
        | [] =>
            shown_accuracy <- lift (format_pct2 accuracy) ;;
            shown_f1 <- lift (format_pct2 f1_score) ;;
            ret (true, "Performance passed (accuracy: " ++ shown_accuracy
                         ++ ", F1: " ++ shown_f1 ++ ")")
        end
  end.

Definition _verify_security (self : ComplianceGate E) (model_id : string)
           (risk_level : RiskLevel) : M (world E) (bool * string) :=
  r <- attempt (registry_get_compliance_report model_id) ;;
  match r with
  | Raises e => ret (false, "Could not retrieve model metadata: " ++ exn_str e)
  | Returns model_metadata =>
      let security_id := dict_get_or model_metadata "security_assessment_id" VNone in
      if negb (truthy security_id) then ret (false, "No security assessment performed")
      else
        r <- attempt
               (assessment <-
                  storage_query "SELECT * FROM security_assessments WHERE assessment_id = %s"
                                [security_id] ;;
                match assessment with
                | [] => ret (false, "Security assessment " ++ str_of security_id
                                      ++ " not found")
                | first :: _ =>
                    assessed_at <- lift (dict_getitem first "completed_at") ;;
                    today <- datetime_now ;;
                    age_days <- lift (days_since today assessed_at) ;;
                    too_old <- lift (py_gt (VInt age_days) (max_security_assessment_age self)) ;;
                    if too_old then
                      ret (false, "Security assessment " ++ str_int age_days
                                    ++ " days old (max: "
                                    ++ str_of (max_security_assessment_age self) ++ ")")
                    else
                      ret (true, "Security assessment completed " ++ str_int age_days
                                   ++ " days ago")
                end) ;;
        match r with
        | Returns res => ret res
        | Raises e => ret (false, "Error checking security assessment: " ++ exn_str e)
        end
  end.

Definition _define_checks (self : ComplianceGate E) : list (ComplianceCheck E) :=
  [ {| name := "risk_assessment_complete";
       required_for_risk_levels := [HIGH; LIMITED];
       check_function := _verify_risk_assessment self;
       blocking := true;
       description := "Valid risk assessment must exist and be recent" |};
    {| name := "data_lineage_verified";
       required_for_risk_levels := [HIGH];
       check_function := _verify_data_lineage self;
       blocking := true;
       description := "Complete data lineage from source to model" |};
    {| name := "bias_assessment_passed";
       required_for_risk_levels := [HIGH];
       check_function := _verify_bias_thresholds self;
       blocking := true;
       description := "Bias metrics within acceptable thresholds" |};
    {| name := "technical_documentation_complete";
       required_for_risk_levels := [HIGH; LIMITED];
       check_function := _verify_documentation self;
       blocking := true;
       description := "Model card and technical docs complete" |};
    {| name := "human_oversight_configured";
       required_for_risk_levels := [HIGH];
       check_function := _verify_oversight_config self;
       blocking := true;
       description := "Human oversight measures configured" |};
    {| name := "performance_meets_threshold";
       required_for_risk_levels := [HIGH; LIMITED];
       check_function := _verify_performance self;
       blocking := true;
       description := "Model accuracy meets minimum standards" |};
    {| name := "security_scan_passed";
       required_for_risk_levels := [HIGH];
       check_function := _verify_security self;
       blocking := false;
       description := "Security vulnerability scan completed" |} ].

(** [ComplianceGate.__init__]: [config or {}], the thresholds with their
    defaults, then the checks, bound to the gate whose thresholds are set. *)
Definition ComplianceGate_init (cfg : option dict) : ComplianceGate E :=
  let config :=
    match cfg with
    | Some c => if truthy (VDict c) then c else []
    | None => []
    end in
  let self :=
    {| config := config;
       bias_threshold := dict_get_or config "bias_threshold" (VFloat 0.10);
       min_accuracy_high := dict_get_or config "min_accuracy_high_risk" (VFloat 0.85);
       min_accuracy_limited := dict_get_or config "min_accuracy_limited_risk" (VFloat 0.75);
       min_f1_high := dict_get_or config "min_f1_high_risk" (VFloat 0.80);
       min_f1_limited := dict_get_or config "min_f1_limited_risk" (VFloat 0.70);
       max_risk_assessment_age := dict_get_or config "max_risk_assessment_age_days" (VInt 180);
       max_security_assessment_age :=
         dict_get_or config "max_security_assessment_age_days" (VInt 90);
       checks := [] |} in
  {| config := config;
     bias_threshold := bias_threshold self;
     min_accuracy_high := min_accuracy_high self;
     min_accuracy_limited := min_accuracy_limited self;
     min_f1_high := min_f1_high self;
     min_f1_limited := min_f1_limited self;
     max_risk_assessment_age := max_risk_assessment_age self;
     max_security_assessment_age := max_security_assessment_age self;
     checks := _define_checks self |}.

(** The dict built for one evaluated check. *)
Definition check_result (check_name description : string) (passed : bool)
           (message : string) (blocking : bool) : dict :=
  [("check_name", VStr check_name);
   ("description", VStr description);
   ("passed", VBool passed);
   ("message", VStr message);
   ("blocking", VBool blocking)].

(** The three lists the loop of [validate_deployment] fills. *)
Record tally : Type := Tally {
  failures : list dict;
  warnings : list dict;
  passed_checks : list dict
}.

Fixpoint run_checks (todo : list (ComplianceCheck E)) (model_id : string)
         (risk_level : RiskLevel) (acc : tally) : M (world E) tally :=
  match todo with
  | [] => ret acc
  | check :: rest =>
      if negb (risk_in risk_level (required_for_risk_levels check)) then
        run_checks rest model_id risk_level acc
      else
        r <- attempt (check_function check model_id risk_level) ;;
        match r with
        | Returns (passed, message) =>
            let result :=
              check_result (name check) (description check) passed message
                           (blocking check) in
            if passed then
              run_checks rest model_id risk_level
                (Tally (failures acc) (warnings acc) (passed_checks acc ++ [result]))
            else if blocking check then
              run_checks rest model_id risk_level
                (Tally (failures acc ++ [result]) (warnings acc) (passed_checks acc))
            else
              run_checks rest model_id risk_level
                (Tally (failures acc) (warnings acc ++ [result]) (passed_checks acc))
        | Raises e =>
            run_checks rest model_id risk_level
              (Tally (failures acc ++
                        [check_result (name check) (description check) false
                                      ("Check failed: " ++ exn_str e) true])
                     (warnings acc) (passed_checks acc))
        end
  end.

Definition _log_validation_attempt (self : ComplianceGate E) (model_id : string)
           (report : dict) : M (world E) unit :=
  can_deploy <- lift (dict_getitem report "can_deploy") ;;
  checks_run <- lift (dict_getitem report "checks_run") ;;
  report_failures <- lift (dict_getitem report "failures") ;;
  failures_count <- lift (py_len report_failures) ;;
  full_report <- lift (Json.dumps false (VDict report)) ;;
  timestamp <- datetime_now ;;
  let audit_entry : dict :=
    [("event_type", VStr "compliance_gate_validation");
     ("model_id", VStr model_id);
     ("can_deploy", can_deploy);
     ("checks_run", checks_run);
     ("failures_count", VInt failures_count);
     ("full_report", VStr full_report);
     ("timestamp", VDatetime timestamp)] in
  storage_insert "audit_log" audit_entry ;;;
  ret tt.

Definition applicable (self : ComplianceGate E) (risk_level : RiskLevel)
  : list (ComplianceCheck E) :=
  filter (fun c => risk_in risk_level (required_for_risk_levels c)) (checks self).

Definition validate_deployment (self : ComplianceGate E) (model_id : string)
           (risk_level : RiskLevel) : M (world E) (bool * dict) :=
  t <- run_checks (checks self) model_id risk_level (Tally [] [] []) ;;
  let can_deploy := Nat.eqb (List.length (failures t)) 0 in
  let checks_run := Z.of_nat (List.length (applicable self risk_level)) in
  timestamp <- datetime_now ;;
  let report : dict :=
    [("model_id", VStr model_id);
     ("risk_level", VStr (RiskLevel_value risk_level));
     ("can_deploy", VBool can_deploy);
     ("checks_run", VInt checks_run);
     ("passed", VList (map VDict (passed_checks t)));
     ("warnings", VList (map VDict (warnings t)));
     ("failures", VList (map VDict (failures t)));
     ("timestamp", VStr (isoformat timestamp))] in
  _log_validation_attempt self model_id report ;;;
  ret (can_deploy, report).
End Gate.

End Gate.

(** ** Vocabulary of the lineage properties *)

Module LineageProps.
Import Py Lineage.

Definition with_pipeline (self : DataLineage) (pipeline : list dict) : DataLineage :=
  {| dataset_id := dataset_id self;
     source_systems := source_systems self;
     extraction_timestamp := extraction_timestamp self;
     transformation_pipeline := pipeline;
     data_quality_metrics := data_quality_metrics self;
     content_hash := content_hash self |}.

Definition with_content_hash (self : DataLineage) (h : string) : DataLineage :=
  {| dataset_id := dataset_id self;
     source_systems := source_systems self;
     extraction_timestamp := extraction_timestamp self;
     transformation_pipeline := transformation_pipeline self;
     data_quality_metrics := data_quality_metrics self;
     content_hash := h |}.

(** [pipeline[i]['input_hash'] = v] *)
Fixpoint set_input_hash (i : nat) (v : pyval) (pipeline : list dict) : list dict :=
  match pipeline, i with
  | [], _ => []
  | step :: rest, O => dict_set "input_hash" v step :: rest
  | step :: rest, S i' => step :: set_input_hash i' v rest
  end.

(** The datetime a step carries as its timestamp, if it carries one. *)
Definition timestamp_of (step : dict) : option Z :=
  match dict_get "timestamp" step with
  | Some (VDatetime t) => Some t
  | _ => None
  end.

(** Every step carries a datetime, none earlier than the one before it,
    the first none earlier than [prev]. *)
Fixpoint nondecreasing_from (prev : Z) (pipeline : list dict) : bool :=
  match pipeline with
  | [] => true
  | step :: rest =>
      match timestamp_of step with
      | Some t => (prev <=? t) && nondecreasing_from t rest
      | None => false
      end
  end.

(** The same, with nothing asked of the first step's datetime. *)
Definition nondecreasing (pipeline : list dict) : bool :=
  match pipeline with
  | [] => true
  | step :: rest =>
      match timestamp_of step with
      | Some t => nondecreasing_from t rest
      | None => false
      end
  end.

(** Each step's [input_hash] equals the previous step's [output_hash]. *)
Fixpoint chained (pipeline : list dict) : bool :=
  match pipeline with
  | prev :: rest =>
      match rest with
      | cur :: _ =>
          match dict_get "output_hash" prev, dict_get "input_hash" cur with
          | Some a, Some b => py_eq a b
          | _, _ => false
          end && chained rest
      | [] => true
      end
  | [] => true
  end.

(** [content_hash] equals the last step's [output_hash]. *)
Definition final_hash_matches (self : DataLineage) : bool :=
  match rev (transformation_pipeline self) with
  | last_step :: _ =>
      match dict_get "output_hash" last_step with
      | Some h => py_eq (VStr (content_hash self)) h
      | None => false
      end
  | [] => false
  end.

Definition step (name input_hash output_hash : string) (timestamp : pyval) : dict :=
  [("step", VStr name); ("input_hash", VStr input_hash);
   ("output_hash", VStr output_hash); ("timestamp", timestamp)].

(** Two hash-linked steps stamped 10 and 20, extraction stamped 100. *)
Definition early_first_step : DataLineage :=
  {| dataset_id := "test_123";
     source_systems := ["test_db"];
     extraction_timestamp := 100;
     transformation_pipeline :=
       [step "extraction" "" "abc123" (VDatetime 10);
        step "transform1" "abc123" "def456" (VDatetime 20)];
     data_quality_metrics := [];
     content_hash := "def456" |}.

(** The same chain, extraction stamped 5. *)
Definition valid_chain : DataLineage :=
  {| dataset_id := "test_123";
     source_systems := ["test_db"];
     extraction_timestamp := 5;
     transformation_pipeline :=
       [step "extraction" "" "abc123" (VDatetime 10);
        step "transform1" "abc123" "def456" (VDatetime 20)];
     data_quality_metrics := [];
     content_hash := "def456" |}.

(** A first step without a timestamp, then a stamped step. *)
Definition missing_first_timestamp : DataLineage :=
  {| dataset_id := "test_123";
     source_systems := ["test_db"];
     extraction_timestamp := 5;
     transformation_pipeline :=
       [[("step", VStr "extraction"); ("input_hash", VStr "");
         ("output_hash", VStr "abc123")];
        step "transform1" "abc123" "def456" (VDatetime 20)];
     data_quality_metrics := [];
     content_hash := "def456" |}.

End LineageProps.

(** ** Vocabulary of the gate properties *)

Module GateProps.
Import Py World Gate.
Local Open Scope monad_scope.

(** Values [json.dumps] accepts: no datetime at any depth. *)
Fixpoint serializable (v : pyval) : bool :=
  match v with
  | VDatetime _ => false
  | VList l => forallb serializable l
  | VDict d => forallb (fun kv => serializable (snd kv)) d
  | _ => true
  end.

(** The metric [_verify_bias_thresholds] reads for one attribute. *)
Definition parity_metric (metrics : pyval) : outcome pyval :=
  obind (py_get metrics "disparate_impact" (VFloat 1.0)) (fun fallback =>
  py_get metrics "demographic_parity_difference" fallback).

(** The attribute's metric is read and does not exceed the threshold. *)
Definition within_threshold (threshold metrics : pyval) : Prop :=
  exists m, parity_metric metrics = Returns m /\ py_gt m threshold = Returns false.

(** The metric is a float, and [metric <= threshold] holds. *)
Definition at_most_threshold (threshold : float) (metrics : pyval) : Prop :=
  exists m, parity_metric metrics = Returns (VFloat m) /\ PrimFloat.leb m threshold = true.

Section GateProps.
Context {E : Type} `{GovernanceStorageBackend E} `{ModelRegistry E} `{Clock E}
        `{Builtins}.

(** Each check of [todo] with the outcome of calling it, in order. *)
Fixpoint evaluate (todo : list (ComplianceCheck E)) (model_id : string)
         (risk_level : RiskLevel)
  : M (world E) (list (ComplianceCheck E * outcome (bool * string))) :=
  match todo with
  | [] => ret []
  | check :: rest =>
      r <- attempt (check_function check model_id risk_level) ;;
      rs <- evaluate rest model_id risk_level ;;
      ret ((check, r) :: rs)
  end.

Definition rule_passed (cr : ComplianceCheck E * outcome (bool * string)) : bool :=
  match snd cr with
  | Returns (true, _) => true
  | _ => false
  end.

Definition rule_failed_blocking (cr : ComplianceCheck E * outcome (bool * string)) : bool :=
  match snd cr with
  | Returns (false, _) => blocking (fst cr)
  | Returns (true, _) => false
  | Raises _ => true
  end.

Definition rule_failed_warning (cr : ComplianceCheck E * outcome (bool * string)) : bool :=
  match snd cr with
  | Returns (false, _) => negb (blocking (fst cr))
  | _ => false
  end.

(** The dict reported for an evaluated check. *)
Definition result_of (cr : ComplianceCheck E * outcome (bool * string)) : dict :=
  match snd cr with
  | Returns (passed, message) =>
      check_result (name (fst cr)) (description (fst cr)) passed message
                   (blocking (fst cr))
  | Raises e =>
      check_result (name (fst cr)) (description (fst cr)) false
                   ("Check failed: " ++ exn_str e) true
  end.

Definition report_of (model_id : string) (risk_level : RiskLevel)
           (evaluated : list (ComplianceCheck E * outcome (bool * string)))
           (timestamp : Z) : dict :=
  [("model_id", VStr model_id);
   ("risk_level", VStr (RiskLevel_value risk_level));
   ("can_deploy",
    VBool (Nat.eqb (List.length (filter rule_failed_blocking evaluated)) 0));
   ("checks_run", VInt (Z.of_nat (List.length evaluated)));
   ("passed", VList (map VDict (map result_of (filter rule_passed evaluated))));
   ("warnings", VList (map VDict (map result_of (filter rule_failed_warning evaluated))));
   ("failures", VList (map VDict (map result_of (filter rule_failed_blocking evaluated))));
   ("timestamp", VStr (isoformat timestamp))].

Definition audit_entry_of (model_id : string) (report : dict) (full_report : string)
           (timestamp : Z) : dict :=
  [("event_type", VStr "compliance_gate_validation");
   ("model_id", VStr model_id);
   ("can_deploy", dict_get_or report "can_deploy" VNone);
   ("checks_run", dict_get_or report "checks_run" VNone);
   ("failures_count",
    VInt match dict_get "failures" report with
         | Some (VList l) => Z.of_nat (List.length l)
         | _ => 0
         end);
   ("full_report", VStr full_report);
   ("timestamp", VDatetime timestamp)].

(** Among the evaluated checks, the security scan returned a failure and
    every other check passed. *)
Definition only_security_fails
           (evaluated : list (ComplianceCheck E * outcome (bool * string))) : Prop :=
  forall cr, In cr evaluated ->
    (name (fst cr) = "security_scan_passed" -> exists msg, snd cr = Returns (false, msg)) /\
    (name (fst cr) <> "security_scan_passed" -> rule_passed cr = true).

(** A computation that reaches the collaborators only to read: every call
    it logs is a query or a registry lookup. *)
Definition reads_only {A : Type} (m : M (world E) A) : Prop :=
  forall w, exists cs,
    calls (snd (m w)) = (calls w ++ cs)%list /\
    Forall (fun c => is_write c = false) cs.
End GateProps.

End GateProps.

(** ** A small in-memory environment for the scenarios *)

Module Demo.
Import Py World Lineage Gate.

Record env : Type := {
  clock : Z;
  metadata : outcome dict;
  risk_assessments : list dict;
  data_lineage : list dict;
  security_assessments : list dict;
  written : list (string * dict)
}.

Definition tick (e : env) : env :=
  {| clock := clock e + 1; metadata := metadata e;
     risk_assessments := risk_assessments e; data_lineage := data_lineage e;
     security_assessments := security_assessments e; written := written e |}.

Definition write (table : string) (record : dict) (e : env) : env :=
  {| clock := clock e; metadata := metadata e;
     risk_assessments := risk_assessments e; data_lineage := data_lineage e;
     security_assessments := security_assessments e;
     written := written e ++ [(table, record)] |}.

Definition rows_for (sql : string) (e : env) : list dict :=
  if String.eqb sql "SELECT * FROM risk_assessments WHERE model_id = %s"
  then risk_assessments e
  else if String.eqb sql "SELECT * FROM data_lineage WHERE dataset_id = %s"
  then data_lineage e
  else if String.eqb sql "SELECT * FROM security_assessments WHERE assessment_id = %s"
  then security_assessments e
  else [].

(** A backend that answers like the repository's own: writes return. *)
#[export] Instance demo_storage : GovernanceStorageBackend env := {
  insert table record e := (Returns true, write table record e);
  update table condition data e := (Returns true, write table data e);
  query sql params e := (Returns (rows_for sql e), e);
  bulk_insert table records e :=
    (Returns true, fold_left (fun e r => write table r e) records e)
}.

#[export] Instance demo_registry : ModelRegistry env := {
  get_compliance_report model_id e := (metadata e, e)
}.

#[export] Instance demo_clock : Clock env := {
  now e := (clock e, tick e)
}.

(** Stand-ins for the builtins whose text the scenarios do not depend on. *)
#[export] Instance demo_builtins : Builtins := {
  py_str v := "<" ++ type_name v ++ ">";
  isoformat t := str_int t;
  strftime t fmt := fmt;
  set_order l := l
}.

Definition day : Z := microseconds_per_day.

Definition full_metadata (parity : float) : pyval :=
  VDict [("bias_assessment",
          VDict [("gender", VDict [("demographic_parity_difference", VFloat parity)])]);
         ("oversight_measures", VList [VStr "manual review"]);
         ("accuracy_metrics",
          VDict [("accuracy", VFloat 0.90); ("f1_score", VFloat 0.88)])].

(** Metadata of a model that meets every rule but has no security
    assessment on record. *)
Definition compliant_metadata : dict :=
  [("data_lineage_id", VStr "dataset_1");
   ("model_card_id", VStr "card_1");
   ("human_oversight_enabled", VBool true);
   ("risk_level", VStr "high");
   ("full_metadata", full_metadata 0.05)].

(** The same model with a bias assessment reporting 0.15 for "gender". *)
Definition biased_metadata : dict :=
  [("data_lineage_id", VStr "dataset_1");
   ("model_card_id", VStr "card_1");
   ("human_oversight_enabled", VBool true);
   ("risk_level", VStr "high");
   ("full_metadata", full_metadata 0.15)].

(** A model whose bias assessment is present but empty. *)
Definition empty_bias_metadata : dict :=
  [("full_metadata", VDict [("bias_assessment", VDict [])])].

Definition lineage_row : dict :=
  [("dataset_id", VStr "dataset_1");
   ("transformation_pipeline",
    VList [VDict (LineageProps.step "extraction" "" "abc123" (VDatetime 10))])].

Definition env_with (m : dict) : env :=
  {| clock := 100 * day;
     metadata := Returns m;
     risk_assessments :=
       [[("completed_at", VDatetime (90 * day)); ("assessment_complete", VBool true)]];
     data_lineage := [lineage_row];
     security_assessments := [];
     written := [] |}.

Definition compliant_env : env := env_with compliant_metadata.

Definition start (e : env) : world env := World e [].

Definition high_gate : ComplianceGate env :=
  ComplianceGate_init (Some [("bias_threshold", VFloat 0.10)]).

Definition default_gate : ComplianceGate env := ComplianceGate_init None.

Definition fresh_tracker : LineageTracker env :=
  LineageTracker_init (start compliant_env).

Definition frame (cols : list string) (rs : list (list pyval)) : pyobj :=
  ODataFrame {| columns := cols; rows := rs |}.

End Demo.

(** ** The same environment behind a storage whose writes raise *)

Module Outage.
Import Py World Gate.

Record env : Type := Down { inner : Demo.env }.

Definition unavailable : exn :=
  Exn (OtherError "ConnectionError") "storage unavailable".

#[export] Instance outage_storage : GovernanceStorageBackend env := {
  insert table record e := (Raises unavailable, e);
  update table condition data e := (Raises unavailable, e);
  query sql params e := (Returns (Demo.rows_for sql (inner e)), e);
  bulk_insert table records e := (Raises unavailable, e)
}.

#[export] Instance outage_registry : ModelRegistry env := {
  get_compliance_report model_id e := (Demo.metadata (inner e), e)
}.

#[export] Instance outage_clock : Clock env := {
  now e := (Demo.clock (inner e), Down (Demo.tick (inner e)))
}.

Definition start : world env := World (Down Demo.compliant_env) [].

Definition gate : ComplianceGate env :=
  @ComplianceGate_init env _ _ _ Demo.demo_builtins None.

End Outage.

(** ** The same environment behind a registry that always reports a bias
    assessment of 0.15 for "gender" *)

Module Biased.
Import Py World Gate.

Record env : Type := Wrap { inner : Demo.env }.

#[export] Instance biased_storage : GovernanceStorageBackend env := {
  insert table record e := (Returns true, Wrap (Demo.write table record (inner e)));
  update table condition data e := (Returns true, Wrap (Demo.write table data (inner e)));
  query sql params e := (Returns (Demo.rows_for sql (inner e)), e);
  bulk_insert table records e :=
    (Returns true, Wrap (fold_left (fun e r => Demo.write table r e) records (inner e)))
}.

#[export] Instance biased_registry : ModelRegistry env := {
  get_compliance_report model_id e := (Returns Demo.biased_metadata, e)
}.

#[export] Instance biased_clock : Clock env := {
  now e := (Demo.clock (inner e), Wrap (Demo.tick (inner e)))
}.

Definition start : world env := World (Wrap Demo.compliant_env) [].

End Biased.

(** ** Vocabulary of the hashing properties *)

Module HashProps.
Import Py Lineage.

(** The row dicts of a frame, as [to_dict(orient='records')] builds them. *)
Definition records (df : DataFrame) : list dict :=
  map (fun row => dict_of_pairs (combine (columns df) row)) (rows df).

(** Two dicts that map every key alike. *)
Definition same_mapping (d1 d2 : dict) : Prop :=
  forall k, dict_get k d1 = dict_get k d2.

(** Two inputs with the same logical content that differ at most in the
    order of their columns (frames) or keys (dicts): the same rows in the
    same order, each row the same mapping from column name to value. *)
Inductive reordered : pyobj -> pyobj -> Prop :=
| reordered_frames (a b : DataFrame) :
    NoDup (columns a) -> NoDup (columns b) ->
    Forall2 same_mapping (records a) (records b) ->
    reordered (ODataFrame a) (ODataFrame b)
| reordered_dicts (d1 d2 : dict) :
    NoDup (map fst d1) -> NoDup (map fst d2) ->
    same_mapping d1 d2 ->
    reordered (OValue (VDict d1)) (OValue (VDict d2)).

(** Every value held is one [json.dumps] accepts. *)
Definition content_serializable (data : pyobj) : bool :=
  match data with
  | ODataFrame df => forallb (forallb GateProps.serializable) (rows df)
  | OValue v => GateProps.serializable v
  end.

(** A string of lower-case hexadecimal digits. *)
Definition is_hex_char (c : ascii) : bool :=
  existsb (Ascii.eqb c) (list_ascii_of_string "0123456789abcdef").

Definition hex_string (s : string) : bool :=
  forallb is_hex_char (list_ascii_of_string s).

(** The frame of the repository's test, and the same with its columns swapped. *)
Definition frame_ab : pyobj :=
  Demo.frame ["a"; "b"] [[VInt 1; VInt 4]; [VInt 2; VInt 5]; [VInt 3; VInt 6]].

Definition frame_ba : pyobj :=
  Demo.frame ["b"; "a"] [[VInt 4; VInt 1]; [VInt 5; VInt 2]; [VInt 6; VInt 3]].

(** The test frame with its rows in the opposite order. *)
Definition frame_ab_rows_reversed : pyobj :=
  Demo.frame ["a"; "b"] [[VInt 3; VInt 6]; [VInt 2; VInt 5]; [VInt 1; VInt 4]].

(** A frame with a datetime column, and the same with its columns swapped. *)
Definition dated_frame : pyobj :=
  Demo.frame ["user_id"; "signup"] [[VInt 1; VDatetime 0]].

Definition dated_frame_swapped : pyobj :=
  Demo.frame ["signup"; "user_id"] [[VDatetime 0; VInt 1]].

End HashProps.

(** ** Vocabulary of the rule properties *)

Module RuleProps.
Import Py World Gate.

(** The accuracy and F1 [_verify_performance] reads from the metrics. *)
Definition accuracy_of (accuracy_metrics : dict) : pyval :=
  dict_get_or accuracy_metrics "accuracy" (VInt 0).

Definition f1_of (accuracy_metrics : dict) : pyval :=
  dict_get_or accuracy_metrics "f1_score" (dict_get_or accuracy_metrics "f1" (VInt 0)).

(** The thresholds [_verify_performance] applies: the high-risk pair for
    [HIGH], the limited-risk pair for every other level. *)
Definition min_accuracy_for {E : Type} (self : ComplianceGate E) (risk_level : RiskLevel)
  : pyval :=
  if RiskLevel_eqb risk_level HIGH then min_accuracy_high self
  else min_accuracy_limited self.

Definition min_f1_for {E : Type} (self : ComplianceGate E) (risk_level : RiskLevel)
  : pyval :=
  if RiskLevel_eqb risk_level HIGH then min_f1_high self else min_f1_limited self.

(** The message of [_verify_performance] for two float metrics. *)
Definition performance_message (accuracy f1 min_accuracy min_f1 : float) : string :=
  match PrimFloat.ltb accuracy min_accuracy, PrimFloat.ltb f1 min_f1 with
  | false, false =>
      "Performance passed (accuracy: " ++ percent2 accuracy ++ ", F1: "
        ++ percent2 f1 ++ ")"
  | true, false =>
      "Accuracy " ++ percent2 accuracy ++ " below " ++ percent2 min_accuracy
  | false, true =>
      "F1 score " ++ percent2 f1 ++ " below " ++ percent2 min_f1
  | true, true =>
      ("Accuracy " ++ percent2 accuracy ++ " below " ++ percent2 min_accuracy)
        ++ "; " ++ ("F1 score " ++ percent2 f1 ++ " below " ++ percent2 min_f1)
  end.

(** The oldest risk assessment [_verify_risk_assessment] accepts, in days:
    the configured age for [HIGH], 365 for every other level. *)
Definition max_assessment_age_for {E : Type} (self : ComplianceGate E)
           (risk_level : RiskLevel) : pyval :=
  if RiskLevel_eqb risk_level HIGH then max_risk_assessment_age self else VInt 365.

Definition risk_assessment_sql : string :=
  "SELECT * FROM risk_assessments WHERE model_id = %s".

Definition data_lineage_sql : string :=
  "SELECT * FROM data_lineage WHERE dataset_id = %s".

Definition not_a_number : float := PrimFloat.div 0%float 0%float.

(** The calls a computation adds to the log. *)
Definition logs {E A : Type} (m : M (world E) A) (w : world E) (cs : list call) : Prop :=
  calls (snd (m w)) = (calls w ++ cs)%list.

(** A model whose accuracy and F1 sit exactly on the default high-risk
    thresholds. *)
Definition boundary_metadata : dict :=
  [("full_metadata",
    VDict [("accuracy_metrics",
            VDict [("accuracy", VFloat 0.85); ("f1_score", VFloat 0.80)])])].

(** A model whose metrics are all NaN. *)
Definition nan_metadata : dict :=
  [("full_metadata",
    VDict [("bias_assessment",
            VDict [("gender",
                    VDict [("demographic_parity_difference", VFloat not_a_number)])]);
           ("accuracy_metrics",
            VDict [("accuracy", VFloat not_a_number); ("f1", VFloat not_a_number)])])].

(** The row a stored lineage record answers a query with. *)
Definition stored_row (lineage : Lineage.DataLineage) : dict :=
  [("dataset_id", VStr (Lineage.dataset_id lineage));
   ("transformation_pipeline",
    VList (map VDict (Lineage.transformation_pipeline lineage)))].

(** The demo environment with another lineage table. *)
Definition env_with_lineage (rows : list dict) : Demo.env :=
  {| Demo.clock := Demo.clock Demo.compliant_env;
     Demo.metadata := Demo.metadata Demo.compliant_env;
     Demo.risk_assessments := Demo.risk_assessments Demo.compliant_env;
     Demo.data_lineage := rows;
     Demo.security_assessments := Demo.security_assessments Demo.compliant_env;
     Demo.written := [] |}.

(** A risk assessment completed 200 days before the demo clock. *)
Definition old_assessment_env : Demo.env :=
  {| Demo.clock := 300 * Demo.day;
     Demo.metadata := Returns Demo.compliant_metadata;
     Demo.risk_assessments :=
       [[("completed_at", VDatetime (100 * Demo.day));
         ("assessment_complete", VBool true)]];
     Demo.data_lineage := [];
     Demo.security_assessments := [];
     Demo.written := [] |}.

End RuleProps.

(** ** governance/data_lineage.py: extraction, ids and quality metrics *)

Module Tracking.
Import Py World Lineage.
Local Open Scope monad_scope.

(** What the tracker asks of pandas and numpy beyond the rows and the
    column labels of a frame. *)
Class Pandas : Type := {
  (** [data.dtypes.items()], each dtype under [str] *)
  dtypes_items : DataFrame -> list (string * string);
  (** [data.isnull().sum().sum()] *)
  isnull_sum : DataFrame -> Z;
  (** [data.duplicated().sum()] *)
  duplicated_sum : DataFrame -> outcome Z;
  (** the quotient of a numpy integer by an int *)
  numpy_true_divide : Z -> Z -> outcome float;
  (** [data[column].value_counts(normalize=True).to_dict()]: the dict, and
      its values in order *)
  value_counts_normalized : DataFrame -> string -> outcome (pyval * list float)
}.

(** [data.dtypes.items()] *)
Definition data_dtypes `{Pandas} (data : pyobj) : outcome (list (string * string)) :=
  match data with
  | ODataFrame df => Returns (dtypes_items df)
  | OValue v => Raises (no_attribute v "dtypes")
  end.

(** [min(values)] of a non-empty sequence of floats *)
Fixpoint py_min (smallest : float) (values : list float) : float :=
  match values with
  | [] => smallest
  | x :: rest => py_min (if PrimFloat.ltb x smallest then x else smallest) rest
  end.

(** [lineage.__dict__] *)
Definition lineage_dict (lineage : DataLineage) : dict :=
  [("dataset_id", VStr (dataset_id lineage));
   ("source_systems", VList (map VStr (source_systems lineage)));
   ("extraction_timestamp", VDatetime (extraction_timestamp lineage));
   ("transformation_pipeline", VList (map VDict (transformation_pipeline lineage)));
   ("data_quality_metrics", VDict (data_quality_metrics lineage));
   ("content_hash", VStr (content_hash lineage))].

Section Tracking.
Context {E : Type} `{GovernanceStorageBackend E} `{ModelRegistry E} `{Clock E}
        `{Builtins} `{Pandas}.

Definition _generate_id : M (world E) string :=
  now_ <- datetime_now ;;
  let timestamp := isoformat now_ in
  let random_suffix := substring 0 8 (Sha256.hexdigest timestamp) in
  ret ("dataset_" ++ timestamp ++ "_" ++ random_suffix).

Definition _compute_quality_metrics (data : pyobj) : M (world E) dict :=
  match data with
  | OValue v => raise (no_attribute v "isnull")
  | ODataFrame df =>
      let row_count := Z.of_nat (List.length (rows df)) in
      let column_count := Z.of_nat (List.length (columns df)) in
      ratio <- lift (numpy_true_divide (isnull_sum df) (row_count * column_count)) ;;
      duplicate_rows <- lift (duplicated_sum df) ;;
      computed_at <- datetime_now ;;
      let metrics : dict :=
        [("completeness", VFloat (PrimFloat.sub 1%float ratio));
         ("row_count", VInt row_count);
         ("column_count", VInt column_count);
         ("duplicate_rows", VInt duplicate_rows);
         ("computed_at", VStr (isoformat computed_at))] in
      if mem_string "target" (columns df) then
        counted <- lift (value_counts_normalized df "target") ;;
        let class_distribution := fst counted in
        let min_class_ratio :=
          match snd counted with
          | [] => 1%float
          | ratio :: ratios => py_min ratio ratios
          end in
        let metrics := dict_set "class_balance" class_distribution metrics in
        ret (dict_set "representativeness_flag"
               (VStr (if PrimFloat.leb 0.05%float min_class_ratio then "pass"
                      else "warning"))
               metrics)
      else ret metrics
  end.

Definition track_extraction (source query : string) (data : pyobj)
  : M (LineageTracker E) string :=
  dataset_id <- on_storage _generate_id ;;
  extraction_timestamp <- on_storage datetime_now ;;
  row_count <- lift (data_len data) ;;
  cols <- lift (data_columns data) ;;
  dtypes <- lift (data_dtypes data) ;;
  timestamp <- on_storage datetime_now ;;
  output_hash <- lift (_stable_hash data) ;;
  metrics <- on_storage (_compute_quality_metrics data) ;;
  let extraction_step : dict :=
    [("step", VStr "extraction");
     ("source", VStr source);
     ("query", VStr query);
     ("row_count", VInt row_count);
     ("column_count", VInt (Z.of_nat (List.length cols)));
     ("schema", VDict (dict_of_pairs (map (fun cd => (fst cd, VStr (snd cd))) dtypes)));
     ("timestamp", VDatetime timestamp);
     ("input_hash", VStr "");
     ("output_hash", VStr output_hash)] in
  let created :=
    {| dataset_id := dataset_id;
       source_systems := [source];
       extraction_timestamp := extraction_timestamp;
       transformation_pipeline := [extraction_step];
       data_quality_metrics := metrics;
       content_hash := "" |} in
  set_current_lineage created ;;;
  new_hash <- lift (_stable_hash data) ;;
  let hashed :=
    {| dataset_id := Lineage.dataset_id created;
       source_systems := source_systems created;
       extraction_timestamp := Lineage.extraction_timestamp created;
       transformation_pipeline := transformation_pipeline created;
       data_quality_metrics := data_quality_metrics created;
       content_hash := new_hash |} in
  set_current_lineage hashed ;;;
  on_storage (storage_insert "data_lineage" (lineage_dict hashed)) ;;;
  ret dataset_id.

End Tracking.

End Tracking.

Module TrackingProps.
Import Py World Lineage LineageProps Tracking.

(** Every step carries a datetime as its timestamp. *)
Definition stamped (pipeline : list dict) : bool :=
  forallb (fun step => match timestamp_of step with Some _ => true | None => false end)
          pipeline.

(** The pandas and numpy calls of [_compute_quality_metrics] return on
    this frame. *)
Definition metrics_computable `{Pandas} (df : DataFrame) : Prop :=
  (exists ratio,
      numpy_true_divide (isnull_sum df)
        (Z.of_nat (List.length (rows df)) * Z.of_nat (List.length (columns df)))
      = Returns ratio) /\
  (exists n, duplicated_sum df = Returns n) /\
  (mem_string "target" (columns df) = true ->
   exists counted, value_counts_normalized df "target" = Returns counted).

(** The datetime the last step carries. *)
Definition last_timestamp (pipeline : list dict) : option Z :=
  timestamp_of (last pipeline []).

(** The step [track_extraction] records. *)
Definition extraction_step `{Pandas} (source query : string) (df : DataFrame)
           (timestamp : Z) (output_hash : string) : dict :=
  [("step", VStr "extraction");
   ("source", VStr source);
   ("query", VStr query);
   ("row_count", VInt (Z.of_nat (List.length (rows df))));
   ("column_count", VInt (Z.of_nat (List.length (columns df))));
   ("schema",
    VDict (dict_of_pairs (map (fun cd => (fst cd, VStr (snd cd))) (dtypes_items df))));
   ("timestamp", VDatetime timestamp);
   ("input_hash", VStr "");
   ("output_hash", VStr output_hash)].

(** The step [track_transformation] records for two frames. *)
Definition transformation_step `{Builtins} (step_name : string) (before after : DataFrame)
           (input_hash output_hash transformation_code : string) (timestamp : Z) : dict :=
  [("step", VStr step_name);
   ("input_hash", VStr input_hash);
   ("output_hash", VStr output_hash);
   ("transformation_code", VStr transformation_code);
   ("timestamp", VDatetime timestamp);
   ("row_count_before", VInt (Z.of_nat (List.length (rows before))));
   ("row_count_after", VInt (Z.of_nat (List.length (rows after))));
   ("rows_removed",
    VInt (Z.of_nat (List.length (rows before)) - Z.of_nat (List.length (rows after))));
   ("columns_added", VList (map VStr (set_difference (columns after) (columns before))));
   ("columns_removed", VList (map VStr (set_difference (columns before) (columns after))))].

(** A lineage with one more step and another content hash. *)
Definition extended (lineage : DataLineage) (new_step : dict) (new_hash : string)
  : DataLineage :=
  {| dataset_id := dataset_id lineage;
     source_systems := source_systems lineage;
     extraction_timestamp := extraction_timestamp lineage;
     transformation_pipeline := transformation_pipeline lineage ++ [new_step];
     data_quality_metrics := data_quality_metrics lineage;
     content_hash := new_hash |}.

(** What [track_transformation] hands to [storage.update]. *)
Definition update_call (lineage : DataLineage) : call :=
  CallUpdate "data_lineage"
    [("dataset_id", VStr (dataset_id lineage))]
    [("transformation_pipeline", VList (map VDict (transformation_pipeline lineage)));
     ("content_hash", VStr (content_hash lineage))].

(** Stand-ins for pandas on the frames of the scenarios: integer columns
    without nulls or duplicates. *)
#[export] Instance demo_pandas : Pandas := {
  dtypes_items df := map (fun c => (c, "int64")) (columns df);
  isnull_sum df := 0;
  duplicated_sum df := Returns 0;
  numpy_true_divide a b :=
    obind (float_of_int a) (fun x =>
    obind (float_of_int b) (fun y => Returns (PrimFloat.div x y)));
  value_counts_normalized df column := Returns (VDict [], [])
}.

Definition two_columns : DataFrame :=
  {| columns := ["a"; "b"];
     rows := [[VInt 1; VInt 4]; [VInt 2; VInt 5]; [VInt 3; VInt 6]] |}.

Definition two_columns_filtered : DataFrame :=
  {| columns := ["a"; "b"]; rows := [[VInt 1; VInt 4]; [VInt 3; VInt 6]] |}.

Definition two_columns_filtered_digest : string :=
  "58db3208885ee097862e60e0bc2a618c3e490154566729993ef8fcf60a6c3064".

Definition two_columns_digest : string :=
  "be85e675f9b8f0270cc9ebf085a7356c2daf1d7925ee3d0b4e77f83158bf788a".

(** A lineage as [track_extraction] leaves it for [two_columns], extracted
    at 5 and stamped at 10. *)
Definition tracked_lineage : DataLineage :=
  {| dataset_id := "dataset_5_abcdef01";
     source_systems := ["customer_db"];
     extraction_timestamp := 5;
     transformation_pipeline :=
       [extraction_step "customer_db" "SELECT * FROM users" two_columns 10
                        two_columns_digest];
     data_quality_metrics := [];
     content_hash := two_columns_digest |}.

Definition tracking : LineageTracker Demo.env :=
  {| storage := Demo.start Demo.compliant_env; current_lineage := Some tracked_lineage |}.

(** The same tracker over the storage whose writes raise. *)
Definition tracking_during_outage : LineageTracker Outage.env :=
  {| storage := Outage.start; current_lineage := Some tracked_lineage |}.

End TrackingProps.

(** ** governance/storage_backends.py *)

Module PostgresGovernanceStorage.
Import Py World.
Local Open Scope monad_scope.

(** A query parameter as handed to the cursor: as it is, or wrapped in
    psycopg2's [Json] adapter. *)
Inductive parameter : Type :=
| Plain (v : pyval)
| Json (v : pyval).

(** What the backend asks of psycopg2: a connection, its cursor, and their
    methods; each may raise and may change the database. *)
Class Psycopg2 (D : Type) : Type := {
  connect : dict -> D -> outcome unit * D;
  cursor : D -> outcome unit * D;
  real_dict_cursor : D -> outcome unit * D;
  execute : string -> list parameter -> D -> outcome unit * D;
  executemany : string -> list (list parameter) -> D -> outcome unit * D;
  fetchall : D -> outcome (list dict) * D;
  commit : D -> outcome unit * D;
  cursor_close : D -> outcome unit * D;
  connection_close : D -> outcome unit * D
}.

(** The backend object, the database behind it, and what it has printed. *)
Record backend (D : Type) : Type := {
  connection_params : dict;
  database : D;
  printed : list string
}.
Arguments connection_params {D} b.
Arguments database {D} b.
Arguments printed {D} b.

(** The value [_serialize_dates] stores under a key. *)
Fixpoint serialized `{Builtins} (value : pyval) : pyval :=
  match value with
  | VDatetime t => VStr (isoformat t)
  | VDict d => VDict (dict_of_pairs (map (fun kv => (fst kv, serialized (snd kv))) d))
  | VList l =>
      VList (map (fun item =>
                    match item with
                    | VDict d =>
                        VDict (dict_of_pairs
                                 (map (fun kv => (fst kv, serialized (snd kv))) d))
                    | _ => item
                    end) l)
  | _ => value
  end.

Definition _serialize_dates `{Builtins} (data : dict) : dict :=
  dict_of_pairs (map (fun kv => (fst kv, serialized (snd kv))) data).

(** [Json(v) if isinstance(v, (dict, list)) else v] *)
Definition adapt (v : pyval) : parameter :=
  match v with
  | VDict _ | VList _ => Json v
  | _ => Plain v
  end.

(** [[record[col] for col in columns]] *)
Fixpoint getitems (record : dict) (columns : list string) : outcome (list pyval) :=
  match columns with
  | [] => Returns []
  | col :: rest =>
      obind (dict_getitem record col) (fun v =>
      obind (getitems record rest) (fun vs => Returns (v :: vs)))
  end.

(** The value tuples of [bulk_insert], one per record. *)
Fixpoint value_tuples (columns : list string) (records : list dict)
  : outcome (list (list parameter)) :=
  match records with
  | [] => Returns []
  | record :: rest =>
      obind (getitems record columns) (fun values =>
      obind (value_tuples columns rest) (fun tuples =>
      Returns (map adapt values :: tuples)))
  end.

Definition insert_statement (table : string) (columns : list string) : string :=
  "INSERT INTO " ++ table ++ " (" ++ String.concat ", " columns ++ ") VALUES ("
    ++ String.concat ", " (repeat "%s" (List.length columns)) ++ ")".

Definition update_statement (table : string) (set_columns where_columns : list string)
  : string :=
  "UPDATE " ++ table ++ " SET "
    ++ String.concat ", " (map (fun col => col ++ " = %s") set_columns)
    ++ " WHERE "
    ++ String.concat " AND " (map (fun col => col ++ " = %s") where_columns).

Section Backend.
Context {D : Type} `{Psycopg2 D} `{Builtins}.

Definition on_database {A : Type} (m : D -> outcome A * D) : M (backend D) A :=
  fun self => match m (database self) with
              | (r, d) => (r, {| connection_params := connection_params self;
                                 database := d;
                                 printed := printed self |})
              end.

Definition print (line : string) : M (backend D) unit :=
  fun self => (Returns tt, {| connection_params := connection_params self;
                              database := database self;
                              printed := printed self ++ [line] |}).

Definition _get_connection : M (backend D) unit :=
  fun self => on_database (connect (connection_params self)) self.

Definition _test_connection : M (backend D) unit :=
  r <- attempt (_get_connection ;;; on_database connection_close) ;;
  match r with
  | Returns _ => ret tt
  | Raises e =>
      raise (Exn (OtherError "ConnectionError")
                 ("Cannot connect to PostgreSQL: " ++ exn_str e))
  end.

(** [PostgresGovernanceStorage.__init__], over a database [d]. *)
Definition init (host database_name user password : string) (port : Z) (d : D)
  : outcome unit * backend D :=
  _test_connection
    {| connection_params :=
         [("host", VStr host); ("database", VStr database_name); ("user", VStr user);
          ("password", VStr password); ("port", VInt port)];
       database := d;
       printed := [] |}.

Definition insert (table : string) (data : dict) : M (backend D) bool :=
  r <- attempt
         (_get_connection ;;;
          on_database cursor ;;;
          let data := _serialize_dates data in
          let columns := map fst data in
          values <- lift (getitems data columns) ;;
          let values := map adapt values in
          on_database (execute (insert_statement table columns) values) ;;;
          on_database commit ;;;
          on_database cursor_close ;;;
          on_database connection_close ;;;
          ret true) ;;
  match r with
  | Returns b => ret b
  | Raises e =>
      print ("Error inserting into " ++ table ++ ": " ++ exn_str e) ;;;
      ret false
  end.

Definition update (table : string) (condition data : dict) : M (backend D) bool :=
  r <- attempt
         (_get_connection ;;;
          on_database cursor ;;;
          let data := _serialize_dates data in
          let set_values := map (fun kv => adapt (snd kv)) data in
          let where_values := map (fun kv => Plain (snd kv)) condition in
          on_database
            (execute (update_statement table (map fst data) (map fst condition))
                     (set_values ++ where_values)) ;;;
          on_database commit ;;;
          on_database cursor_close ;;;
          on_database connection_close ;;;
          ret true) ;;
  match r with
  | Returns b => ret b
  | Raises e =>
      print ("Error updating " ++ table ++ ": " ++ exn_str e) ;;;
      ret false
  end.

Definition query (sql : string) (params : list pyval) : M (backend D) (list dict) :=
  r <- attempt
         (_get_connection ;;;
          on_database real_dict_cursor ;;;
          on_database (execute sql (map Plain params)) ;;;
          results <- on_database fetchall ;;
          on_database cursor_close ;;;
          on_database connection_close ;;;
          ret results) ;;
  match r with
  | Returns rows => ret rows
  | Raises e =>
      print ("Error executing query: " ++ exn_str e) ;;;
      ret []
  end.

Definition bulk_insert (table : string) (records : list dict) : M (backend D) bool :=
  match records with
  | [] => ret true
  | _ :: _ =>
      r <- attempt
             (_get_connection ;;;
              on_database cursor ;;;
              let records := map _serialize_dates records in
              let columns := match records with
                             | first :: _ => map fst first
                             | [] => []
                             end in
              tuples <- lift (value_tuples columns records) ;;
              on_database (executemany (insert_statement table columns) tuples) ;;;
              on_database commit ;;;
              on_database cursor_close ;;;
              on_database connection_close ;;;
              ret true) ;;
      match r with
      | Returns b => ret b
      | Raises e =>
          print ("Error bulk inserting into " ++ table ++ ": " ++ exn_str e) ;;;
          ret false
      end
  end.

(** The backend as a [GovernanceStorageBackend]. *)
#[export] Instance storage_backend : GovernanceStorageBackend (backend D) := {
  World.insert := insert;
  World.update := update;
  World.query := query;
  World.bulk_insert := bulk_insert
}.

End Backend.

End PostgresGovernanceStorage.

Module MongoGovernanceStorage.
Import Py World.
Local Open Scope monad_scope.

(** What the backend asks of pymongo: the client with its database, and the
    collection methods, each on the collection of a given name. *)
Class PyMongo (D : Type) : Type := {
  mongo_client : string -> string -> D -> outcome unit * D;
  insert_one : string -> dict -> D -> outcome unit * D;
  update_many : string -> dict -> dict -> D -> outcome unit * D;
  (** [list(collection.find(query, projection))] *)
  find : string -> pyval -> pyval -> D -> outcome (list dict) * D;
  insert_many : string -> list dict -> D -> outcome unit * D
}.

Record backend (D : Type) : Type := {
  database : D;
  printed : list string
}.
Arguments database {D} b.
Arguments printed {D} b.

(** [ImportError] and its subclass. *)
Definition is_import_error (e : exn) : bool :=
  match exn_kind e with
  | OtherError name => String.eqb name "ImportError" || String.eqb name "ModuleNotFoundError"
  | _ => false
  end.

(** The loop of [query] over one document. *)
Definition stringify_id `{Builtins} (doc : dict) : dict :=
  match dict_get "_id" doc with
  | Some id => dict_set "_id" (VStr (str_of id)) doc
  | None => doc
  end.

Section Backend.
Context {D : Type} `{PyMongo D} `{Builtins}.

Definition on_database {A : Type} (m : D -> outcome A * D) : M (backend D) A :=
  fun self => match m (database self) with
              | (r, d) => (r, {| database := d; printed := printed self |})
              end.

Definition print (line : string) : M (backend D) unit :=
  fun self => (Returns tt, {| database := database self;
                              printed := printed self ++ [line] |}).

(** [MongoGovernanceStorage.__init__], over a database [d]. *)
Definition init (connection_string database_name : string) (d : D)
  : outcome unit * backend D :=
  (r <- attempt (on_database (mongo_client connection_string database_name)) ;;
   match r with
   | Returns _ => ret tt
   | Raises e =>
       if is_import_error e then
         raise (Exn (OtherError "ImportError")
                    "pymongo not installed. Run: pip install pymongo")
       else
         raise (Exn (OtherError "ConnectionError")
                    ("Cannot connect to MongoDB: " ++ exn_str e))
   end) {| database := d; printed := [] |}.

Definition insert (table : string) (data : dict) : M (backend D) bool :=
  r <- attempt (on_database (insert_one table data) ;;; ret true) ;;
  match r with
  | Returns b => ret b
  | Raises e =>
      print ("Error inserting into " ++ table ++ ": " ++ exn_str e) ;;;
      ret false
  end.

Definition update (table : string) (condition data : dict) : M (backend D) bool :=
  r <- attempt (on_database (update_many table condition [("$set", VDict data)]) ;;;
                ret true) ;;
  match r with
  | Returns b => ret b
  | Raises e =>
      print ("Error updating " ++ table ++ ": " ++ exn_str e) ;;;
      ret false
  end.

Definition query (sql : string) (params : list pyval) : M (backend D) (list dict) :=
  r <- attempt
         (let collection_name := sql in
          let query := match params with q :: _ => q | [] => VDict [] end in
          let projection := match params with _ :: p :: _ => p | _ => VNone end in
          results <- on_database (find collection_name query projection) ;;
          ret (map stringify_id results)) ;;
  match r with
  | Returns rows => ret rows
  | Raises e =>
      print ("Error querying " ++ sql ++ ": " ++ exn_str e) ;;;
      ret []
  end.

Definition bulk_insert (table : string) (records : list dict) : M (backend D) bool :=
  r <- attempt (on_database (insert_many table records) ;;; ret true) ;;
  match r with
  | Returns b => ret b
  | Raises e =>
      print ("Error bulk inserting into " ++ table ++ ": " ++ exn_str e) ;;;
      ret false
  end.

#[export] Instance storage_backend : GovernanceStorageBackend (backend D) := {
  World.insert := insert;
  World.update := update;
  World.query := query;
  World.bulk_insert := bulk_insert
}.

End Backend.

End MongoGovernanceStorage.

Module BackendProps.
Import Py World PostgresGovernanceStorage.

(** No key occurs twice. *)
Fixpoint unique_keys (keys : list string) : bool :=
  match keys with
  | [] => true
  | k :: rest => negb (existsb (String.eqb k) rest) && unique_keys rest
  end.

(** A value as Python holds it: at every depth, a dict has each key once. *)
Fixpoint well_keyed (v : pyval) : bool :=
  match v with
  | VDict d => unique_keys (map fst d) && forallb (fun kv => well_keyed (snd kv)) d
  | VList l => forallb well_keyed l
  | _ => true
  end.

(** A dict value whose datetimes all sit where [_serialize_dates] looks:
    under keys of dicts, the dicts nested in dicts or listed directly in
    lists. *)
Fixpoint dates_within_reach (value : pyval) : bool :=
  match value with
  | VDict d => forallb (fun kv => dates_within_reach (snd kv)) d
  | VList l =>
      forallb (fun item =>
                 match item with
                 | VDict d => forallb (fun kv => dates_within_reach (snd kv)) d
                 | _ => GateProps.serializable item
                 end) l
  | _ => true
  end.

(** A stand-in for psycopg2: a server that can or cannot be reached, its
    rows, and the calls it has been sent. *)
Record server : Type := {
  reachable : bool;
  stored_rows : list dict;
  requests : list string
}.

Definition sent (request : string) (d : server) : server :=
  {| reachable := reachable d; stored_rows := stored_rows d;
     requests := requests d ++ [request] |}.

Definition unreachable : exn :=
  Exn (OtherError "OperationalError") "could not connect to server".

#[export] Instance demo_psycopg2 : Psycopg2 server := {
  connect params d :=
    if reachable d then (Returns tt, sent "connect" d) else (Raises unreachable, d);
  cursor d := (Returns tt, sent "cursor" d);
  real_dict_cursor d := (Returns tt, sent "cursor" d);
  execute sql params d := (Returns tt, sent ("execute " ++ sql) d);
  executemany sql tuples d := (Returns tt, sent ("executemany " ++ sql) d);
  fetchall d := (Returns (stored_rows d), sent "fetchall" d);
  commit d := (Returns tt, sent "commit" d);
  cursor_close d := (Returns tt, sent "cursor.close" d);
  connection_close d := (Returns tt, sent "connection.close" d)
}.

(** A registry and a clock beside that backend. *)
#[export] Instance demo_registry : ModelRegistry (backend server) := {
  get_compliance_report model_id self := (Returns Demo.compliant_metadata, self)
}.

#[export] Instance demo_clock : Clock (backend server) := {
  now self := (100 * Demo.day, self)
}.

(** The backend in front of a server that is down. *)
Definition offline : backend server :=
  {| connection_params :=
       [("host", VStr "localhost"); ("database", VStr "ai_governance");
        ("user", VStr "governance_user"); ("password", VStr "secure_password");
        ("port", VInt 5432)];
     database := {| reachable := false; stored_rows := []; requests := [] |};
     printed := [] |}.

(** The tracker of the lineage scenarios in front of that server. *)
Definition offline_tracker : Lineage.LineageTracker (backend server) :=
  {| Lineage.storage := World offline [];
     Lineage.current_lineage := Some TrackingProps.tracked_lineage |}.

(** A record with a datetime under a key, one in a dict listed in a list,
    and one listed directly. *)
Definition dated_record : dict :=
  [("created_at", VDatetime 5);
   ("steps", VList [VDict [("timestamp", VDatetime 7)]; VDatetime 9])].

(** A record that holds no datetime. *)
Definition plain_record : dict :=
  [("model_id", VStr "test_model_123"); ("risk_level", VStr "high");
   ("metadata", VDict [("key", VStr "value")])].

End BackendProps.

(** ** compliance_gate.py: deploy_model_with_gate *)

Module Deploy.
Import Py World Gate.
Local Open Scope monad_scope.

(** [repr(v)], whose text the model does not compute. *)
Class Reprs : Type := {
  py_repr : pyval -> string
}.

(** [RiskLevel(value)]: the member with that value, or [ValueError]. *)
Definition RiskLevel_of `{Reprs} (value : pyval) : outcome RiskLevel :=
  match value with
  | VStr "unacceptable" => Returns UNACCEPTABLE
  | VStr "high" => Returns HIGH
  | VStr "limited" => Returns LIMITED
  | VStr "minimal" => Returns MINIMAL
  | _ => Raises (Exn ValueError (py_repr value ++ " is not a valid RiskLevel"))
  end.

(** [v[key]] for a string key. *)
Definition py_getitem (v : pyval) (key : string) : outcome pyval :=
  match v with
  | VDict d => dict_getitem d key
  | VList _ => Raises (Exn TypeError "list indices must be integers or slices, not str")
  | VStr _ => Raises (Exn TypeError "string indices must be integers, not 'str'")
  | _ => Raises (Exn TypeError ("'" ++ type_name v ++ "' object is not subscriptable"))
  end.

Definition DeploymentBlockedException (message : string) : exn :=
  Exn (OtherError "DeploymentBlockedException") message.

Definition newline : string := String "010"%char EmptyString.

(** The world, and the lines printed so far. *)
Record console (E : Type) : Type := Console {
  world_of : world E;
  stdout : list string
}.
Arguments Console {E} world_of stdout.
Arguments world_of {E} c.
Arguments stdout {E} c.

Section Deploy.
Context {E : Type} `{GovernanceStorageBackend E} `{Clock E} `{Builtins} `{Reprs}.

Definition on_world {A : Type} (m : M (world E) A) : M (console E) A :=
  fun c => match m (world_of c) with
           | (r, w) => (r, Console w (stdout c))
           end.

Definition print (line : string) : M (console E) unit :=
  fun c => (Returns tt, Console (world_of c) (stdout c ++ [line])).

(** The loop over [report['failures']]. *)
Fixpoint print_failures (failures : list pyval) : M (console E) unit :=
  match failures with
  | [] => ret tt
  | failure :: rest =>
      check_name <- lift (py_getitem failure "check_name") ;;
      message <- lift (py_getitem failure "message") ;;
      print ("  ❌ " ++ str_of check_name ++ ": " ++ str_of message) ;;;
      print_failures rest
  end.

Definition deploy_model_with_gate (model_id environment : string)
           (compliance_gate : ComplianceGate E) (model_registry : ModelRegistry E)
  : M (console E) unit :=
  print ("Deploying " ++ model_id ++ " to " ++ environment) ;;;
  metadata <- on_world (@registry_get_compliance_report E model_registry model_id) ;;
  value <- lift (dict_getitem metadata "risk_level") ;;
  risk_level <- lift (RiskLevel_of value) ;;
  print ("Risk level: " ++ RiskLevel_value risk_level) ;;;
  print "Running compliance checks..." ;;;
  verdict <- on_world (validate_deployment compliance_gate model_id risk_level) ;;
  let can_deploy := fst verdict in
  let report := snd verdict in
  print (newline ++ "Compliance Results:") ;;;
  passed <- lift (dict_getitem report "passed") ;;
  n_passed <- lift (py_len passed) ;;
  print ("  Passed: " ++ str_int n_passed) ;;;
  warnings <- lift (dict_getitem report "warnings") ;;
  n_warnings <- lift (py_len warnings) ;;
  print ("  Warnings: " ++ str_int n_warnings) ;;;
  failures <- lift (dict_getitem report "failures") ;;
  n_failures <- lift (py_len failures) ;;
  print ("  Failures: " ++ str_int n_failures) ;;;
  if negb can_deploy then
    print (newline ++ "Blocking Failures:") ;;;
    failures <- lift (dict_getitem report "failures") ;;
    items <- lift (py_iter failures) ;;
    print_failures items ;;;
    failures <- lift (dict_getitem report "failures") ;;
    n_failures <- lift (py_len failures) ;;
    raise (DeploymentBlockedException
             ("Model failed " ++ str_int n_failures ++ " compliance checks"))
  else
    print (newline ++ "✅ Compliance passed. Deploying to " ++ environment ++ "...") ;;;
    print "✅ Deployment complete".

End Deploy.

End Deploy.

Module DeployProps.
Import Py World Gate Deploy.

(** The line printed for one blocking failure. *)
Definition failure_line `{Builtins} (failure : dict) : string :=
  "  ❌ " ++ str_of (dict_get_or failure "check_name" VNone) ++ ": "
    ++ str_of (dict_get_or failure "message" VNone).

(** The lines printed up to the verdict. *)
Definition summary_lines (model_id environment : string) (risk_level : RiskLevel)
           (passed warned failed : nat) : list string :=
  ["Deploying " ++ model_id ++ " to " ++ environment;
   "Risk level: " ++ RiskLevel_value risk_level;
   "Running compliance checks...";
   newline ++ "Compliance Results:";
   "  Passed: " ++ str_int (Z.of_nat passed);
   "  Warnings: " ++ str_int (Z.of_nat warned);
   "  Failures: " ++ str_int (Z.of_nat failed)].

(** The lines printed after the summary when the gate allows the
    deployment, and when it blocks it. *)
Definition allowed_lines (environment : string) : list string :=
  [newline ++ "✅ Compliance passed. Deploying to " ++ environment ++ "...";
   "✅ Deployment complete"].

Definition blocked_lines `{Builtins} (failed : list dict) : list string :=
  (newline ++ "Blocking Failures:") :: map failure_line failed.

(** Stand-in for [repr]. *)
#[export] Instance demo_reprs : Reprs := {
  py_repr v := "<" ++ type_name v ++ ">"
}.

(** A registry entry of a model classified as unacceptable. *)
Definition unacceptable_metadata : dict :=
  [("model_card_id", VStr "card_1"); ("risk_level", VStr "unacceptable")].

(** A registry entry with a risk level the enum does not know. *)
Definition unknown_level_metadata : dict :=
  [("model_card_id", VStr "card_1"); ("risk_level", VStr "critical")].

Definition at_start (e : Demo.env) : console Demo.env := Console (Demo.start e) [].

End DeployProps.

(** * Properties *)

(** ** Lineage integrity check *)

Module LineageFacts.
Import Py Lineage LineageProps.

Lemma dict_get_set_same {V : Type} (k : string) (v : V) (d : list (string * V)) :
  dict_get k (dict_set k v d) = Some v.
Proof.
  induction d as [|[k' v'] d IH]; simpl.
  - now rewrite String.eqb_refl.
  - destruct (String.eqb k k') eqn:Hk; simpl; rewrite Hk; auto.
Qed.

Lemma dict_get_set_other {V : Type} (k k0 : string) (v : V) (d : list (string * V)) :
  k <> k0 -> dict_get k (dict_set k0 v d) = dict_get k d.
Proof.
  intros Hne. induction d as [|[k' v'] d IH]; simpl.
  - apply String.eqb_neq in Hne. now rewrite Hne.
  - destruct (String.eqb k0 k') eqn:Hk; simpl.
    + apply String.eqb_eq in Hk. subst k'.
      apply String.eqb_neq in Hne. now rewrite Hne.
    + destruct (String.eqb k k'); auto.
Qed.

Lemma dict_mem_set {V : Type} (k k0 : string) (v : V) (d : list (string * V)) :
  dict_mem k d = true -> dict_mem k (dict_set k0 v d) = true.
Proof.
  unfold dict_mem. destruct (string_dec k k0) as [->|Hne].
  - now rewrite dict_get_set_same.
  - now rewrite dict_get_set_other.
Qed.

Lemma timestamp_ordering_accepts (prev : Z) (pipeline : list dict) :
  nondecreasing_from prev pipeline = true ->
  check_timestamp_ordering (VDatetime prev) pipeline = Returns true.
Proof.
  revert prev. induction pipeline as [|s rest IH]; intros prev Hnd; simpl in *.
  - reflexivity.
  - unfold timestamp_of in Hnd. unfold dict_get_or.
    destruct (dict_get "timestamp" s) as [[]|]; try discriminate.
    apply andb_prop in Hnd. destruct Hnd as [Hle Hrest].
    simpl. apply Z.leb_le in Hle.
    destruct (Z.compare_spec t prev) as [Heq|Hlt|Hgt]; simpl.
    + now apply IH.
    + lia.
    + now apply IH.
Qed.

Lemma hash_continuity_accepts (pipeline : list dict) :
  chained pipeline = true -> check_hash_continuity pipeline = Returns true.
Proof.
  induction pipeline as [|prev rest IH]; simpl; auto.
  destruct rest as [|cur rest']; auto.
  intros Hc. apply andb_prop in Hc. destruct Hc as [Hpair Hrest].
  unfold dict_getitem.
  destruct (dict_get "output_hash" prev) as [a|]; try discriminate.
  destruct (dict_get "input_hash" cur) as [b|]; try discriminate.
  simpl. unfold py_ne. rewrite Hpair. simpl. now apply IH.
Qed.

Lemma final_hash_accepts (self : DataLineage) :
  final_hash_matches self = true -> check_final_hash self = Returns true.
Proof.
  unfold final_hash_matches, check_final_hash, dict_getitem.
  destruct (rev (transformation_pipeline self)) as [|l ?]; try discriminate.
  destruct (dict_get "output_hash" l); try discriminate.
  intros Heq. simpl. unfold py_ne. now rewrite Heq.
Qed.

(** What a [True] answer of the check says about its four stages. *)
Lemma validate_true_inv (self : DataLineage) :
  validate_lineage_chain self = Returns true ->
  transformation_pipeline self <> [] /\
  check_timestamp_ordering (VDatetime (extraction_timestamp self))
                           (transformation_pipeline self) = Returns true /\
  forallb has_required_fields (transformation_pipeline self) = true /\
  check_hash_continuity (transformation_pipeline self) = Returns true /\
  check_final_hash self = Returns true.
Proof.
  unfold validate_lineage_chain.
  destruct (transformation_pipeline self) as [|s rest]; [discriminate|].
  remember (s :: rest) as pipeline eqn:Hp.
  destruct (check_timestamp_ordering _ pipeline) as [[]|];
    cbn [obind negb]; try discriminate.
  destruct (forallb has_required_fields pipeline);
    cbn [negb]; try discriminate.
  destruct (check_hash_continuity pipeline) as [[]|];
    cbn [obind negb]; try discriminate.
  destruct (check_final_hash self) as [[]|];
    cbn [obind negb]; try discriminate.
  intros _. subst pipeline. repeat split; auto. discriminate.
Qed.

Lemma set_input_hash_timestamps (i : nat) (v : pyval) (prev : pyval) (pipeline : list dict) :
  check_timestamp_ordering prev (set_input_hash i v pipeline)
  = check_timestamp_ordering prev pipeline.
Proof.
  revert i prev. induction pipeline as [|s rest IH]; intros i prev.
  - destruct i; reflexivity.
  - destruct i as [|i]; simpl.
    + unfold dict_get_or. rewrite dict_get_set_other by discriminate. reflexivity.
    + destruct (truthy (dict_get_or s "timestamp" VNone)).
      * destruct (py_lt _ prev) as [[]|]; simpl; auto.
      * simpl. auto.
Qed.

Lemma set_input_hash_fields (i : nat) (v : pyval) (pipeline : list dict) :
  forallb has_required_fields pipeline = true ->
  forallb has_required_fields (set_input_hash i v pipeline) = true.
Proof.
  revert i. induction pipeline as [|s rest IH]; intros i Hf.
  - destruct i; reflexivity.
  - simpl in Hf. apply andb_prop in Hf. destruct Hf as [Hs Hrest].
    destruct i as [|i]; simpl.
    + rewrite Hrest, andb_true_r.
      unfold has_required_fields, required_fields in *. simpl in *.
      repeat (apply andb_prop in Hs; destruct Hs as [?H Hs]).
      repeat (apply andb_true_intro; split); auto using dict_mem_set.
    + rewrite Hs. simpl. auto.
Qed.

Lemma set_input_hash_breaks_continuity (i : nat) (v h : pyval) (prev : dict)
      (pipeline : list dict) :
  check_hash_continuity pipeline = Returns true ->
  (i < List.length pipeline)%nat ->
  nth_error pipeline i = Some prev ->
  (S i < List.length pipeline)%nat ->
  dict_get "output_hash" prev = Some h ->
  py_eq h v = false ->
  check_hash_continuity (set_input_hash (S i) v pipeline) = Returns false.
Proof.
  revert i. induction pipeline as [|a rest IH]; intros i Hok Hi Hprev Hsi Hh Hne.
  - simpl in Hi. lia.
  - destruct rest as [|b rest']; [simpl in Hsi; lia|].
    destruct i as [|i].
    + simpl in Hprev. injection Hprev as ->.
      simpl. unfold dict_getitem. rewrite Hh, dict_get_set_same. simpl.
      unfold py_ne. now rewrite Hne.
    + simpl in Hprev.
      change (set_input_hash (S (S i)) v (a :: b :: rest'))
        with (a :: set_input_hash (S i) v (b :: rest')).
      assert (Hshape : exists rest'', set_input_hash (S i) v (b :: rest') = b :: rest'')
        by (simpl; eauto).
      destruct Hshape as (rest'' & Heq).
      cbn [check_hash_continuity] in Hok.
      destruct (dict_getitem a "output_hash") as [x|] eqn:Ha; cbn [obind] in Hok;
        try discriminate.
      destruct (dict_getitem b "input_hash") as [y|] eqn:Hb; cbn [obind] in Hok;
        try discriminate.
      destruct (py_ne x y) eqn:Hxy; try discriminate.
      assert (IH' := IH i Hok ltac:(simpl in *; lia) Hprev ltac:(simpl in *; lia) Hh Hne).
      rewrite Heq in *.
      cbn [check_hash_continuity]. rewrite Ha, Hb. cbn [obind]. rewrite Hxy. exact IH'.
Qed.

End LineageFacts.

Section LineageClaims.
Import Py Lineage LineageProps LineageFacts.

(** C3, as stated, fails: a hash-linked pipeline whose timestamps do not
    decrease, with all four fields in every step and [content_hash] equal to
    the last [output_hash], is rejected when its first step is stamped
    before [extraction_timestamp]. *)
Lemma C3_counterexample :
  (transformation_pipeline early_first_step <> [] /\
   forallb has_required_fields (transformation_pipeline early_first_step) = true /\
   nondecreasing (transformation_pipeline early_first_step) = true /\
   chained (transformation_pipeline early_first_step) = true /\
   final_hash_matches early_first_step = true) /\
  validate_lineage_chain early_first_step = Returns false.
Proof.
  split; [repeat split; try reflexivity; discriminate | reflexivity].
Qed.

(** C3 (amended): a record with a non-empty pipeline whose steps each carry
    [step], [input_hash], [output_hash] and [timestamp], whose timestamps are
    datetimes that never decrease and start no earlier than
    [extraction_timestamp], where each [input_hash] equals the previous
    [output_hash] and [content_hash] equals the last [output_hash], is
    accepted: [validate_lineage_chain] returns [True]. *)
Theorem C3_linked_chain_accepted (self : DataLineage) :
  transformation_pipeline self <> [] ->
  forallb has_required_fields (transformation_pipeline self) = true ->
  nondecreasing_from (extraction_timestamp self) (transformation_pipeline self) = true ->
  chained (transformation_pipeline self) = true ->
  final_hash_matches self = true ->
  validate_lineage_chain self = Returns true.
Proof.
  intros Hne Hfields Hts Hchain Hfinal.
  unfold validate_lineage_chain.
  rewrite (timestamp_ordering_accepts _ _ Hts), Hfields,
    (hash_continuity_accepts _ Hchain), (final_hash_accepts _ Hfinal).
  destruct (transformation_pipeline self); [contradiction | reflexivity].
Qed.

Lemma C3_linked_chain_accepted_witness :
  transformation_pipeline valid_chain <> [] /\
  forallb has_required_fields (transformation_pipeline valid_chain) = true /\
  nondecreasing_from (extraction_timestamp valid_chain)
                     (transformation_pipeline valid_chain) = true /\
  chained (transformation_pipeline valid_chain) = true /\
  final_hash_matches valid_chain = true /\
  validate_lineage_chain valid_chain = Returns true.
Proof.
  assert (Hne : transformation_pipeline valid_chain <> []) by discriminate.
  refine (conj Hne (conj eq_refl (conj eq_refl (conj eq_refl (conj eq_refl _))))).
  exact (C3_linked_chain_accepted valid_chain Hne eq_refl eq_refl eq_refl eq_refl).
Defined.

(** C4: on a record that validates and has at least two steps, overwriting
    the [input_hash] of any step but the first with a value different from
    the preceding step's [output_hash] makes [validate_lineage_chain] return
    [False]; so does replacing [content_hash] by a value different from the
    last step's [output_hash]. *)
Theorem C4_tampering_rejected (self : DataLineage) :
  validate_lineage_chain self = Returns true ->
  (2 <= List.length (transformation_pipeline self))%nat ->
  (forall (i : nat) (prev : dict) (h v : pyval),
      (S i < List.length (transformation_pipeline self))%nat ->
      nth_error (transformation_pipeline self) i = Some prev ->
      dict_get "output_hash" prev = Some h ->
      py_eq h v = false ->
      validate_lineage_chain
        (with_pipeline self (set_input_hash (S i) v (transformation_pipeline self)))
      = Returns false) /\
  (forall (last_step : dict) (h : pyval) (v : string),
      nth_error (transformation_pipeline self)
                (List.length (transformation_pipeline self) - 1) = Some last_step ->
      dict_get "output_hash" last_step = Some h ->
      py_eq (VStr v) h = false ->
      validate_lineage_chain (with_content_hash self v) = Returns false).
Proof.
  intros Hvalid Hlen.
  destruct (validate_true_inv self Hvalid) as (Hne & Hts & Hfields & Hcont & Hfinal).
  split.
  - intros i prev h v Hi Hprev Hh Hdiff.
    unfold validate_lineage_chain, with_pipeline. cbn [transformation_pipeline extraction_timestamp].
    destruct (set_input_hash (S i) v (transformation_pipeline self)) as [|s' rest'] eqn:Hset.
    + destruct (transformation_pipeline self); simpl in *; [lia | discriminate].
    + rewrite <- Hset.
      rewrite set_input_hash_timestamps, Hts. cbn [obind negb].
      rewrite (set_input_hash_fields _ _ _ Hfields). cbn [negb].
      rewrite (set_input_hash_breaks_continuity i v h prev _ Hcont ltac:(lia) Hprev Hi Hh Hdiff).
      reflexivity.
  - intros last_step h v Hlast Hh Hdiff.
    assert (Hrev : exists pre, rev (transformation_pipeline self) = last_step :: pre).
    { destruct (rev (transformation_pipeline self)) as [|x pre] eqn:Hr.
      - apply (f_equal (@rev dict)) in Hr. rewrite rev_involutive in Hr.
        rewrite Hr in Hne. contradiction.
      - exists pre. f_equal.
        apply (f_equal (@rev dict)) in Hr. rewrite rev_involutive in Hr. simpl in Hr.
        rewrite Hr in Hlast. rewrite length_app in Hlast. simpl in Hlast.
        rewrite nth_error_app2 in Hlast by lia.
        replace (List.length (rev pre) + 1 - 1 - List.length (rev pre))%nat
          with O in Hlast by lia.
        simpl in Hlast. congruence. }
    destruct Hrev as (pre & Hrev).
    assert (Hfin : check_final_hash (with_content_hash self v) = Returns false).
    { unfold check_final_hash, with_content_hash.
      cbn [transformation_pipeline content_hash]. rewrite Hrev.
      unfold dict_getitem. rewrite Hh. cbn [obind]. unfold py_ne.
      now rewrite Hdiff. }
    unfold validate_lineage_chain.
    change (transformation_pipeline (with_content_hash self v))
      with (transformation_pipeline self).
    change (extraction_timestamp (with_content_hash self v))
      with (extraction_timestamp self).
    rewrite Hts, Hfields, Hcont, Hfin.
    destruct (transformation_pipeline self); [contradiction | reflexivity].
Qed.

Lemma C4_tampering_rejected_witness :
  validate_lineage_chain valid_chain = Returns true /\
  (2 <= List.length (transformation_pipeline valid_chain))%nat /\
  validate_lineage_chain
    (with_pipeline valid_chain
       (set_input_hash 1 (VStr "xyz789") (transformation_pipeline valid_chain)))
  = Returns false /\
  validate_lineage_chain (with_content_hash valid_chain "abc123") = Returns false.
Proof.
  assert (Hvalid : validate_lineage_chain valid_chain = Returns true) by reflexivity.
  assert (Hlen : (2 <= List.length (transformation_pipeline valid_chain))%nat)
    by (simpl; lia).
  destruct (C4_tampering_rejected valid_chain Hvalid Hlen) as [Hinput Hfinal].
  refine (conj Hvalid (conj Hlen (conj _ _))).
  - apply (Hinput 0%nat (step "extraction" "" "abc123" (VDatetime 10)) (VStr "abc123"));
      try reflexivity. simpl; lia.
  - apply (Hfinal (step "transform1" "abc123" "def456" (VDatetime 20)) (VStr "def456"));
      reflexivity.
Defined.

(** C5, at the failing input: with a first step that has no timestamp and
    a second step stamped with a datetime, [validate_lineage_chain] raises
    [TypeError] instead of returning a boolean. *)
Theorem C5_missing_timestamp_raises :
  validate_lineage_chain missing_first_timestamp
  = Raises (Exn TypeError
      "'<' not supported between instances of 'datetime.datetime' and 'NoneType'").
Proof. reflexivity. Qed.

(** C10: when every step carries a truthy timestamp and the first step's
    datetime is strictly earlier than [extraction_timestamp],
    [validate_lineage_chain] returns [False]. *)
Theorem C10_first_step_before_extraction (self : DataLineage) (first : dict)
        (rest : list dict) (t : Z) :
  transformation_pipeline self = first :: rest ->
  Forall (fun s => truthy (dict_get_or s "timestamp" VNone) = true)
         (transformation_pipeline self) ->
  dict_get "timestamp" first = Some (VDatetime t) ->
  t < extraction_timestamp self ->
  validate_lineage_chain self = Returns false.
Proof.
  intros Hp _ Ht Hlt.
  unfold validate_lineage_chain. rewrite Hp.
  cbn [check_timestamp_ordering]. unfold dict_get_or. rewrite Ht.
  cbn [truthy py_lt py_order op_holds].
  apply Z.compare_lt_iff in Hlt. rewrite Hlt. reflexivity.
Qed.

Lemma C10_first_step_before_extraction_witness :
  Forall (fun s => truthy (dict_get_or s "timestamp" VNone) = true)
         (transformation_pipeline early_first_step) /\
  10 < extraction_timestamp early_first_step /\
  validate_lineage_chain early_first_step = Returns false.
Proof.
  assert (Hall : Forall (fun s => truthy (dict_get_or s "timestamp" VNone) = true)
                        (transformation_pipeline early_first_step))
    by (repeat constructor).
  assert (Hlt : 10 < extraction_timestamp early_first_step) by reflexivity.
  refine (conj Hall (conj Hlt _)).
  exact (C10_first_step_before_extraction early_first_step _ _ 10
           eq_refl Hall eq_refl Hlt).
Defined.

End LineageClaims.

(** ** The compliance gate *)

Module GateFacts.
Import Py World Gate GateProps.

Section GateFacts.
Context {E : Type} `{GovernanceStorageBackend E} `{ModelRegistry E} `{Clock E}
        `{Builtins}.

Lemma evaluate_returns (todo : list (ComplianceCheck E)) (model_id : string)
      (risk_level : RiskLevel) (w : world E) :
  exists ev w', evaluate todo model_id risk_level w = (Returns ev, w') /\
                map fst ev = todo.
Proof.
  revert w. induction todo as [|check rest IH]; intros w.
  - exists [], w. split; reflexivity.
  - cbn [evaluate]. unfold bind, attempt.
    destruct (check_function check model_id risk_level w) as [o w1].
    destruct (IH w1) as (rs & w2 & Hrs & Hfst). rewrite Hrs.
    exists ((check, o) :: rs), w2. split; [reflexivity|]. simpl. now rewrite Hfst.
Qed.

(** The loop of [validate_deployment] files each evaluated check in the
    list its outcome selects, after what the lists already hold. *)
Lemma run_checks_evaluate (todo : list (ComplianceCheck E)) (model_id : string)
      (risk_level : RiskLevel) :
  forall (acc : tally) (w w' : world E) ev,
    evaluate (filter (fun c => risk_in risk_level (required_for_risk_levels c)) todo)
             model_id risk_level w = (Returns ev, w') ->
    run_checks todo model_id risk_level acc w
    = (Returns (Tally (failures acc ++ map result_of (filter rule_failed_blocking ev))
                      (warnings acc ++ map result_of (filter rule_failed_warning ev))
                      (passed_checks acc ++ map result_of (filter rule_passed ev))),
       w').
Proof.
  induction todo as [|check rest IH]; intros acc w w' ev Hev.
  - cbn in Hev. injection Hev as <- <-. cbn. rewrite !app_nil_r.
    destruct acc; reflexivity.
  - cbn [run_checks filter] in *.
    destruct (risk_in risk_level (required_for_risk_levels check)) eqn:Happ;
      cbn [negb].
    + cbn [evaluate] in Hev. unfold bind, attempt in *.
      destruct (check_function check model_id risk_level w) as [o w1].
      destruct (evaluate _ model_id risk_level w1) as [[rs|e] w2] eqn:Hrs;
        [|discriminate].
      cbn in Hev. injection Hev as <- <-.
      destruct o as [[passed message]|e];
        [destruct passed; [|destruct (blocking check) eqn:Hb]|];
        rewrite (IH _ _ _ _ Hrs);
        cbn [failures warnings passed_checks filter];
        cbv [rule_passed rule_failed_blocking rule_failed_warning snd fst];
        rewrite ?Hb; cbn [negb map]; cbv [result_of snd fst]; rewrite ?Hb;
        rewrite <- ?app_assoc; reflexivity.
    + now apply IH.
Qed.

(** Every evaluated check falls in exactly one of the three classes. *)
Lemma one_class (cr : ComplianceCheck E * outcome (bool * string)) :
  (rule_passed cr = true /\ rule_failed_blocking cr = false
   /\ rule_failed_warning cr = false) \/
  (rule_passed cr = false /\ rule_failed_blocking cr = true
   /\ rule_failed_warning cr = false) \/
  (rule_passed cr = false /\ rule_failed_blocking cr = false
   /\ rule_failed_warning cr = true).
Proof.
  destruct cr as [c [[[] msg]|e]];
    unfold rule_passed, rule_failed_blocking, rule_failed_warning; cbn; auto.
  destruct (blocking c); cbn; auto.
Qed.
(** [json.dumps] returns on every value that holds no datetime. *)
Lemma encode_total : forall v : pyval,
  serializable v = true -> exists s, Json.encode v = Returns s.
Proof.
  fix IH 1. intros v. destruct v as [ |b|z|f|s|t|l|d];
    cbn [serializable Json.encode]; intros Hs;
    try (eexists; reflexivity); try discriminate.
  - destruct b; eexists; reflexivity.
  - assert (Hitems : exists ss,
      (fix items (l : list pyval) : outcome (list string) :=
         match l with
         | [] => Returns []
         | x :: l' =>
             obind (Json.encode x) (fun s =>
             obind (items l') (fun ss => Returns (s :: ss)))
         end) l = Returns ss).
    { induction l as [|x l IHl].
      - eexists; reflexivity.
      - cbn [forallb] in Hs. apply andb_prop in Hs. destruct Hs as [Hx Hl].
        destruct (IH x Hx) as (sx & Hsx). destruct (IHl Hl) as (ss & Hss).
        rewrite Hsx. cbn [obind]. rewrite Hss. eexists; reflexivity. }
    destruct Hitems as (ss & Hss). rewrite Hss. eexists; reflexivity.
  - assert (Hitems : exists ss,
      (fix items (d : list (string * pyval)) : outcome (list string) :=
         match d with
         | [] => Returns []
         | (k, x) :: d' =>
             obind (Json.encode x) (fun s =>
             obind (items d') (fun ss =>
             Returns ((Json.json_string k ++ ": " ++ s) :: ss)))
         end) d = Returns ss).
    { induction d as [|[k x] d IHd].
      - eexists; reflexivity.
      - cbn [forallb snd] in Hs. apply andb_prop in Hs. destruct Hs as [Hx Hd].
        destruct (IH x Hx) as (sx & Hsx). destruct (IHd Hd) as (ss & Hss).
        rewrite Hsx. cbn [obind]. rewrite Hss. eexists; reflexivity. }
    destruct Hitems as (ss & Hss). rewrite Hss. eexists; reflexivity.
Qed.

Lemma results_serializable (l : list (ComplianceCheck E * outcome (bool * string))) :
  forallb serializable (map VDict (map result_of l)) = true.
Proof.
  induction l as [|[c [[p msg]|e]] l IH]; cbn [map forallb]; [reflexivity| |];
    rewrite IH; reflexivity.
Qed.

Lemma report_serializable (model_id : string) (risk_level : RiskLevel)
      (ev : list (ComplianceCheck E * outcome (bool * string))) (t : Z) :
  serializable (VDict (report_of model_id risk_level ev t)) = true.
Proof.
  unfold report_of. cbn [serializable forallb snd].
  now rewrite !results_serializable.
Qed.

Lemma validate_deployment_run (self : ComplianceGate E) (model_id : string)
      (risk_level : RiskLevel) (w : world E) :
  exists ev w1 full_report,
    evaluate (applicable self risk_level) model_id risk_level w = (Returns ev, w1) /\
    map fst ev = applicable self risk_level /\
    let report := report_of model_id risk_level ev (fst (now (env w1))) in
    let e2 := snd (now (env w1)) in
    let entry := audit_entry_of model_id report full_report (fst (now e2)) in
    let logged := (calls w1 ++ [CallInsert "audit_log" entry])%list in
    Json.dumps false (VDict report) = Returns full_report /\
    validate_deployment self model_id risk_level w
    = match insert "audit_log" entry (snd (now e2)) with
      | (Returns _, e4) =>
          (Returns (Nat.eqb (List.length (filter rule_failed_blocking ev)) 0, report),
           World e4 logged)
      | (Raises x, e4) => (Raises x, World e4 logged)
      end.
Proof.
  destruct (evaluate_returns (applicable self risk_level) model_id risk_level w)
    as (ev & w1 & Hev & Hfst).
  destruct (encode_total _ (report_serializable model_id risk_level ev (fst (now (env w1)))))
    as (js & Hjs).
  exists ev, w1, js. split; [exact Hev|]. split; [exact Hfst|].
  cbv zeta. split; [exact Hjs|].
  unfold validate_deployment. unfold bind at 1.
  rewrite (run_checks_evaluate _ _ _ (Tally [] [] []) w w1 ev Hev).
  cbn [failures warnings passed_checks app].
  rewrite !length_map.
  assert (Hlen : List.length (applicable self risk_level) = List.length ev).
  { rewrite <- Hfst. now rewrite length_map. }
  rewrite Hlen.
  unfold bind at 1. unfold datetime_now at 1.
  destruct (now (env w1)) as [t e2] eqn:Hnow1. cbn [fst snd] in *.
  fold (report_of model_id risk_level ev t).
  unfold _log_validation_attempt.
  cbv beta iota delta [bind lift ret datetime_now storage_insert].
  replace (dict_getitem (report_of model_id risk_level ev t) "can_deploy")
    with (Returns (dict_get_or (report_of model_id risk_level ev t) "can_deploy" VNone))
    by reflexivity.
  replace (dict_getitem (report_of model_id risk_level ev t) "checks_run")
    with (Returns (dict_get_or (report_of model_id risk_level ev t) "checks_run" VNone))
    by reflexivity.
  replace (dict_getitem (report_of model_id risk_level ev t) "failures")
    with (Returns (VList (map VDict (map result_of (filter rule_failed_blocking ev)))))
    by reflexivity.
  cbn [py_len]. unfold Json.dumps. rewrite Hjs.
  cbn [env calls].
  destruct (now e2) as [t2 e3]. cbn [fst snd].
  match goal with
  | |- context [insert "audit_log" ?x (env _)] =>
      change x with (audit_entry_of model_id (report_of model_id risk_level ev t) js t2)
  end.
  cbn [env calls].
  destruct (insert "audit_log" _ e3) as [[b|x] e4]; reflexivity.
Qed.
(** *** The checks only read *)

Lemma reads_ret {A : Type} (a : A) : reads_only (@ret (world E) A a).
Proof. intros w. exists []. cbn. now rewrite app_nil_r. Qed.

Lemma reads_raise {A : Type} (e : exn) : reads_only (@raise (world E) A e).
Proof. intros w. exists []. cbn. now rewrite app_nil_r. Qed.

Lemma reads_lift {A : Type} (o : outcome A) : reads_only (@lift (world E) A o).
Proof. intros w. exists []. cbn. now rewrite app_nil_r. Qed.

Lemma reads_now : reads_only datetime_now.
Proof.
  intros w. exists []. unfold datetime_now. destruct (now (env w)). cbn.
  now rewrite app_nil_r.
Qed.

Lemma reads_query (sql : string) (params : list pyval) :
  reads_only (storage_query sql params).
Proof.
  intros w. exists [CallQuery sql params]. unfold storage_query.
  destruct (query sql params (env w)). cbn. split; [reflexivity|]. now constructor.
Qed.

Lemma reads_registry (model_id : string) :
  reads_only (registry_get_compliance_report model_id).
Proof.
  intros w. exists [CallRegistry model_id]. unfold registry_get_compliance_report.
  destruct (get_compliance_report model_id (env w)). cbn.
  split; [reflexivity|]. now constructor.
Qed.

Lemma reads_bind {A B : Type} (m : M (world E) A) (k : A -> M (world E) B) :
  reads_only m -> (forall a, reads_only (k a)) -> reads_only (bind m k).
Proof.
  intros Hm Hk w. unfold bind. destruct (Hm w) as (cs & Hcs & Hall).
  destruct (m w) as [[a|e] w1]; cbn [snd] in *.
  - destruct (Hk a w1) as (cs' & Hcs' & Hall'). exists (cs ++ cs')%list.
    rewrite Hcs', Hcs, app_assoc. split; [reflexivity|]. now apply Forall_app.
  - exists cs. now split.
Qed.

Lemma reads_attempt {A : Type} (m : M (world E) A) :
  reads_only m -> reads_only (attempt m).
Proof.
  intros Hm w. unfold attempt. destruct (Hm w) as (cs & Hcs & Hall).
  destruct (m w) as [r w1]. exists cs. now split.
Qed.

Ltac reads :=
  repeat first
    [ apply reads_ret | apply reads_raise | apply reads_lift | apply reads_now
    | apply reads_query | apply reads_registry | apply reads_attempt
    | (apply reads_bind; [|intros ?])
    | match goal with
      | |- reads_only (match ?x with _ => _ end) => destruct x
      | |- reads_only (let _ := _ in _) => cbv zeta
      end ].

Lemma catalog_reads_only (self : ComplianceGate E) (model_id : string)
      (risk_level : RiskLevel) :
  Forall (fun c => reads_only (check_function c model_id risk_level))
         (_define_checks self).
Proof.
  unfold _define_checks. repeat constructor; cbn [check_function].
  - unfold _verify_risk_assessment. reads.
  - unfold _verify_data_lineage. reads.
  - unfold _verify_bias_thresholds. reads.
  - unfold _verify_documentation. reads.
  - unfold _verify_oversight_config. reads.
  - unfold _verify_performance. reads.
  - unfold _verify_security. reads.
Qed.

Lemma evaluate_reads_only (todo : list (ComplianceCheck E)) (model_id : string)
      (risk_level : RiskLevel) :
  Forall (fun c => reads_only (check_function c model_id risk_level)) todo ->
  reads_only (evaluate todo model_id risk_level).
Proof.
  induction 1 as [|c rest Hc Hrest IH]; cbn [evaluate].
  - apply reads_ret.
  - apply reads_bind; [now apply reads_attempt|]. intros r.
    apply reads_bind; [exact IH|]. intros rs. apply reads_ret.
Qed.

Lemma init_checks (cfg : option dict) :
  exists self0 : ComplianceGate E,
    checks (ComplianceGate_init cfg) = _define_checks self0 /\
    bias_threshold self0 = bias_threshold (ComplianceGate_init cfg).
Proof. unfold ComplianceGate_init. eexists. split; reflexivity. Qed.

Lemma applicable_reads_only (cfg : option dict) (model_id : string)
      (risk_level : RiskLevel) :
  reads_only (evaluate (applicable (ComplianceGate_init cfg) risk_level)
                       model_id risk_level).
Proof.
  apply evaluate_reads_only. unfold applicable.
  destruct (init_checks cfg) as (self0 & -> & _).
  apply Forall_forall. intros c Hin. apply filter_In in Hin. destruct Hin as [Hin _].
  exact (proj1 (Forall_forall _ _) (catalog_reads_only self0 model_id risk_level) c Hin).
Qed.

(** Each outcome [evaluate] records is what the check returned or raised
    in some world. *)
Lemma evaluate_outcomes (todo : list (ComplianceCheck E)) (model_id : string)
      (risk_level : RiskLevel) :
  forall (w w' : world E) ev,
    evaluate todo model_id risk_level w = (Returns ev, w') ->
    Forall (fun cr => exists wk,
                fst (check_function (fst cr) model_id risk_level wk) = snd cr) ev.
Proof.
  induction todo as [|check rest IH]; intros w w' ev Hev; cbn [evaluate] in Hev.
  - injection Hev as <- <-. constructor.
  - unfold bind, attempt in Hev.
    destruct (check_function check model_id risk_level w) as [o w1] eqn:Ho.
    destruct (evaluate rest model_id risk_level w1) as [[rs|e] w2] eqn:Hrs;
      [|discriminate].
    cbn in Hev. injection Hev as <- <-. constructor.
    + exists w. cbn [fst snd]. now rewrite Ho.
    + exact (IH _ _ _ Hrs).
Qed.

(** *** The bias rule *)

Lemma bias_failures_extends (threshold : pyval) (items : list (string * pyval)) :
  forall acc l, bias_failures threshold items acc = Returns l ->
                exists suffix, l = (acc ++ suffix)%list.
Proof.
  induction items as [|[attribute metrics] rest IH]; intros acc l Hl;
    cbn [bias_failures] in Hl.
  - injection Hl as <-. exists []. now rewrite app_nil_r.
  - destruct (py_get metrics "disparate_impact" (VFloat 1)) as [fallback|];
      cbn [obind] in Hl; [|discriminate].
    destruct (py_get metrics "demographic_parity_difference" fallback) as [dp|];
      cbn [obind] in Hl; [|discriminate].
    destruct (py_gt dp threshold) as [[]|]; cbn [obind] in Hl; try discriminate.
    + destruct (format_pct2 dp) as [s1|]; cbn [obind] in Hl; [|discriminate].
      destruct (format_pct2 threshold) as [s2|]; cbn [obind] in Hl; [|discriminate].
      destruct (IH _ _ Hl) as (suffix & ->). rewrite <- app_assoc. eauto.
    + exact (IH _ _ Hl).
Qed.

(** The loop leaves [failed_attributes] empty exactly when every attribute's
    metric is read and does not exceed the threshold. *)
Lemma bias_failures_none (threshold : pyval) (items : list (string * pyval)) :
  bias_failures threshold items [] = Returns [] <->
  Forall (fun kv => within_threshold threshold (snd kv)) items.
Proof.
  induction items as [|[attribute metrics] rest IH]; cbn [bias_failures].
  - split; [constructor | reflexivity].
  - unfold within_threshold at 1, parity_metric. cbn [snd]. split.
    + intros Hl.
      destruct (py_get metrics "disparate_impact" (VFloat 1)) as [fallback|] eqn:Hfb;
        cbn [obind] in *; [|discriminate].
      destruct (py_get metrics "demographic_parity_difference" fallback) as [dp|] eqn:Hdp;
        cbn [obind] in *; [|discriminate].
      destruct (py_gt dp threshold) as [[]|] eqn:Hgt; cbn [obind] in Hl;
        try discriminate.
      * destruct (format_pct2 dp) as [s1|]; cbn [obind] in Hl; [|discriminate].
        destruct (format_pct2 threshold) as [s2|]; cbn [obind] in Hl; [|discriminate].
        destruct (bias_failures_extends _ _ _ _ Hl) as (suffix & Hsuffix).
        discriminate.
      * constructor; [|now apply IH].
        cbn [snd]. exists dp. rewrite Hfb. cbn [obind]. now split.
    + intros Hall. inversion Hall as [|? ? (m & Hm & Hgt) Hrest]; subst.
      unfold parity_metric in Hm. cbn [snd] in Hm.
      destruct (py_get metrics "disparate_impact" (VFloat 1)) as [fallback|];
        cbn [obind] in *; [|discriminate].
      rewrite Hm. cbn [obind]. rewrite Hgt. cbn [obind]. apply IH. exact Hrest.
Qed.

(** When [_verify_bias_thresholds] passes. *)
Lemma bias_rule_passes_iff (self : ComplianceGate E) (model_id : string)
      (risk_level : RiskLevel) (w : world E) :
  (exists msg,
      fst (_verify_bias_thresholds self model_id risk_level w) = Returns (true, msg)) <->
  (exists model_metadata items,
      fst (get_compliance_report model_id (env w)) = Returns model_metadata /\
      py_get (dict_get_or model_metadata "full_metadata" (VDict []))
             "bias_assessment" (VDict []) = Returns (VDict items) /\
      items <> [] /\
      Forall (fun kv => within_threshold (bias_threshold self) (snd kv)) items).
Proof.
  unfold _verify_bias_thresholds.
  cbv beta iota delta [bind attempt ret lift registry_get_compliance_report].
  destruct (get_compliance_report model_id (env w)) as [o e1]. cbn [fst].
  split.
  - intros (msg & Hmsg). destruct o as [md|e]; [|discriminate].
    destruct (py_get (dict_get_or md "full_metadata" (VDict [])) "bias_assessment"
                     (VDict [])) as [ba|e] eqn:Hba; [|discriminate].
    destruct (truthy ba) eqn:Htruthy; cbn [negb] in Hmsg; [|discriminate].
    destruct ba as [ |b|z|f|s|t|l|items]; cbn [py_items] in Hmsg; try discriminate.
    destruct (bias_failures (bias_threshold self) items []) as [[|x failed]|e] eqn:Hbf;
      try discriminate.
    exists md, items. repeat split; auto.
    + intros ->. discriminate.
    + now apply bias_failures_none.
  - intros (md & items & Hmd & Hitems & Hne & Hall). subst o. rewrite Hitems.
    destruct items as [|kv items]; [contradiction|].
    cbn [truthy negb py_items].
    apply bias_failures_none in Hall. rewrite Hall. cbn [py_len].
    eexists. reflexivity.
Qed.

Lemma evaluated_of (todo : list (ComplianceCheck E))
      (ev : list (ComplianceCheck E * outcome (bool * string))) (c : ComplianceCheck E) :
  map fst ev = todo -> In c todo -> exists o, In (c, o) ev.
Proof.
  intros <- Hin. apply in_map_iff in Hin. destruct Hin as ([c' o] & Hc & Hin).
  cbn in Hc. subst c'. eauto.
Qed.

Lemma applicable_high (cfg : option dict) :
  applicable (ComplianceGate_init cfg) HIGH = checks (ComplianceGate_init cfg).
Proof. reflexivity. Qed.

Lemma applicable_names (cfg : option dict) (risk_level : RiskLevel) :
  map name (applicable (ComplianceGate_init cfg) risk_level)
  = match risk_level with
    | HIGH =>
        ["risk_assessment_complete"; "data_lineage_verified"; "bias_assessment_passed";
         "technical_documentation_complete"; "human_oversight_configured";
         "performance_meets_threshold"; "security_scan_passed"]
    | LIMITED =>
        ["risk_assessment_complete"; "technical_documentation_complete";
         "performance_meets_threshold"]
    | _ => []
    end.
Proof. destruct risk_level; reflexivity. Qed.

(** With only the security scan failing, nothing blocks and the one warning
    is the security scan's. *)
Lemma security_only (cfg : option dict)
      (ev : list (ComplianceCheck E * outcome (bool * string))) :
  map fst ev = applicable (ComplianceGate_init cfg) HIGH ->
  only_security_fails ev ->
  filter rule_failed_blocking ev = [] /\
  exists msg,
    map result_of (filter rule_failed_warning ev)
    = [check_result "security_scan_passed" "Security vulnerability scan completed"
                    false msg false].
Proof.
  intros Hfst Honly. rewrite applicable_high in Hfst.
  destruct (init_checks cfg) as (self0 & Hchecks & _). rewrite Hchecks in Hfst.
  unfold _define_checks in Hfst.
  destruct ev as [|[c1 o1] [|[c2 o2] [|[c3 o3] [|[c4 o4] [|[c5 o5] [|[c6 o6]
    [|[c7 o7] [|]]]]]]]]; try discriminate.
  cbn [map fst] in Hfst.
  injection Hfst as -> -> -> -> -> -> ->.
  assert (Hp : forall c o, In (c, o) _ -> name c <> "security_scan_passed" ->
                           rule_passed (c, o) = true)
    by (intros c o Hin; exact (proj2 (Honly (c, o) Hin))).
  assert (H1' := Hp _ o1 ltac:(cbn; tauto) ltac:(discriminate)).
  assert (H2' := Hp _ o2 ltac:(cbn; tauto) ltac:(discriminate)).
  assert (H3' := Hp _ o3 ltac:(cbn; tauto) ltac:(discriminate)).
  assert (H4' := Hp _ o4 ltac:(cbn; tauto) ltac:(discriminate)).
  assert (H5' := Hp _ o5 ltac:(cbn; tauto) ltac:(discriminate)).
  assert (H6' := Hp _ o6 ltac:(cbn; tauto) ltac:(discriminate)).
  destruct (proj1 (Honly (_, o7) ltac:(cbn; tauto)) eq_refl) as (msg & Ho7).
  cbn [snd] in Ho7. subst o7.
  clear Hp Honly.
  unfold rule_passed in H1', H2', H3', H4', H5', H6'. cbn [snd] in *.
  destruct o1 as [[[] ?]|]; try discriminate.
  destruct o2 as [[[] ?]|]; try discriminate.
  destruct o3 as [[[] ?]|]; try discriminate.
  destruct o4 as [[[] ?]|]; try discriminate.
  destruct o5 as [[[] ?]|]; try discriminate.
  destruct o6 as [[[] ?]|]; try discriminate.
  split; [reflexivity|]. exists msg. reflexivity.
Qed.

(** One attribute, "gender", at 0.15 against a threshold of 0.10. *)
Lemma bias_rule_fails_on_gender (g : ComplianceGate E) (model_id : string)
      (risk_level : RiskLevel) (model_metadata : dict) (w : world E) :
  bias_threshold g = VFloat 0.10 ->
  fst (get_compliance_report model_id (env w)) = Returns model_metadata ->
  py_get (dict_get_or model_metadata "full_metadata" (VDict []))
         "bias_assessment" (VDict [])
  = Returns (VDict [("gender", VDict [("demographic_parity_difference", VFloat 0.15)])]) ->
  fst (_verify_bias_thresholds g model_id risk_level w)
  = Returns (false, "Bias thresholds exceeded for: gender: 15.00% (threshold: 10.00%)").
Proof.
  intros Hthr Hmd Hba. unfold _verify_bias_thresholds.
  cbv beta iota delta [bind attempt ret lift registry_get_compliance_report].
  destruct (get_compliance_report model_id (env w)) as [o e1]. cbn [fst] in Hmd.
  subst o. rewrite Hba, Hthr. reflexivity.
Qed.

End GateFacts.

End GateFacts.

Section GateClaims.
Import Py World Gate GateProps GateFacts.
Context {E : Type} `{GovernanceStorageBackend E} `{ModelRegistry E} `{Clock E}
        `{Builtins}.





End GateClaims.

Module GateScenarios.
Import Py World Gate GateProps Demo.
#[local] Existing Instance Outage.outage_storage.
#[local] Existing Instance Outage.outage_registry.
#[local] Existing Instance Outage.outage_clock.
#[local] Existing Instance Biased.biased_storage.
#[local] Existing Instance Biased.biased_registry.
#[local] Existing Instance Biased.biased_clock.




(** The scenario of C1, run: every rule passes but the security scan, which
    finds no assessment. *)
Example security_scan_only_warns :
  exists report w',
    validate_deployment default_gate "model_v1" HIGH (start compliant_env)
    = (Returns (true, report), w') /\
    dict_get "checks_run" report = Some (VInt 7) /\
    dict_get "failures" report = Some (VList []) /\
    dict_get "warnings" report
    = Some (VList [VDict (check_result "security_scan_passed"
                            "Security vulnerability scan completed" false
                            "No security assessment performed" false)]).
Proof.
  eexists. eexists. split; [vm_compute; reflexivity|]. repeat split.
Qed.



End GateScenarios.

(** ** The lineage session *)

Section TrackerClaims.
Import Py World Lineage.
Context {E : Type} `{GovernanceStorageBackend E} `{ModelRegistry E} `{Clock E}
        `{Builtins}.

(** C9: on a tracker with no active lineage, [track_transformation] and
    [link_to_model] raise [ValueError] and leave the tracker as it was: no
    lineage is created or changed, and the storage backend sees no call. *)
Theorem C9_no_active_lineage_fails (self : LineageTracker E) (step_name : string)
        (input_data output_data : pyobj) (transformation_code model_id : string) :
  current_lineage self = None ->
  track_transformation step_name input_data output_data transformation_code self
  = (Raises (Exn ValueError
               "Must call track_extraction() before track_transformation()"), self) /\
  link_to_model model_id self
  = (Raises (Exn ValueError "No active lineage to link"), self).
Proof.
  intros Hnone. unfold track_transformation, link_to_model, bind, get_current_lineage.
  rewrite Hnone. split; reflexivity.
Qed.

End TrackerClaims.

Module TrackerScenarios.
Import Py World Lineage Demo.

(** C9 on a tracker fresh from [__init__]. *)
Lemma C9_no_active_lineage_fails_witness :
  current_lineage fresh_tracker = None /\
  track_transformation "test_transform"
    (frame ["a"] [[VInt 1]; [VInt 2]]) (frame ["a"] [[VInt 1]; [VInt 2]])
    "df.copy()" fresh_tracker
  = (Raises (Exn ValueError
               "Must call track_extraction() before track_transformation()"),
     fresh_tracker) /\
  link_to_model "model_v1" fresh_tracker
  = (Raises (Exn ValueError "No active lineage to link"), fresh_tracker).
Proof.
  refine (conj eq_refl _).
  exact (C9_no_active_lineage_fails fresh_tracker "test_transform"
           (frame ["a"] [[VInt 1]; [VInt 2]]) (frame ["a"] [[VInt 1]; [VInt 2]])
           "df.copy()" "model_v1" eq_refl).
Defined.

End TrackerScenarios.

(** ** [_stable_hash]: key order does not matter *)

Module HashFacts.
Import Py Json Lineage GateProps HashProps.

Lemma leb_trans (a b c : string) :
  String.leb a b = true -> String.leb b c = true -> String.leb a c = true.
Proof.
  unfold String.leb.
  destruct (String.compare a b) eqn:Hab; try discriminate;
  destruct (String.compare b c) eqn:Hbc; try discriminate; intros _ _.
  - apply String.compare_eq_iff in Hab. subst. now rewrite Hbc.
  - apply String.compare_eq_iff in Hab. subst. now rewrite Hbc.
  - apply String.compare_eq_iff in Hbc. subst. now rewrite Hab.
  - apply String_as_OT.cmp_lt in Hab, Hbc.
    pose proof (String_as_OT.lt_trans _ _ _ Hab Hbc) as Hac.
    apply String_as_OT.cmp_lt in Hac. unfold String_as_OT.cmp in Hac. now rewrite Hac.
Qed.

Section Sorting.
Context {V : Type}.
Implicit Types (x y : string * V) (l : list (string * V)).

Lemma insert_item_comm x y l :
  fst x <> fst y ->
  insert_item x (insert_item y l) = insert_item y (insert_item x l).
Proof.
  intros Hxy. induction l as [|z l IH]; cbn [insert_item].
  - destruct (String.leb (fst x) (fst y)) eqn:Hxy'; destruct (String.leb (fst y) (fst x)) eqn:Hyx; try reflexivity.
    + exfalso. apply Hxy. now apply String.leb_antisym.
    + destruct (String.leb_total (fst x) (fst y)); congruence.
  - destruct (String.leb (fst x) (fst z)) eqn:Hxz; destruct (String.leb (fst y) (fst z)) eqn:Hyz;
      cbn [insert_item]; rewrite ?Hxz, ?Hyz.
    + destruct (String.leb (fst x) (fst y)) eqn:Hxy'; destruct (String.leb (fst y) (fst x)) eqn:Hyx;
        cbn [insert_item]; rewrite ?Hxz, ?Hyz; try reflexivity.
      * exfalso. apply Hxy. now apply String.leb_antisym.
      * destruct (String.leb_total (fst x) (fst y)); congruence.
    + destruct (String.leb (fst y) (fst x)) eqn:Hyx.
      * rewrite (leb_trans _ _ _ Hyx Hxz) in Hyz. discriminate.
      * reflexivity.
    + destruct (String.leb (fst x) (fst y)) eqn:Hxy'.
      * rewrite (leb_trans _ _ _ Hxy' Hyz) in Hxz. discriminate.
      * reflexivity.
    + now rewrite IH.
Qed.

Lemma insert_item_keys x l : Permutation (map fst (insert_item x l)) (fst x :: map fst l).
Proof.
  induction l as [|z l IH]; cbn [insert_item map]; [reflexivity|].
  destruct (String.leb (fst x) (fst z)); cbn [map]; [reflexivity|].
  rewrite IH. apply perm_swap.
Qed.

Lemma sort_items_keys l : Permutation (map fst (sort_items l)) (map fst l).
Proof.
  induction l as [|x l IH]; cbn; [reflexivity|].
  unfold sort_items in IH. rewrite insert_item_keys. now rewrite IH.
Qed.

Lemma sort_items_permutation l l' :
  Permutation l l' -> NoDup (map fst l) -> sort_items l = sort_items l'.
Proof.
  unfold sort_items. induction 1 as [|x l l' Hp IH|x y l|l l' l'' Hp1 IH1 Hp2 IH2]; intros Hnd.
  - reflexivity.
  - cbn. inversion Hnd; subst. now rewrite IH.
  - cbn. apply insert_item_comm. cbn in Hnd. inversion Hnd as [|? ? Hin _]; subst.
    intros Heq. apply Hin. left. now symmetry.
  - rewrite IH1 by assumption. apply IH2.
    eapply Permutation_NoDup; [|exact Hnd]. now apply Permutation_map.
Qed.

Lemma forallb_insert_item (p : string * V -> bool) x l :
  forallb p (insert_item x l) = p x && forallb p l.
Proof.
  induction l as [|z l IH]; cbn [insert_item forallb]; [reflexivity|].
  destruct (String.leb (fst x) (fst z)); cbn [forallb]; [reflexivity|].
  rewrite IH. now rewrite !andb_assoc, (andb_comm (p z)).
Qed.

Lemma forallb_sort_items (p : string * V -> bool) l :
  forallb p (sort_items l) = forallb p l.
Proof.
  induction l as [|x l IH]; cbn; [reflexivity|].
  rewrite forallb_insert_item. unfold sort_items in IH. now rewrite IH.
Qed.

Lemma dict_get_in k l : NoDup (map fst l) ->
  forall v, dict_get k l = Some v <-> In (k, v) l.
Proof.
  induction l as [|[k' v'] l IH]; cbn [dict_get map fst]; intros Hnd v.
  - split; [discriminate|intros []].
  - inversion Hnd as [|? ? Hnin Hnd']; subst.
    destruct (String.eqb k k') eqn:Hk.
    + apply String.eqb_eq in Hk. subst k'. split.
      * intros [= ->]. now left.
      * intros [[= ->]|Hin]; [reflexivity|].
        exfalso. apply Hnin. now apply (in_map fst) in Hin.
    + apply String.eqb_neq in Hk. rewrite (IH Hnd' v). split.
      * now right.
      * intros [[= -> ->]|Hin]; [congruence|assumption].
Qed.

Lemma NoDup_items l : NoDup (map fst l) -> NoDup l.
Proof.
  induction l as [|x l IH]; cbn; intros Hnd; [constructor|].
  inversion Hnd; subst. constructor; [|auto].
  intros Hin. now apply (in_map fst) in Hin.
Qed.

Lemma dict_set_fresh k (v : V) l :
  ~ In k (map fst l) -> dict_set k v l = (l ++ [(k, v)])%list.
Proof.
  induction l as [|[k' v'] l IH]; cbn [dict_set map fst app]; intros Hnin; [reflexivity|].
  destruct (String.eqb k k') eqn:Hk.
  - apply String.eqb_eq in Hk. subst. exfalso. apply Hnin. now left.
  - rewrite IH; [reflexivity|]. intros Hin. apply Hnin. now right.
Qed.

Lemma dict_of_pairs_from l : forall acc,
  NoDup (map fst (acc ++ l)%list) ->
  fold_left (fun d (kv : string * V) => dict_set (fst kv) (snd kv) d) l acc = (acc ++ l)%list.
Proof.
  induction l as [|[k v] l IH]; intros acc Hnd; cbn [fold_left fst snd].
  - now rewrite app_nil_r.
  - assert (Hfresh : ~ In k (map fst acc)).
    { rewrite map_app in Hnd. cbn in Hnd. apply NoDup_remove_2 in Hnd.
      intros Hin. apply Hnd. apply in_or_app. now left. }
    rewrite (dict_set_fresh _ _ _ Hfresh), IH; rewrite <- app_assoc; [reflexivity|exact Hnd].
Qed.

Lemma dict_of_pairs_unique l : NoDup (map fst l) -> dict_of_pairs l = l.
Proof. intros Hnd. unfold dict_of_pairs. now rewrite dict_of_pairs_from. Qed.

End Sorting.

Lemma same_mapping_permutation (d1 d2 : dict) :
  NoDup (map fst d1) -> NoDup (map fst d2) -> same_mapping d1 d2 -> Permutation d1 d2.
Proof.
  intros H1 H2 Hsame. apply NoDup_Permutation; try now apply NoDup_items.
  intros [k v]. rewrite <- (dict_get_in k d1 H1 v), <- (dict_get_in k d2 H2 v).
  now rewrite (Hsame k).
Qed.

Lemma sort_keys_reordered (d1 d2 : dict) :
  NoDup (map fst d1) -> NoDup (map fst d2) -> same_mapping d1 d2 ->
  sort_keys (VDict d1) = sort_keys (VDict d2).
Proof.
  intros H1 H2 Hsame. cbn [sort_keys]. f_equal.
  apply sort_items_permutation.
  - apply Permutation_map. now apply same_mapping_permutation.
  - rewrite map_map. cbn [fst]. exact H1.
Qed.

Lemma serializable_sort_keys : forall v, serializable (sort_keys v) = serializable v.
Proof.
  fix IH 1. intros [| | | | | |l|d]; try reflexivity.
  - cbn [sort_keys serializable].
    induction l as [|x l IHl]; cbn [map forallb]; [reflexivity|].
    now rewrite IH, IHl.
  - cbn [sort_keys serializable]. rewrite forallb_sort_items.
    induction d as [|[k x] d IHd]; cbn [map forallb fst snd]; [reflexivity|].
    now rewrite IH, IHd.
Qed.

Lemma combine_keys {V : Type} (cols : list string) (row : list V) :
  NoDup cols -> NoDup (map fst (combine cols row)).
Proof.
  intros Hnd. revert row. induction Hnd as [|c cols Hnin Hnd IH]; intros [|x row]; cbn; try constructor.
  - intros Hin. apply Hnin. apply in_map_iff in Hin as [[c' x'] [Hc Hin]].
    cbn in Hc. subst c'. now apply in_combine_l in Hin.
  - apply IH.
Qed.

Lemma combine_serializable (cols : list string) (row : list pyval) :
  forallb serializable row = true ->
  forallb (fun kv => serializable (snd kv)) (combine cols row) = true.
Proof.
  revert row. induction cols as [|c cols IH]; intros [|x row]; cbn; try reflexivity.
  intros Hrow. apply andb_prop in Hrow as [Hx Hrow]. now rewrite Hx, IH.
Qed.

Lemma records_keys (df : DataFrame) :
  NoDup (columns df) -> Forall (fun d : dict => NoDup (map fst d)) (records df).
Proof.
  intros Hnd. unfold records. apply Forall_map, Forall_forall. intros row _.
  rewrite dict_of_pairs_unique; now apply combine_keys.
Qed.

Lemma to_dict_records_records (df : DataFrame) :
  to_dict_records df = VList (map VDict (records df)).
Proof. unfold to_dict_records, records. now rewrite map_map. Qed.

Lemma records_serializable (df : DataFrame) :
  NoDup (columns df) ->
  forallb (forallb serializable) (rows df) = true ->
  serializable (to_dict_records df) = true.
Proof.
  intros Hnd Hrows. unfold to_dict_records. cbn [serializable].
  rewrite forallb_forall in *. intros v Hin.
  apply in_map_iff in Hin as [row [<- Hin]]. cbn [serializable].
  rewrite dict_of_pairs_unique by now apply combine_keys.
  apply combine_serializable. now apply Hrows.
Qed.

Lemma sort_keys_records (a b : list dict) :
  Forall (fun d : dict => NoDup (map fst d)) a ->
  Forall (fun d : dict => NoDup (map fst d)) b ->
  Forall2 same_mapping a b ->
  sort_keys (VList (map VDict a)) = sort_keys (VList (map VDict b)).
Proof.
  intros Ha Hb Hsame. cbn [sort_keys]. f_equal.
  induction Hsame as [|d1 d2 a b Hd Hrest IH]; [reflexivity|].
  inversion Ha; inversion Hb; subst. cbn [map]. f_equal.
  - now apply sort_keys_reordered.
  - now apply IH.
Qed.

Lemma hexdigest_length (s : string) : String.length (Sha256.hexdigest s) = 64%nat.
Proof. reflexivity. Qed.

Lemma hex_digit_is_hex (n : Z) : is_hex_char (hex_digit n) = true.
Proof.
  unfold hex_digit.
  repeat match goal with
         | |- context [match ?x with _ => _ end] => destruct x
         end; reflexivity.
Qed.

Lemma hex_word_is_hex (x : Z) (rest : string) :
  hex_string rest = true -> hex_string (Sha256.hex_word x rest) = true.
Proof.
  intros Hrest. unfold hex_string, Sha256.hex_word.
  cbn [list_ascii_of_string forallb]. rewrite !hex_digit_is_hex. exact Hrest.
Qed.

Lemma hexdigest_is_hex (s : string) : hex_string (Sha256.hexdigest s) = true.
Proof.
  unfold Sha256.hexdigest, Sha256.hex_state. repeat apply hex_word_is_hex. reflexivity.
Qed.

Section Hashing.
Context `{Builtins}.

(** Reordered inputs serialise alike under [sort_keys=True]. *)
Lemma reordered_same_hash (x y : pyobj) :
  reordered x y -> _stable_hash x = _stable_hash y.
Proof.
  intros [a b Ha Hb Hsame|d1 d2 H1 H2 Hsame]; unfold _stable_hash, dumps.
  - rewrite !to_dict_records_records.
    now rewrite (sort_keys_records _ _ (records_keys a Ha) (records_keys b Hb) Hsame).
  - now rewrite (sort_keys_reordered _ _ H1 H2 Hsame).
Qed.

Lemma tabular_hash_returns (x : pyobj) :
  (match x with ODataFrame df => NoDup (columns df) | OValue (VDict _) => True | _ => False end) ->
  content_serializable x = true ->
  exists data_str, _stable_hash x = Returns (Sha256.hexdigest data_str).
Proof.
  intros Hshape Hser. unfold _stable_hash, dumps.
  destruct x as [df|v].
  - destruct (GateFacts.encode_total (sort_keys (to_dict_records df))) as [s Hs].
    + rewrite serializable_sort_keys. now apply records_serializable.
    + rewrite Hs. now exists s.
  - destruct v; try contradiction.
    destruct (GateFacts.encode_total (sort_keys (VDict d))) as [s Hs].
    + now rewrite serializable_sort_keys.
    + rewrite Hs. now exists s.
Qed.

End Hashing.

End HashFacts.

Section HashClaims.
Import Py Lineage HashProps.
Context `{Builtins}.

(** C6 (amended): for two frames (unique column names) or two dicts with the
    same logical content that differ only in the order of their columns or
    keys, and whose values are all ones [json.dumps] accepts, [_stable_hash]
    returns one and the same digest for both, a string of 64 lower-case
    hexadecimal digits; and
    any two applications to the same input return the same digest. *)
Theorem C6_stable_hash_order_independent (x y : pyobj) :
  reordered x y ->
  content_serializable x = true ->
  exists digest,
    _stable_hash x = Returns digest /\
    _stable_hash y = Returns digest /\
    String.length digest = 64%nat /\
    hex_string digest = true /\
    (forall again, _stable_hash x = Returns again -> again = digest).
Proof.
  intros Hre Hser.
  destruct (HashFacts.tabular_hash_returns x) as [data_str Hx].
  - destruct Hre; [assumption|exact I].
  - exact Hser.
  - exists (Sha256.hexdigest data_str). refine (conj _ (conj _ (conj _ (conj _ _)))).
    + exact Hx.
    + rewrite <- (HashFacts.reordered_same_hash x y Hre). exact Hx.
    + apply HashFacts.hexdigest_length.
    + apply HashFacts.hexdigest_is_hex.
    + intros again Ha. congruence.
Qed.

End HashClaims.

Module HashScenarios.
Import Py Lineage HashProps Demo.

Lemma frames_reordered : reordered frame_ab frame_ba.
Proof.
  apply reordered_frames.
  - repeat constructor; cbn; intuition discriminate.
  - repeat constructor; cbn; intuition discriminate.
  - repeat constructor; intros k; cbn;
      destruct (String.eqb k "a") eqn:Ha; destruct (String.eqb k "b") eqn:Hb; try reflexivity;
      apply String.eqb_eq in Ha, Hb; congruence.
Qed.

Lemma dated_frames_reordered : reordered dated_frame dated_frame_swapped.
Proof.
  apply reordered_frames.
  - repeat constructor; cbn; intuition discriminate.
  - repeat constructor; cbn; intuition discriminate.
  - repeat constructor; intros k; cbn;
      destruct (String.eqb k "user_id") eqn:Ha; destruct (String.eqb k "signup") eqn:Hb; try reflexivity;
      apply String.eqb_eq in Ha, Hb; congruence.
Qed.

Lemma C6_stable_hash_order_independent_witness :
  reordered frame_ab frame_ba /\
  content_serializable frame_ab = true /\
  exists digest,
    _stable_hash frame_ab = Returns digest /\
    _stable_hash frame_ba = Returns digest /\
    String.length digest = 64%nat /\
    hex_string digest = true /\
    (forall again, _stable_hash frame_ab = Returns again -> again = digest).
Proof.
  refine (conj frames_reordered (conj eq_refl _)).
  exact (C6_stable_hash_order_independent frame_ab frame_ba frames_reordered eq_refl).
Defined.

(** C6 as stated fails: a frame with a datetime column and the same frame
    with its columns swapped have the same logical content, yet
    [_stable_hash] returns no digest for either; [json.dumps] raises. *)
Lemma C6_counterexample :
  reordered dated_frame dated_frame_swapped /\
  _stable_hash dated_frame
  = Raises (Exn TypeError "Object of type datetime is not JSON serializable") /\
  _stable_hash dated_frame_swapped
  = Raises (Exn TypeError "Object of type datetime is not JSON serializable").
Proof.
  split; [exact dated_frames_reordered|]. split; vm_compute; reflexivity.
Qed.

(** The digest of the repository's test frame, as [hashlib] gives it. *)
Example test_frame_digest :
  _stable_hash frame_ab
  = Returns "be85e675f9b8f0270cc9ebf085a7356c2daf1d7925ee3d0b4e77f83158bf788a".
Proof. vm_compute. reflexivity. Qed.

(** Row order is part of the content: reversing the rows changes the digest. *)
Example row_order_matters :
  _stable_hash frame_ab_rows_reversed
  = Returns "96c61488f1dd281d222b0850cecce55e7bb775d787a571bbc9ff5793f843e9e4".
Proof. vm_compute. reflexivity. Qed.

End HashScenarios.

(** ** The rules of the gate, one by one *)

Module RuleFacts.
Import Py World Gate GateProps RuleProps.

Lemma float_lt_ltb (a b : float) :
  match PrimFloat.compare a b with FLt => true | _ => false end = PrimFloat.ltb a b.
Proof.
  rewrite compare_spec, ltb_spec. unfold SFltb.
  destruct (SFcompare (Prim2SF a) (Prim2SF b)) as [[]|]; reflexivity.
Qed.

Lemma py_lt_floats (a b : float) : py_lt (VFloat a) (VFloat b) = Returns (PrimFloat.ltb a b).
Proof.
  unfold py_lt. cbn [py_order as_num num_compare]. rewrite <- float_lt_ltb.
  destruct (PrimFloat.compare a b); reflexivity.
Qed.

Lemma py_gt_ints (a b : Z) : py_gt (VInt a) (VInt b) = Returns (negb (a <=? b)).
Proof.
  unfold py_gt. cbn [py_order as_num num_compare]. rewrite Z.leb_compare.
  destruct (a ?= b); reflexivity.
Qed.

Lemma py_gt_nan (threshold : float) :
  py_gt (VFloat not_a_number) (VFloat threshold) = Returns false.
Proof.
  unfold py_gt. cbn [py_order as_num num_compare]. rewrite compare_spec.
  reflexivity.
Qed.

Lemma ltb_nan (threshold : float) : PrimFloat.ltb not_a_number threshold = false.
Proof. rewrite ltb_spec. reflexivity. Qed.

Lemma missing_fields_dict (required : list string) (d : dict) :
  missing_fields required (VDict d)
  = Returns (filter (fun f => negb (dict_mem f d)) required).
Proof.
  induction required as [|f rest IH]; [reflexivity|].
  cbn [missing_fields py_contains obind filter]. rewrite IH. cbn [obind].
  destruct (dict_mem f d); reflexivity.
Qed.

Lemma gate_fields_complete (d : dict) :
  filter (fun f => negb (dict_mem f d)) ["step"; "timestamp"; "input_hash"; "output_hash"]
  = [] <-> Lineage.has_required_fields d = true.
Proof.
  unfold Lineage.has_required_fields, Lineage.required_fields. cbn [filter forallb].
  destruct (dict_mem "step" d), (dict_mem "timestamp" d), (dict_mem "input_hash" d),
    (dict_mem "output_hash" d); cbn; split; intros; congruence.
Qed.

Section Rules.
Context {E : Type} `{GovernanceStorageBackend E} `{ModelRegistry E} `{Clock E} `{Builtins}.

Lemma check_steps_complete (steps : list dict) :
  forallb Lineage.has_required_fields steps = true ->
  forall i, check_steps i (map VDict steps) = Returns None.
Proof.
  induction steps as [|d steps IH]; intros Hall i; [reflexivity|].
  cbn [forallb] in Hall. apply andb_prop in Hall as [Hd Hrest].
  cbn [map check_steps]. rewrite missing_fields_dict.
  rewrite (proj2 (gate_fields_complete d) Hd). cbn [obind]. now apply IH.
Qed.

Lemma check_steps_incomplete (steps : list dict) :
  forallb Lineage.has_required_fields steps = false ->
  forall i, exists message, check_steps i (map VDict steps) = Returns (Some message).
Proof.
  induction steps as [|d steps IH]; intros Hall i; [discriminate|].
  cbn [forallb] in Hall. cbn [map check_steps]. rewrite missing_fields_dict.
  destruct (filter (fun f => negb (dict_mem f d)) _) as [|f missing] eqn:Hmissing.
  - rewrite (proj1 (gate_fields_complete d) Hmissing) in Hall. cbn [obind]. now apply IH.
  - cbn [obind]. eexists. reflexivity.
Qed.

(** [_verify_data_lineage] on a stored pipeline of dicts. *)
Lemma data_lineage_rule (self : ComplianceGate E) (model_id : string)
      (risk_level : RiskLevel) (w : world E) (model_metadata first : dict)
      (others : list dict) (e1 e2 : E) (steps : list dict) :
  get_compliance_report model_id (env w) = (Returns model_metadata, e1) ->
  truthy (dict_get_or model_metadata "data_lineage_id" VNone) = true ->
  query data_lineage_sql [dict_get_or model_metadata "data_lineage_id" VNone] e1
  = (Returns (first :: others), e2) ->
  dict_get "transformation_pipeline" first = Some (VList (map VDict steps)) ->
  steps <> [] ->
  exists message,
    fst (_verify_data_lineage self model_id risk_level w)
    = Returns (forallb Lineage.has_required_fields steps, message) /\
    (forallb Lineage.has_required_fields steps = true ->
     message = "Complete lineage with " ++ str_int (Z.of_nat (List.length steps))
                 ++ " steps").
Proof.
  intros Hmd Hid Hq Hpipe Hne.
  unfold _verify_data_lineage. unfold bind at 1. unfold attempt at 1.
  unfold registry_get_compliance_report. rewrite Hmd. rewrite Hid. cbn [negb].
  unfold bind at 1. unfold attempt at 1. unfold storage_query. cbn [env calls].
  fold data_lineage_sql. rewrite Hq.
  assert (Hget : dict_get_or first "transformation_pipeline" (VList [])
                 = VList (map VDict steps))
    by (unfold dict_get_or; now rewrite Hpipe).
  rewrite Hget.
  cbv beta iota delta [bind lift ret py_len py_iter].
  rewrite length_map.
  destruct steps as [|d steps]; [contradiction|].
  match goal with
  | |- context [if ?c then _ else _] =>
      destruct c eqn:Hz; [apply Z.eqb_eq in Hz; cbn [List.length] in Hz; lia|]
  end.
  destruct (forallb Lineage.has_required_fields (d :: steps)) eqn:Hall.
  - rewrite (check_steps_complete _ Hall). cbn [fst]. eexists. split; reflexivity.
  - destruct (check_steps_incomplete _ Hall 0) as (message & Hmsg). rewrite Hmsg.
    cbn [fst]. eexists. split; [reflexivity|discriminate].
Qed.

(** [_verify_performance] on float metrics and thresholds. *)
Lemma performance_rule (self : ComplianceGate E) (model_id : string)
        (risk_level : RiskLevel) (w : world E) (model_metadata accuracy_metrics : dict)
        (accuracy f1 min_accuracy min_f1 : float) :
  fst (get_compliance_report model_id (env w)) = Returns model_metadata ->
  py_get (dict_get_or model_metadata "full_metadata" (VDict []))
         "accuracy_metrics" (VDict []) = Returns (VDict accuracy_metrics) ->
  accuracy_metrics <> [] ->
  accuracy_of accuracy_metrics = VFloat accuracy ->
  f1_of accuracy_metrics = VFloat f1 ->
  min_accuracy_for self risk_level = VFloat min_accuracy ->
  min_f1_for self risk_level = VFloat min_f1 ->
  fst (_verify_performance self model_id risk_level w)
  = Returns (negb (PrimFloat.ltb accuracy min_accuracy) && negb (PrimFloat.ltb f1 min_f1),
             performance_message accuracy f1 min_accuracy min_f1).
Proof.
  intros Hmd Hmetrics Hne Hacc Hf1 Hmin_acc Hmin_f1.
  unfold _verify_performance. unfold bind at 1. unfold attempt at 1.
  unfold registry_get_compliance_report.
  destruct (get_compliance_report model_id (env w)) as [o e1]. cbn [fst] in Hmd. subst o.
  unfold bind at 1. unfold lift at 1. rewrite Hmetrics.
  destruct accuracy_metrics as [|kv rest] eqn:Hd; [contradiction|]. rewrite <- Hd in *.
  replace (truthy (VDict accuracy_metrics)) with true by (rewrite Hd; reflexivity).
  cbn [negb].
  fold (min_accuracy_for self risk_level). fold (min_f1_for self risk_level).
  rewrite Hmin_acc, Hmin_f1.
  change (py_get (VDict accuracy_metrics) "accuracy" (VInt 0))
    with (Returns (accuracy_of accuracy_metrics)).
  change (py_get (VDict accuracy_metrics) "f1" (VInt 0))
    with (Returns (dict_get_or accuracy_metrics "f1" (VInt 0))).
  unfold bind at 1. unfold lift at 1. unfold bind at 1. unfold lift at 1.
  change (py_get (VDict accuracy_metrics) "f1_score"
                 (dict_get_or accuracy_metrics "f1" (VInt 0)))
    with (Returns (f1_of accuracy_metrics)).
  unfold bind at 1. unfold lift at 1.
  rewrite Hacc, Hf1. rewrite !py_lt_floats.
  unfold performance_message.
  cbv beta iota delta [bind lift ret format_pct2].
  destruct (PrimFloat.ltb accuracy min_accuracy); destruct (PrimFloat.ltb f1 min_f1);
    reflexivity.
Qed.

Lemma partition_lengths (ev : list (ComplianceCheck E * outcome (bool * string))) :
  List.length ev
  = (List.length (filter rule_passed ev)
     + List.length (filter rule_failed_warning ev)
     + List.length (filter rule_failed_blocking ev))%nat.
Proof.
  induction ev as [|cr ev IH]; [reflexivity|].
  cbn [filter List.length].
  destruct (GateFacts.one_class cr) as [(-> & -> & ->)|[(-> & -> & ->)|(-> & -> & ->)]];
    cbn [List.length]; lia.
Qed.

End Rules.

End RuleFacts.

Section RuleClaims.
Import Py World Gate GateProps RuleProps RuleFacts.
Context {E : Type} `{GovernanceStorageBackend E} `{ModelRegistry E} `{Clock E} `{Builtins}.

(** The security rule and the documentation rule never raise: whatever the
    registry, the storage and the clock do, each returns a verdict and a
    message. *)
Theorem security_and_documentation_never_raise (self : ComplianceGate E)
        (model_id : string) (risk_level : RiskLevel) (w : world E) :
  (exists passed message w',
      _verify_security self model_id risk_level w = (Returns (passed, message), w')) /\
  (exists passed message w',
      _verify_documentation self model_id risk_level w = (Returns (passed, message), w')).
Proof.
  split.
  - unfold _verify_security. unfold bind at 1. unfold attempt at 1.
    unfold registry_get_compliance_report.
    destruct (get_compliance_report model_id (env w)) as [[md|e] e1]; [|unfold ret; eauto].
    destruct (negb (truthy (dict_get_or md "security_assessment_id" VNone)));
      [unfold ret; eauto|].
    match goal with |- context [attempt ?m] => generalize m end.
    intros m. unfold bind, attempt, ret.
    match goal with |- context [m ?s] => destruct (m s) as [[[p msg]|e] w1] end; eauto.
  - unfold _verify_documentation. unfold bind, attempt, ret, registry_get_compliance_report.
    destruct (get_compliance_report model_id (env w)) as [[md|e] e1]; [|eauto].
    destruct (negb (truthy (dict_get_or md "model_card_id" VNone))); eauto.
Qed.

(** With float metrics and float thresholds, the performance rule passes
    exactly when neither the accuracy nor the F1 score is below its
    threshold; a metric equal to its threshold passes. The F1 score is read
    from [f1_score], else from [f1], else it is 0; the accuracy defaults to 0. *)
Theorem performance_rule_decision (self : ComplianceGate E) (model_id : string)
        (risk_level : RiskLevel) (w : world E) (model_metadata accuracy_metrics : dict)
        (accuracy f1 min_accuracy min_f1 : float) :
  fst (get_compliance_report model_id (env w)) = Returns model_metadata ->
  py_get (dict_get_or model_metadata "full_metadata" (VDict []))
         "accuracy_metrics" (VDict []) = Returns (VDict accuracy_metrics) ->
  accuracy_metrics <> [] ->
  accuracy_of accuracy_metrics = VFloat accuracy ->
  f1_of accuracy_metrics = VFloat f1 ->
  min_accuracy_for self risk_level = VFloat min_accuracy ->
  min_f1_for self risk_level = VFloat min_f1 ->
  fst (_verify_performance self model_id risk_level w)
  = Returns (negb (PrimFloat.ltb accuracy min_accuracy) && negb (PrimFloat.ltb f1 min_f1),
             performance_message accuracy f1 min_accuracy min_f1).
Proof. apply performance_rule. Qed.

(** When the first risk assessment row carries a datetime [completed_at]
    and the age limit is an int, the rule passes exactly when the
    assessment is at most that many whole days old and is marked complete.
    The limit is the configured one for [HIGH] and 365 days for every
    other level; an assessment dated in the future is not too old. *)
Theorem risk_assessment_decision (self : ComplianceGate E) (model_id : string)
        (risk_level : RiskLevel) (w : world E) (first : dict) (others : list dict)
        (e1 : E) (completed max_days : Z) :
  query risk_assessment_sql [VStr model_id] (env w) = (Returns (first :: others), e1) ->
  dict_get "completed_at" first = Some (VDatetime completed) ->
  max_assessment_age_for self risk_level = VInt max_days ->
  let age_days := (fst (now e1) - completed) / microseconds_per_day in
  fst (_verify_risk_assessment self model_id risk_level w)
  = Returns
      (if max_days <? age_days then
         (false, "Assessment " ++ str_int age_days ++ " days old (max: "
                   ++ str_int max_days ++ ")")
       else if truthy (dict_get_or first "assessment_complete" (VBool false)) then
         (true, "Valid assessment (age: " ++ str_int age_days ++ " days)")
       else (false, "Assessment marked as incomplete")).
Proof.
  intros Hq Hc Hmax age_days. subst age_days.
  unfold _verify_risk_assessment. fold (max_assessment_age_for self risk_level).
  rewrite Hmax.
  unfold bind at 1. unfold attempt at 1. unfold storage_query.
  fold risk_assessment_sql. rewrite Hq. cbn [env calls].
  unfold dict_getitem. rewrite Hc.
  cbv beta iota delta [bind attempt lift ret datetime_now env calls].
  destruct (now e1) as [t e2]. cbn [fst days_since].
  rewrite py_gt_ints. rewrite Z.ltb_antisym.
  destruct (max_days <? (t - completed) / microseconds_per_day) eqn:Hlt;
    rewrite Z.ltb_antisym in Hlt; destruct ((t - completed) / microseconds_per_day <=? max_days);
    try discriminate; cbn [negb fst str_of];
    try destruct (truthy (dict_get_or first "assessment_complete" (VBool false)));
    reflexivity.
Qed.

(** Whatever is wrong with the stored risk assessment, the rule answers
    [False] with a message naming the cause instead of raising: a failing
    query, no row, a first row without [completed_at], or a [completed_at]
    that is not a datetime. Only in the last case has the clock been read. *)
Theorem risk_assessment_unusable_data (self : ComplianceGate E) (model_id : string)
        (risk_level : RiskLevel) (w : world E) :
  let logged e := World e (calls w ++ [CallQuery risk_assessment_sql [VStr model_id]]) in
  let run := _verify_risk_assessment self model_id risk_level w in
  match query risk_assessment_sql [VStr model_id] (env w) with
  | (Raises e, e1) => run = (Returns (false, "Database error: " ++ exn_str e), logged e1)
  | (Returns [], e1) => run = (Returns (false, "No risk assessment found"), logged e1)
  | (Returns (first :: _), e1) =>
      match dict_get "completed_at" first with
      | None =>
          run = (Returns (false, "Invalid assessment data: 'completed_at'"), logged e1)
      | Some (VDatetime _) => True
      | Some v =>
          run = (Returns (false,
                          "Invalid assessment data: "
                            ++ "unsupported operand type(s) for -: 'datetime.datetime' and '"
                            ++ type_name v ++ "'"),
                 logged (snd (now e1)))
      end
  end.
Proof.
  intros logged run.
  assert (Hrun : run = _verify_risk_assessment self model_id risk_level w) by reflexivity.
  clearbody run. subst logged.
  unfold _verify_risk_assessment in Hrun.
  unfold bind at 1 in Hrun. unfold attempt at 1 in Hrun. unfold storage_query in Hrun.
  fold risk_assessment_sql in Hrun. cbv beta in Hrun.
  destruct (query risk_assessment_sql [VStr model_id] (env w)) as [[[|first others]|e] e1];
    try exact Hrun.
  unfold dict_getitem in Hrun.
  destruct (dict_get "completed_at" first) as [v|]; [|exact Hrun].
  cbv beta iota delta [bind attempt lift ret datetime_now env calls] in Hrun.
  destruct (now e1) as [t e2]. cbn [snd]. rewrite Hrun. clear Hrun.
  destruct v; try exact I; reflexivity.
Qed.

(** A metric that is not a number is never below a threshold nor above
    one: with float thresholds, accuracy and F1 both NaN pass the
    performance rule, and a bias assessment whose every attribute reports
    NaN passes the bias rule. *)
Theorem nan_metrics_pass (self : ComplianceGate E) (model_id : string)
        (risk_level : RiskLevel) (w : world E) (model_metadata accuracy_metrics : dict)
        (attributes : list (string * pyval)) (min_accuracy min_f1 threshold : float) :
  fst (get_compliance_report model_id (env w)) = Returns model_metadata ->
  py_get (dict_get_or model_metadata "full_metadata" (VDict []))
         "accuracy_metrics" (VDict []) = Returns (VDict accuracy_metrics) ->
  accuracy_metrics <> [] ->
  accuracy_of accuracy_metrics = VFloat not_a_number ->
  f1_of accuracy_metrics = VFloat not_a_number ->
  min_accuracy_for self risk_level = VFloat min_accuracy ->
  min_f1_for self risk_level = VFloat min_f1 ->
  py_get (dict_get_or model_metadata "full_metadata" (VDict []))
         "bias_assessment" (VDict []) = Returns (VDict attributes) ->
  attributes <> [] ->
  Forall (fun kv => parity_metric (snd kv) = Returns (VFloat not_a_number)) attributes ->
  bias_threshold self = VFloat threshold ->
  fst (_verify_performance self model_id risk_level w)
  = Returns (true, "Performance passed (accuracy: nan%, F1: nan%)") /\
  exists message,
    fst (_verify_bias_thresholds self model_id risk_level w) = Returns (true, message).
Proof.
  intros Hmd Hmetrics Hne Hacc Hf1 Hmin_acc Hmin_f1 Hbias Hattrs Hnan Hthr.
  split.
  - rewrite (performance_rule self model_id risk_level w model_metadata accuracy_metrics
               not_a_number not_a_number min_accuracy min_f1); try assumption.
    unfold performance_message. rewrite !ltb_nan. reflexivity.
  - apply (proj2 (GateFacts.bias_rule_passes_iff self model_id risk_level w)).
    exists model_metadata, attributes. repeat split; try assumption.
    rewrite Hthr. eapply Forall_impl; [|exact Hnan].
    intros kv Hkv. exists (VFloat not_a_number). split; [exact Hkv|apply py_gt_nan].
Qed.

(** When the registry names a lineage and the first stored row holds a
    non-empty pipeline of step dicts, the lineage rule passes exactly when
    every step has the fields step, timestamp, input_hash and output_hash;
    hashes and timestamps themselves are not compared. *)
Theorem data_lineage_rule_decision (self : ComplianceGate E) (model_id : string)
        (risk_level : RiskLevel) (w : world E) (model_metadata first : dict)
        (others : list dict) (e1 e2 : E) (steps : list dict) :
  get_compliance_report model_id (env w) = (Returns model_metadata, e1) ->
  truthy (dict_get_or model_metadata "data_lineage_id" VNone) = true ->
  query data_lineage_sql [dict_get_or model_metadata "data_lineage_id" VNone] e1
  = (Returns (first :: others), e2) ->
  dict_get "transformation_pipeline" first = Some (VList (map VDict steps)) ->
  steps <> [] ->
  exists message,
    fst (_verify_data_lineage self model_id risk_level w)
    = Returns (forallb Lineage.has_required_fields steps, message) /\
    (forallb Lineage.has_required_fields steps = true ->
     message = "Complete lineage with " ++ str_int (Z.of_nat (List.length steps))
                 ++ " steps").
Proof. apply data_lineage_rule. Qed.

(** A lineage record that [validate_lineage_chain] accepts passes the
    gate's lineage rule once its pipeline is what the storage returns. *)
Theorem validated_lineage_passes_gate (self : ComplianceGate E) (model_id : string)
        (risk_level : RiskLevel) (w : world E) (model_metadata first : dict)
        (others : list dict) (e1 e2 : E) (lineage : Lineage.DataLineage) :
  Lineage.validate_lineage_chain lineage = Returns true ->
  get_compliance_report model_id (env w) = (Returns model_metadata, e1) ->
  truthy (dict_get_or model_metadata "data_lineage_id" VNone) = true ->
  query data_lineage_sql [dict_get_or model_metadata "data_lineage_id" VNone] e1
  = (Returns (first :: others), e2) ->
  dict_get "transformation_pipeline" first
  = Some (VList (map VDict (Lineage.transformation_pipeline lineage))) ->
  fst (_verify_data_lineage self model_id risk_level w)
  = Returns (true,
             "Complete lineage with "
               ++ str_int (Z.of_nat (List.length (Lineage.transformation_pipeline lineage)))
               ++ " steps").
Proof.
  intros Hvalid Hmd Hid Hq Hpipe.
  apply LineageFacts.validate_true_inv in Hvalid as (Hne & _ & Hfields & _).
  destruct (data_lineage_rule self model_id risk_level w model_metadata first others e1 e2
              _ Hmd Hid Hq Hpipe Hne) as (message & Hrun & Hmsg).
  rewrite Hrun, Hfields. now rewrite (Hmsg Hfields).
Qed.

(** A model classified [UNACCEPTABLE] is subject to no check: when the
    audit insert returns, [validate_deployment] allows the deployment,
    reports zero checks run, and has reached the collaborators only for
    that one insert. *)
Theorem unacceptable_level_runs_no_check (cfg : option dict) (model_id : string)
        (w : world E) :
  (forall table record e, exists b e', insert table record e = (Returns b, e')) ->
  exists report entry w',
    validate_deployment (ComplianceGate_init cfg) model_id UNACCEPTABLE w
    = (Returns (true, report), w') /\
    dict_get "risk_level" report = Some (VStr "unacceptable") /\
    dict_get "checks_run" report = Some (VInt 0) /\
    dict_get "failures" report = Some (VList []) /\
    calls w' = (calls w ++ [CallInsert "audit_log" entry])%list.
Proof.
  intros Hins.
  destruct (GateFacts.validate_deployment_run (ComplianceGate_init cfg) model_id
              UNACCEPTABLE w) as (ev & w1 & js & Hev & Hfst & Hrest).
  cbv zeta in Hrest. destruct Hrest as [Hjs Hrun].
  change (applicable (ComplianceGate_init cfg) UNACCEPTABLE)
    with (@nil (ComplianceCheck E)) in *.
  apply map_eq_nil in Hfst. subst ev.
  cbn [evaluate] in Hev. unfold ret in Hev. injection Hev as <-.
  match type of Hrun with
  | _ = match insert ?t ?r ?e with _ => _ end =>
      destruct (Hins t r e) as (b & e4 & Hb); rewrite Hb in Hrun
  end.
  eexists. eexists. eexists. split; [exact Hrun|]. repeat split; reflexivity.
Qed.

(** Every applicable check is reported exactly once: when the audit insert
    returns, [checks_run] is the number of passed entries plus warnings
    plus failures, and [can_deploy] says that there is no failure. *)
Theorem checks_run_counts_every_result (cfg : option dict) (model_id : string)
        (risk_level : RiskLevel) (w : world E) :
  (forall table record e, exists b e', insert table record e = (Returns b, e')) ->
  exists can_deploy report w' passed warned failed,
    validate_deployment (ComplianceGate_init cfg) model_id risk_level w
    = (Returns (can_deploy, report), w') /\
    dict_get "passed" report = Some (VList passed) /\
    dict_get "warnings" report = Some (VList warned) /\
    dict_get "failures" report = Some (VList failed) /\
    dict_get "checks_run" report
    = Some (VInt (Z.of_nat (List.length passed + List.length warned
                            + List.length failed))) /\
    can_deploy = Nat.eqb (List.length failed) 0.
Proof.
  intros Hins.
  destruct (GateFacts.validate_deployment_run (ComplianceGate_init cfg) model_id
              risk_level w) as (ev & w1 & js & Hev & Hfst & Hrest).
  cbv zeta in Hrest. destruct Hrest as [Hjs Hrun].
  match type of Hrun with
  | _ = match insert ?t ?r ?e with _ => _ end =>
      destruct (Hins t r e) as (b & e4 & Hb); rewrite Hb in Hrun
  end.
  do 6 eexists. split; [exact Hrun|].
  split; [reflexivity|]. split; [reflexivity|]. split; [reflexivity|].
  split; [|now rewrite !length_map].
  cbn [report_of dict_get String.eqb Ascii.eqb Bool.eqb].
  rewrite !length_map. now rewrite <- partition_lengths.
Qed.

End RuleClaims.

Module RuleScenarios.
Import Py World Gate GateProps RuleProps Demo.

(** Metrics equal to the thresholds pass. *)
Lemma performance_rule_decision_witness :
  fst (get_compliance_report "model_v1" (World.env (start (env_with boundary_metadata))))
  = Returns boundary_metadata /\
  accuracy_of [("accuracy", VFloat 0.85); ("f1_score", VFloat 0.80)] = VFloat 0.85 /\
  f1_of [("accuracy", VFloat 0.85); ("f1_score", VFloat 0.80)] = VFloat 0.80 /\
  min_accuracy_for default_gate HIGH = VFloat 0.85 /\
  min_f1_for default_gate HIGH = VFloat 0.80 /\
  fst (_verify_performance default_gate "model_v1" HIGH
         (start (env_with boundary_metadata)))
  = Returns (true, "Performance passed (accuracy: 85.00%, F1: 80.00%)").
Proof.
  refine (conj eq_refl (conj eq_refl (conj eq_refl (conj eq_refl (conj eq_refl _))))).
  exact (performance_rule_decision default_gate "model_v1" HIGH
           (start (env_with boundary_metadata)) boundary_metadata
           [("accuracy", VFloat 0.85); ("f1_score", VFloat 0.80)]
           0.85 0.80 0.85 0.80 eq_refl eq_refl ltac:(discriminate)
           eq_refl eq_refl eq_refl eq_refl).
Defined.

(** A limited-risk model with a 200 day old assessment passes, whatever age
    the configuration sets for high-risk models. *)
Lemma risk_assessment_decision_witness :
  max_assessment_age_for
    (ComplianceGate_init (Some [("max_risk_assessment_age_days", VInt 30)])) LIMITED
  = VInt 365 /\
  fst (_verify_risk_assessment
         (ComplianceGate_init (Some [("max_risk_assessment_age_days", VInt 30)]))
         "model_v1" LIMITED (start old_assessment_env))
  = Returns (true, "Valid assessment (age: 200 days)").
Proof.
  refine (conj eq_refl _).
  exact (risk_assessment_decision
           (ComplianceGate_init (Some [("max_risk_assessment_age_days", VInt 30)]))
           "model_v1" LIMITED (start old_assessment_env)
           [("completed_at", VDatetime (100 * day)); ("assessment_complete", VBool true)]
           [] old_assessment_env (100 * day) 365 eq_refl eq_refl eq_refl).
Defined.

Lemma nan_metrics_pass_witness :
  accuracy_of [("accuracy", VFloat not_a_number); ("f1", VFloat not_a_number)]
  = VFloat not_a_number /\
  f1_of [("accuracy", VFloat not_a_number); ("f1", VFloat not_a_number)]
  = VFloat not_a_number /\
  fst (_verify_performance default_gate "model_v1" HIGH (start (env_with nan_metadata)))
  = Returns (true, "Performance passed (accuracy: nan%, F1: nan%)") /\
  exists message,
    fst (_verify_bias_thresholds default_gate "model_v1" HIGH
           (start (env_with nan_metadata)))
    = Returns (true, message).
Proof.
  refine (conj eq_refl (conj eq_refl _)).
  exact (nan_metrics_pass default_gate "model_v1" HIGH (start (env_with nan_metadata))
           nan_metadata
           [("accuracy", VFloat not_a_number); ("f1", VFloat not_a_number)]
           [("gender", VDict [("demographic_parity_difference", VFloat not_a_number)])]
           0.85 0.80 0.10 eq_refl eq_refl ltac:(discriminate) eq_refl eq_refl eq_refl
           eq_refl eq_refl ltac:(discriminate)
           ltac:(repeat constructor) eq_refl).
Defined.

(** The two-step chain of the lineage scenarios, stored and looked up. *)
Lemma data_lineage_rule_decision_witness :
  truthy (dict_get_or compliant_metadata "data_lineage_id" VNone) = true /\
  exists message,
    fst (_verify_data_lineage default_gate "model_v1" HIGH
           (start (env_with_lineage [stored_row LineageProps.valid_chain])))
    = Returns (forallb Lineage.has_required_fields
                       (Lineage.transformation_pipeline LineageProps.valid_chain),
               message) /\
    (forallb Lineage.has_required_fields
             (Lineage.transformation_pipeline LineageProps.valid_chain) = true ->
     message = "Complete lineage with "
                 ++ str_int (Z.of_nat (List.length
                      (Lineage.transformation_pipeline LineageProps.valid_chain)))
                 ++ " steps").
Proof.
  refine (conj eq_refl _).
  exact (data_lineage_rule_decision default_gate "model_v1" HIGH
           (start (env_with_lineage [stored_row LineageProps.valid_chain]))
           compliant_metadata (stored_row LineageProps.valid_chain) []
           (env_with_lineage [stored_row LineageProps.valid_chain])
           (env_with_lineage [stored_row LineageProps.valid_chain])
           (Lineage.transformation_pipeline LineageProps.valid_chain)
           eq_refl eq_refl eq_refl eq_refl ltac:(discriminate)).
Defined.

Lemma validated_lineage_passes_gate_witness :
  Lineage.validate_lineage_chain LineageProps.valid_chain = Returns true /\
  fst (_verify_data_lineage default_gate "model_v1" HIGH
         (start (env_with_lineage [stored_row LineageProps.valid_chain])))
  = Returns (true, "Complete lineage with 2 steps").
Proof.
  refine (conj eq_refl _).
  exact (validated_lineage_passes_gate default_gate "model_v1" HIGH
           (start (env_with_lineage [stored_row LineageProps.valid_chain]))
           compliant_metadata (stored_row LineageProps.valid_chain) []
           (env_with_lineage [stored_row LineageProps.valid_chain])
           (env_with_lineage [stored_row LineageProps.valid_chain])
           LineageProps.valid_chain eq_refl eq_refl eq_refl eq_refl eq_refl).
Defined.

Lemma unacceptable_level_runs_no_check_witness :
  (forall table record (e : Demo.env),
      exists b e', insert table record e = (Returns b, e')) /\
  exists report entry w',
    validate_deployment default_gate "model_v1" UNACCEPTABLE (start compliant_env)
    = (Returns (true, report), w') /\
    dict_get "risk_level" report = Some (VStr "unacceptable") /\
    dict_get "checks_run" report = Some (VInt 0) /\
    dict_get "failures" report = Some (VList []) /\
    calls w' = (calls (start compliant_env) ++ [CallInsert "audit_log" entry])%list.
Proof.
  assert (Hins : forall table record (e : Demo.env),
             exists b e', insert table record e = (Returns b, e'))
    by (intros; eexists; eexists; reflexivity).
  refine (conj Hins _).
  exact (unacceptable_level_runs_no_check None "model_v1" (start compliant_env) Hins).
Defined.

Lemma checks_run_counts_every_result_witness :
  (forall table record (e : Demo.env),
      exists b e', insert table record e = (Returns b, e')) /\
  exists can_deploy report w' passed warned failed,
    validate_deployment default_gate "model_v1" HIGH (start compliant_env)
    = (Returns (can_deploy, report), w') /\
    dict_get "passed" report = Some (VList passed) /\
    dict_get "warnings" report = Some (VList warned) /\
    dict_get "failures" report = Some (VList failed) /\
    dict_get "checks_run" report
    = Some (VInt (Z.of_nat (List.length passed + List.length warned
                            + List.length failed))) /\
    can_deploy = Nat.eqb (List.length failed) 0.
Proof.
  assert (Hins : forall table record (e : Demo.env),
             exists b e', insert table record e = (Returns b, e'))
    by (intros; eexists; eexists; reflexivity).
  refine (conj Hins _).
  exact (checks_run_counts_every_result None "model_v1" HIGH (start compliant_env) Hins).
Defined.

End RuleScenarios.

(** ** The lineage tracker, step by step *)

Module TrackingFacts.
Import Py World Lineage LineageProps Tracking TrackingProps.

Lemma timestamp_of_get (step : dict) (t : Z) :
  timestamp_of step = Some t -> dict_get "timestamp" step = Some (VDatetime t).
Proof.
  unfold timestamp_of. destruct (dict_get "timestamp" step) as [[]|]; try discriminate.
  now intros [= ->].
Qed.

Lemma ordering_of_stamped (pipeline : list dict) :
  stamped pipeline = true ->
  forall prev,
    check_timestamp_ordering (VDatetime prev) pipeline
    = Returns (nondecreasing_from prev pipeline).
Proof.
  induction pipeline as [|step rest IH]; intros Hst prev; [reflexivity|].
  cbn [stamped forallb] in Hst. apply andb_prop in Hst as [Hstep Hrest].
  cbn [check_timestamp_ordering nondecreasing_from].
  destruct (timestamp_of step) as [t|] eqn:Ht; [|discriminate].
  unfold dict_get_or. rewrite (timestamp_of_get _ _ Ht).
  cbn [truthy py_lt py_order obind op_holds].
  rewrite Z.leb_compare, (Z.compare_antisym t prev).
  destruct (t ?= prev) eqn:Hc; cbn [CompOpp op_holds andb]; try reflexivity;
    now apply IH.
Qed.

Lemma required_field_present (step : dict) (field : string) :
  has_required_fields step = true -> In field required_fields ->
  exists v, dict_get field step = Some v.
Proof.
  unfold has_required_fields. rewrite forallb_forall. intros Hall Hin.
  specialize (Hall field Hin). unfold dict_mem in Hall.
  destruct (dict_get field step) as [v|]; [eauto|discriminate].
Qed.

Lemma continuity_of_complete (pipeline : list dict) :
  forallb has_required_fields pipeline = true ->
  check_hash_continuity pipeline = Returns (chained pipeline).
Proof.
  induction pipeline as [|prev rest IH]; intros Hall; [reflexivity|].
  cbn [forallb] in Hall. apply andb_prop in Hall as [Hprev Hrest].
  destruct rest as [|cur rest']; [reflexivity|].
  assert (Hcur : has_required_fields cur = true)
    by (cbn [forallb] in Hrest; now apply andb_prop in Hrest as [? _]).
  destruct (required_field_present prev "output_hash" Hprev) as (a & Ha);
    [cbn; tauto|].
  destruct (required_field_present cur "input_hash" Hcur) as (b & Hb);
    [cbn; tauto|].
  change (check_hash_continuity (prev :: cur :: rest'))
    with (obind (dict_getitem prev "output_hash") (fun prev_output =>
          obind (dict_getitem cur "input_hash") (fun current_input =>
          if py_ne prev_output current_input then Returns false
          else check_hash_continuity (cur :: rest')))).
  change (chained (prev :: cur :: rest'))
    with (match dict_get "output_hash" prev, dict_get "input_hash" cur with
          | Some a, Some b => py_eq a b
          | _, _ => false
          end && chained (cur :: rest')).
  unfold dict_getitem. rewrite Ha, Hb. cbn [obind]. unfold py_ne.
  destruct (py_eq a b); cbn [negb andb]; [now apply IH|reflexivity].
Qed.

Lemma final_hash_of_complete (self : DataLineage) :
  forallb has_required_fields (transformation_pipeline self) = true ->
  transformation_pipeline self <> [] ->
  check_final_hash self = Returns (final_hash_matches self).
Proof.
  intros Hall Hne. unfold check_final_hash, final_hash_matches.
  destruct (rev (transformation_pipeline self)) as [|last_step others] eqn:Hrev.
  - apply (f_equal (@rev dict)) in Hrev. rewrite rev_involutive in Hrev. contradiction.
  - assert (Hin : In last_step (transformation_pipeline self))
      by (apply in_rev; rewrite Hrev; now left).
    rewrite forallb_forall in Hall.
    destruct (required_field_present last_step "output_hash" (Hall _ Hin)) as (h & Hh);
      [cbn; tauto|].
    unfold dict_getitem. rewrite Hh. cbn [obind]. unfold py_ne. now rewrite negb_involutive.
Qed.

Lemma validate_of_stamped (self : DataLineage) :
  stamped (transformation_pipeline self) = true ->
  validate_lineage_chain self
  = Returns (nondecreasing_from (extraction_timestamp self) (transformation_pipeline self)
             && forallb has_required_fields (transformation_pipeline self)
             && chained (transformation_pipeline self)
             && final_hash_matches self).
Proof.
  intros Hst. unfold validate_lineage_chain.
  destruct (transformation_pipeline self) as [|step rest] eqn:Hp.
  - unfold final_hash_matches. rewrite Hp. reflexivity.
  - rewrite <- Hp in *. rewrite (ordering_of_stamped _ Hst). cbn [obind].
    destruct (nondecreasing_from _ _); cbn [negb andb]; [|reflexivity].
    destruct (forallb has_required_fields (transformation_pipeline self)) eqn:Hall;
      cbn [negb andb]; [|reflexivity].
    rewrite (continuity_of_complete _ Hall). cbn [obind].
    destruct (chained _); cbn [negb andb]; [|reflexivity].
    rewrite (final_hash_of_complete self Hall) by (rewrite Hp; discriminate).
    cbn [obind]. destruct (final_hash_matches self); reflexivity.
Qed.

Lemma length_append (a b : string) :
  String.length (a ++ b) = (String.length a + String.length b)%nat.
Proof. induction a as [|c a IH]; cbn; [reflexivity|now rewrite IH]. Qed.

Lemma append_inj_suffix (a1 a2 b1 b2 : string) :
  String.length b1 = String.length b2 -> a1 ++ b1 = a2 ++ b2 -> a1 = a2.
Proof.
  revert a2. induction a1 as [|c a1 IH]; intros [|c2 a2] Hlen Heq; cbn in Heq.
  - reflexivity.
  - apply (f_equal String.length) in Heq. cbn in Heq. rewrite length_append in Heq. lia.
  - apply (f_equal String.length) in Heq. cbn in Heq. rewrite length_append in Heq. lia.
  - injection Heq as -> Heq. f_equal. now apply IH.
Qed.

Lemma append_inj_prefix (a b1 b2 : string) : a ++ b1 = a ++ b2 -> b1 = b2.
Proof. induction a as [|c a IH]; cbn; [auto|]. intros [= Heq]. auto. Qed.

Lemma suffix_of_digest (s : string) :
  String.length (substring 0 8 (Sha256.hexdigest s)) = 8%nat /\
  HashProps.hex_string (substring 0 8 (Sha256.hexdigest s)) = true.
Proof.
  split; [reflexivity|].
  unfold Sha256.hexdigest, Sha256.hex_state.
  unfold Sha256.hex_word at 1. cbn [substring].
  unfold HashProps.hex_string. cbn [list_ascii_of_string forallb].
  now rewrite !HashFacts.hex_digit_is_hex.
Qed.

Section Ids.
Context {E : Type} `{GovernanceStorageBackend E} `{ModelRegistry E} `{Clock E}
        `{Builtins} `{Pandas}.

Lemma generate_id_run (w : world E) :
  _generate_id w
  = (Returns ("dataset_" ++ isoformat (fst (now (env w))) ++ "_"
                ++ substring 0 8 (Sha256.hexdigest (isoformat (fst (now (env w)))))),
     World (snd (now (env w))) (calls w)).
Proof.
  unfold _generate_id, bind, datetime_now, ret. now destruct (now (env w)).
Qed.

End Ids.

Section Runs.
Context {E : Type} `{GovernanceStorageBackend E} `{ModelRegistry E} `{Clock E}
        `{Builtins} `{Pandas}.

Lemma metrics_run (df : DataFrame) (w : world E) :
  metrics_computable df ->
  exists metrics,
    _compute_quality_metrics (ODataFrame df) w
    = (Returns metrics, World (snd (now (env w))) (calls w)).
Proof.
  intros ((ratio & Hratio) & (n & Hn) & Htarget).
  unfold _compute_quality_metrics. rewrite Hratio, Hn.
  cbv beta iota delta [bind lift ret datetime_now].
  destruct (now (env w)) as [t e1]. cbn [snd].
  destruct (mem_string "target" (columns df)).
  - destruct (Htarget eq_refl) as (counted & ->). eexists. reflexivity.
  - eexists. reflexivity.
Qed.

(** [track_extraction] on a frame, up to the insert. *)
Lemma extraction_run (source query : string) (df : DataFrame) (h : string)
      (self : LineageTracker E) :
  _stable_hash (ODataFrame df) = Returns h ->
  metrics_computable df ->
  let e1 := snd (now (env (storage self))) in
  let id := "dataset_" ++ isoformat (fst (now (env (storage self)))) ++ "_"
              ++ substring 0 8 (Sha256.hexdigest
                                  (isoformat (fst (now (env (storage self)))))) in
  let started := fst (now e1) in
  let e2 := snd (now e1) in
  let stamp := fst (now e2) in
  let e3 := snd (now e2) in
  exists metrics,
    let lineage :=
      {| dataset_id := id;
         source_systems := [source];
         extraction_timestamp := started;
         transformation_pipeline := [extraction_step source query df stamp h];
         data_quality_metrics := metrics;
         content_hash := h |} in
    let logged :=
      (calls (storage self) ++ [CallInsert "data_lineage" (lineage_dict lineage)])%list in
    track_extraction source query (ODataFrame df) self
    = match insert "data_lineage" (lineage_dict lineage) (snd (now e3)) with
      | (Returns _, e5) =>
          (Returns id, {| storage := World e5 logged; current_lineage := Some lineage |})
      | (Raises x, e5) =>
          (Raises x, {| storage := World e5 logged; current_lineage := Some lineage |})
      end.
Proof.
  intros Hh Hm. cbv zeta.
  destruct self as [[e0 cs] cur]. cbn [storage env calls].
  unfold track_extraction.
  unfold bind at 1. unfold on_storage at 1. cbn [storage current_lineage].
  rewrite generate_id_run. cbn [env calls].
  unfold bind at 1. unfold on_storage at 1. cbn [storage current_lineage].
  unfold datetime_now at 1. cbn [env calls].
  destruct (now e0) as [t1 e1]. cbn [fst snd].
  destruct (now e1) as [t2 e2]. cbn [fst snd].
  cbn [data_len data_columns data_dtypes].
  unfold bind at 1. unfold lift at 1. unfold bind at 1. unfold lift at 1.
  unfold bind at 1. unfold lift at 1.
  unfold bind at 1. unfold on_storage at 1. cbn [storage current_lineage].
  unfold datetime_now at 1. cbn [env calls].
  destruct (now e2) as [t3 e3]. cbn [fst snd].
  rewrite Hh.
  unfold bind at 1. unfold lift at 1.
  unfold bind at 1. unfold on_storage at 1. cbn [storage current_lineage].
  destruct (metrics_run df (World e3 cs) Hm) as (metrics & Hmetrics).
  rewrite Hmetrics. cbn [env calls]. exists metrics.
  cbv beta iota delta [bind lift ret set_current_lineage on_storage storage_insert
                         storage current_lineage env calls].
  fold (extraction_step source query df t3 h).
  destruct (insert "data_lineage" _ (snd (now e3))) as [[b|x] e5]; reflexivity.
Qed.

(** [track_transformation] on two frames, up to the update. *)
Lemma transformation_run (step_name transformation_code : string)
      (before after : DataFrame) (input_hash output_hash : string)
      (lineage : DataLineage) (self : LineageTracker E) :
  current_lineage self = Some lineage ->
  _stable_hash (ODataFrame before) = Returns input_hash ->
  _stable_hash (ODataFrame after) = Returns output_hash ->
  let stamp := fst (now (env (storage self))) in
  let e1 := snd (now (env (storage self))) in
  let updated :=
    extended lineage
      (transformation_step step_name before after input_hash output_hash
                           transformation_code stamp)
      output_hash in
  let logged := (calls (storage self) ++ [update_call updated])%list in
  track_transformation step_name (ODataFrame before) (ODataFrame after)
                       transformation_code self
  = match update "data_lineage"
            [("dataset_id", VStr (dataset_id updated))]
            [("transformation_pipeline",
              VList (map VDict (transformation_pipeline updated)));
             ("content_hash", VStr (content_hash updated))] e1 with
    | (Returns _, e2) =>
        (Returns tt, {| storage := World e2 logged; current_lineage := Some updated |})
    | (Raises x, e2) =>
        (Raises x, {| storage := World e2 logged; current_lineage := Some updated |})
    end.
Proof.
  intros Hcur Hin Hout. cbv zeta.
  destruct self as [[e0 cs] cur]. cbn [storage current_lineage env calls] in *. subst cur.
  unfold track_transformation.
  unfold bind at 1. unfold get_current_lineage at 1. cbn [current_lineage].
  rewrite Hin, Hout.
  cbv beta iota delta [bind lift ret set_current_lineage on_storage storage_update
                         datetime_now data_len data_columns
                         storage current_lineage env calls].
  destruct (now e0) as [t e1]. cbn [fst snd].
  cbn [dataset_id source_systems extraction_timestamp transformation_pipeline
       data_quality_metrics content_hash].
  fold (transformation_step step_name before after input_hash output_hash
                            transformation_code t).
  unfold extended, update_call.
  cbn [dataset_id source_systems extraction_timestamp transformation_pipeline
       data_quality_metrics content_hash].
  destruct (update "data_lineage" _ _ e1) as [[b|x] e2]; reflexivity.
Qed.

(** Whatever is not a pair of frames is turned down before anything is
    recorded. *)
Lemma transformation_rejects (step_name transformation_code : string)
      (input_data output_data : pyobj) (self : LineageTracker E) :
  (forall before after, input_data = ODataFrame before -> output_data = ODataFrame after ->
                        False) ->
  exists e self',
    track_transformation step_name input_data output_data transformation_code self
    = (Raises e, self') /\
    current_lineage self' = current_lineage self /\
    calls (storage self') = calls (storage self).
Proof.
  intros Hnot. destruct self as [[e0 cs] [lineage|]];
    [|eexists; eexists; split; [reflexivity|split; reflexivity]].
  unfold track_transformation.
  cbv beta iota delta [bind lift ret raise get_current_lineage on_storage datetime_now
                         storage current_lineage env calls].
  destruct (_stable_hash input_data) as [hi|x];
    [|eexists; eexists; split; [reflexivity|split; reflexivity]].
  destruct (_stable_hash output_data) as [ho|x];
    [|eexists; eexists; split; [reflexivity|split; reflexivity]].
  destruct (now e0) as [t e1].
  destruct (data_len input_data) as [n|x];
    [|eexists; eexists; split; [reflexivity|split; reflexivity]].
  destruct (data_len output_data) as [m|x];
    [|eexists; eexists; split; [reflexivity|split; reflexivity]].
  destruct output_data as [after|v]; cbn [data_columns];
    [|eexists; eexists; split; [reflexivity|split; reflexivity]].
  destruct input_data as [before|v]; cbn [data_columns];
    [|eexists; eexists; split; [reflexivity|split; reflexivity]].
  destruct (Hnot before after eq_refl eq_refl).
Qed.

Lemma extraction_rejects (source query : string) (v : pyval) (self : LineageTracker E) :
  exists e self',
    track_extraction source query (OValue v) self = (Raises e, self') /\
    current_lineage self' = current_lineage self /\
    calls (storage self') = calls (storage self).
Proof.
  destruct self as [[e0 cs] cur]. unfold track_extraction.
  unfold bind at 1. unfold on_storage at 1. cbn [storage current_lineage].
  rewrite generate_id_run. cbn [env calls].
  cbv beta iota delta [bind lift ret raise on_storage datetime_now
                         storage current_lineage env calls data_len data_columns].
  destruct (now e0) as [t1 e1]. cbn [snd]. destruct (now e1) as [t2 e2].
  destruct (py_len v) as [n|x]; eexists; eexists; split; try reflexivity;
    split; reflexivity.
Qed.

Lemma transformation_failure (step_name transformation_code : string)
      (input_data output_data : pyobj) (self self' : LineageTracker E) (e : exn) :
  track_transformation step_name input_data output_data transformation_code self
  = (Raises e, self') ->
  (current_lineage self' = current_lineage self /\
   calls (storage self') = calls (storage self)) \/
  (exists lineage new_step new_hash,
      current_lineage self = Some lineage /\
      current_lineage self' = Some (extended lineage new_step new_hash) /\
      calls (storage self')
      = (calls (storage self) ++ [update_call (extended lineage new_step new_hash)])%list).
Proof.
  intros Hrun.
  assert (Hearly : (forall before after, input_data = ODataFrame before ->
                                         output_data = ODataFrame after -> False) ->
                   current_lineage self' = current_lineage self /\
                   calls (storage self') = calls (storage self)).
  { intros Hnot.
    destruct (transformation_rejects step_name transformation_code _ _ self Hnot)
      as (e' & self2 & Hrej & Hcur & Hcalls).
    rewrite Hrun in Hrej. injection Hrej as _ <-. now split. }
  destruct input_data as [before|v];
    [|left; apply Hearly; intros ? ? ? ?; discriminate].
  destruct output_data as [after|v'];
    [|left; apply Hearly; intros ? ? ? ?; discriminate].
  clear Hearly.
  destruct (current_lineage self) as [lineage|] eqn:Hcur.
  - destruct (_stable_hash (ODataFrame before)) as [hi|x] eqn:Hin.
    + destruct (_stable_hash (ODataFrame after)) as [ho|x] eqn:Hout.
      * rewrite (transformation_run step_name transformation_code before after hi ho
                   lineage self Hcur Hin Hout) in Hrun.
        cbv zeta in Hrun.
        destruct (update "data_lineage" _ _ _) as [[b|x] e2]; [discriminate|].
        injection Hrun as _ <-. right. do 3 eexists.
        split; [reflexivity|]. split; reflexivity.
      * left. destruct self as [[e0 cs] cur]. cbn [current_lineage] in Hcur. subst cur.
        unfold track_transformation in Hrun.
        cbv beta iota delta [bind lift ret raise get_current_lineage
                               storage current_lineage env calls] in Hrun.
        rewrite Hin, Hout in Hrun. injection Hrun as _ <-. split; reflexivity.
    + left. destruct self as [[e0 cs] cur]. cbn [current_lineage] in Hcur. subst cur.
      unfold track_transformation in Hrun.
      cbv beta iota delta [bind lift ret raise get_current_lineage
                             storage current_lineage env calls] in Hrun.
      rewrite Hin in Hrun. injection Hrun as _ <-. split; reflexivity.
  - left. destruct self as [[e0 cs] cur]. cbn [current_lineage] in Hcur. subst cur.
    unfold track_transformation in Hrun.
    cbv beta iota delta [bind raise get_current_lineage current_lineage] in Hrun.
    injection Hrun as _ <-. split; reflexivity.
Qed.

End Runs.

(** *** One more step on a chain *)

Lemma last_snoc_cons {A : Type} (x : A) (l : list A) (d : A) :
  l <> [] -> last (x :: l) d = last l d.
Proof. destruct l; [contradiction|reflexivity]. Qed.

Lemma stamped_last (pipeline : list dict) :
  stamped pipeline = true -> pipeline <> [] ->
  exists t, last_timestamp pipeline = Some t.
Proof.
  unfold last_timestamp.
  induction pipeline as [|step rest IH]; intros Hst Hne; [contradiction|].
  cbn [stamped forallb] in Hst. apply andb_prop in Hst as [Hstep Hrest].
  destruct rest as [|next rest'].
  - cbn [last]. destruct (timestamp_of step); [eauto|discriminate].
  - rewrite (last_snoc_cons step (next :: rest')) by discriminate.
    apply IH; [exact Hrest|discriminate].
Qed.

Lemma nondecreasing_snoc (pipeline : list dict) (new_step : dict) (t : Z) :
  timestamp_of new_step = Some t ->
  stamped pipeline = true ->
  forall prev,
    nondecreasing_from prev (pipeline ++ [new_step])
    = nondecreasing_from prev pipeline
      && (match last_timestamp pipeline with Some t0 => t0 | None => prev end <=? t).
Proof.
  intros Ht. unfold last_timestamp.
  induction pipeline as [|step rest IH]; intros Hst prev.
  - cbn [app nondecreasing_from last]. rewrite Ht.
    change (timestamp_of []) with (@None Z). cbn [andb]. now rewrite andb_true_r.
  - cbn [stamped forallb] in Hst. apply andb_prop in Hst as [Hstep Hrest].
    cbn [app nondecreasing_from].
    destruct (timestamp_of step) as [ts|] eqn:Hts; [|discriminate Hstep].
    rewrite (IH Hrest ts). rewrite andb_assoc. f_equal.
    destruct rest as [|next rest'].
    + cbn [last]. now rewrite Hts.
    + rewrite (last_snoc_cons step (next :: rest')) by discriminate.
      destruct (stamped_last (next :: rest') Hrest) as (t0 & Ht0); [discriminate|].
      unfold last_timestamp in Ht0. now rewrite Ht0.
Qed.

Lemma chained_snoc (pipeline : list dict) (new_step : dict) :
  pipeline <> [] ->
  chained (pipeline ++ [new_step])
  = chained pipeline
    && match dict_get "output_hash" (last pipeline []), dict_get "input_hash" new_step with
       | Some a, Some b => py_eq a b
       | _, _ => false
       end.
Proof.
  induction pipeline as [|step rest IH]; intros Hne; [contradiction|].
  destruct rest as [|next rest'].
  - cbn [app chained last]. now rewrite andb_true_r.
  - rewrite (last_snoc_cons step (next :: rest')) by discriminate.
    change (chained ((step :: next :: rest') ++ [new_step]))
      with (match dict_get "output_hash" step, dict_get "input_hash" next with
            | Some a, Some b => py_eq a b
            | _, _ => false
            end && chained ((next :: rest') ++ [new_step])).
    change (chained (step :: next :: rest'))
      with (match dict_get "output_hash" step, dict_get "input_hash" next with
            | Some a, Some b => py_eq a b
            | _, _ => false
            end && chained (next :: rest')).
    rewrite IH by discriminate. now rewrite andb_assoc.
Qed.

Lemma rev_head_last {A : Type} (l : list A) (x d : A) (others : list A) :
  rev l = x :: others -> last l d = x.
Proof.
  intros Hrev. apply (f_equal (@rev A)) in Hrev. rewrite rev_involutive in Hrev.
  subst l. cbn [rev]. now rewrite last_last.
Qed.

Lemma py_eq_str (s : string) (v : pyval) : py_eq (VStr s) v = true -> v = VStr s.
Proof.
  destruct v; cbn; try discriminate. intros Heq. apply String.eqb_eq in Heq. now subst.
Qed.

Lemma final_hash_last (self : DataLineage) :
  final_hash_matches self = true ->
  dict_get "output_hash" (last (transformation_pipeline self) [])
  = Some (VStr (content_hash self)).
Proof.
  unfold final_hash_matches.
  destruct (rev (transformation_pipeline self)) as [|last_step others] eqn:Hrev;
    [discriminate|].
  intros Hmatch.
  replace (last (transformation_pipeline self) []) with last_step
    by (symmetry; exact (rev_head_last _ _ _ _ Hrev)).
  revert Hmatch.
  destruct (dict_get "output_hash" last_step) as [h|]; [|discriminate].
  intros Heq. now rewrite (py_eq_str _ _ Heq).
Qed.

(** Validity of a valid, stamped chain after one more stamped step. *)
Lemma validate_extended (lineage : DataLineage) (new_step : dict)
      (input_hash output_hash : string) (t0 t : Z) :
  stamped (transformation_pipeline lineage) = true ->
  validate_lineage_chain lineage = Returns true ->
  last_timestamp (transformation_pipeline lineage) = Some t0 ->
  has_required_fields new_step = true ->
  timestamp_of new_step = Some t ->
  dict_get "input_hash" new_step = Some (VStr input_hash) ->
  dict_get "output_hash" new_step = Some (VStr output_hash) ->
  validate_lineage_chain (extended lineage new_step output_hash)
  = Returns ((t0 <=? t) && String.eqb (content_hash lineage) input_hash).
Proof.
  intros Hst Hvalid Hlast Hfields Ht Hin Hout.
  rewrite (validate_of_stamped lineage Hst) in Hvalid.
  injection Hvalid as Hvalid.
  apply andb_prop in Hvalid as [Hvalid Hfinal].
  apply andb_prop in Hvalid as [Hvalid Hchained].
  apply andb_prop in Hvalid as [Hordered Hcomplete].
  assert (Hne : transformation_pipeline lineage <> []).
  { intros Hnil. unfold final_hash_matches in Hfinal. rewrite Hnil in Hfinal.
    discriminate. }
  rewrite validate_of_stamped.
  - cbn [extended transformation_pipeline extraction_timestamp].
    rewrite (nondecreasing_snoc _ _ _ Ht Hst), Hordered, Hlast.
    rewrite forallb_app, Hcomplete. cbn [forallb]. rewrite Hfields.
    rewrite (chained_snoc _ _ Hne), Hchained, (final_hash_last _ Hfinal), Hin.
    unfold final_hash_matches. cbn [extended transformation_pipeline content_hash].
    rewrite rev_app_distr. cbn [rev app]. rewrite Hout.
    cbn [py_eq andb]. rewrite String.eqb_refl. now rewrite !andb_true_r.
  - cbn [extended transformation_pipeline]. unfold stamped. rewrite forallb_app.
    fold (stamped (transformation_pipeline lineage)). rewrite Hst.
    cbn [forallb]. now rewrite Ht.
Qed.

End TrackingFacts.

Section ChainClaims.
Import Py World Lineage LineageProps Tracking TrackingProps.

(** On a record whose steps all carry a datetime timestamp,
    [validate_lineage_chain] never raises, and it returns [True] exactly
    when the pipeline is non-empty, no step is stamped before the one
    before it nor the first before the extraction, every step has the four
    required fields, each [input_hash] equals the previous [output_hash],
    and [content_hash] equals the last [output_hash]. *)
Theorem validate_lineage_chain_characterised (self : DataLineage) :
  stamped (transformation_pipeline self) = true ->
  validate_lineage_chain self
  = Returns (nondecreasing_from (extraction_timestamp self) (transformation_pipeline self)
             && forallb has_required_fields (transformation_pipeline self)
             && chained (transformation_pipeline self)
             && final_hash_matches self).
Proof. apply TrackingFacts.validate_of_stamped. Qed.

End ChainClaims.

Section IdClaims.
Import Py World Lineage Tracking.
Context {E : Type} `{GovernanceStorageBackend E} `{ModelRegistry E} `{Clock E}
        `{Builtins} `{Pandas}.

(** [_generate_id] returns [dataset_<timestamp>_<suffix>], the suffix being
    eight hexadecimal digits computed from the timestamp alone: two calls
    return the same id exactly when the clock's ISO strings are the same. *)
Theorem generated_id_follows_the_clock (w1 w2 : world E) :
  (exists suffix,
      fst (_generate_id w1)
      = Returns ("dataset_" ++ isoformat (fst (now (env w1))) ++ "_" ++ suffix) /\
      String.length suffix = 8%nat /\
      HashProps.hex_string suffix = true) /\
  (fst (_generate_id w1) = fst (_generate_id w2) <->
   isoformat (fst (now (env w1))) = isoformat (fst (now (env w2)))).
Proof.
  rewrite !TrackingFacts.generate_id_run. cbn [fst]. split.
  - eexists. split; [reflexivity|]. apply TrackingFacts.suffix_of_digest.
  - split.
    + intros Heq. apply (f_equal (fun o => match o with
                                           | Returns id => id
                                           | Raises _ => ""
                                           end)) in Heq.
      apply TrackingFacts.append_inj_prefix in Heq.
      apply TrackingFacts.append_inj_suffix in Heq; [exact Heq|reflexivity].
    + intros ->. reflexivity.
Qed.

End IdClaims.


Section TrackerStepClaims.
Import Py World Lineage LineageProps Tracking TrackingProps.
Context {E : Type} `{GovernanceStorageBackend E} `{ModelRegistry E} `{Clock E}
        `{Builtins} `{Pandas}.

(** [track_extraction] on a frame that hashes and whose quality metrics
    pandas computes, with a storage whose insert returns: the tracker then
    holds a lineage with the returned id, the source, and exactly one step,
    named extraction, with an empty input hash and the frame's hash as both
    its output hash and the lineage's content hash; the one storage call is
    the insert of that lineage into [data_lineage]. *)
Theorem track_extraction_records_one_step (source query : string) (df : DataFrame)
        (h : string) (self : LineageTracker E) :
  _stable_hash (ODataFrame df) = Returns h ->
  metrics_computable df ->
  (forall table record e, exists b e', insert table record e = (Returns b, e')) ->
  exists id self' lineage first_step,
    track_extraction source query (ODataFrame df) self = (Returns id, self') /\
    current_lineage self' = Some lineage /\
    dataset_id lineage = id /\
    source_systems lineage = [source] /\
    transformation_pipeline lineage = [first_step] /\
    dict_get "step" first_step = Some (VStr "extraction") /\
    dict_get "input_hash" first_step = Some (VStr "") /\
    dict_get "output_hash" first_step = Some (VStr h) /\
    dict_get "row_count" first_step = Some (VInt (Z.of_nat (List.length (rows df)))) /\
    content_hash lineage = h /\
    calls (storage self')
    = (calls (storage self) ++ [CallInsert "data_lineage" (lineage_dict lineage)])%list.
Proof.
  intros Hh Hm Hins.
  destruct (TrackingFacts.extraction_run source query df h self Hh Hm) as (metrics & Hrun).
  cbv zeta in Hrun.
  match type of Hrun with
  | _ = match insert ?t ?r ?e with _ => _ end =>
      destruct (Hins t r e) as (b & e5 & Hb); rewrite Hb in Hrun
  end.
  do 4 eexists. split; [exact Hrun|].
  cbn [current_lineage storage calls dataset_id source_systems transformation_pipeline
       content_hash].
  repeat (split; [reflexivity|]). reflexivity.
Qed.

(** The lineage [track_extraction] leaves behind is stamped with two
    successive readings of the clock, and [validate_lineage_chain] accepts
    it exactly when the second reading is not earlier than the first. *)
Theorem extracted_lineage_valid_iff_clock_monotone (source query : string)
        (df : DataFrame) (h : string) (self : LineageTracker E) :
  _stable_hash (ODataFrame df) = Returns h ->
  metrics_computable df ->
  exists outcome self' lineage,
    track_extraction source query (ODataFrame df) self = (outcome, self') /\
    current_lineage self' = Some lineage /\
    let e1 := snd (now (env (storage self))) in
    let started := fst (now e1) in
    let stamp := fst (now (snd (now e1))) in
    extraction_timestamp lineage = started /\
    last_timestamp (transformation_pipeline lineage) = Some stamp /\
    validate_lineage_chain lineage = Returns (started <=? stamp).
Proof.
  intros Hh Hm.
  destruct (TrackingFacts.extraction_run source query df h self Hh Hm) as (metrics & Hrun).
  cbv zeta in Hrun.
  destruct (insert "data_lineage" _ _) as [[b|x] e5]; do 3 eexists;
    (split; [exact Hrun|]); cbn [current_lineage]; (split; [reflexivity|]);
    cbv zeta; cbn [extraction_timestamp transformation_pipeline];
    (split; [reflexivity|]); (split; [reflexivity|]);
    rewrite TrackingFacts.validate_of_stamped by reflexivity;
    cbn [extraction_timestamp transformation_pipeline];
    unfold final_hash_matches, extraction_step;
    cbn [nondecreasing_from timestamp_of dict_get String.eqb Ascii.eqb Bool.eqb
         forallb has_required_fields required_fields dict_mem chained rev app
         transformation_pipeline content_hash py_eq andb];
    rewrite String.eqb_refl; now rewrite !andb_true_r.
Qed.

(** [track_transformation] on two frames that hash, with a storage whose
    update returns: the lineage keeps its id, sources, extraction time,
    metrics and earlier steps, gains exactly one step carrying the two
    hashes, the clock reading and the number of rows removed, its content
    hash becomes the output hash, and the one storage call is an update of
    [data_lineage] keyed by the dataset id. *)
Theorem track_transformation_appends_one_step (step_name transformation_code : string)
        (before after : DataFrame) (input_hash output_hash : string)
        (lineage : DataLineage) (self : LineageTracker E) :
  current_lineage self = Some lineage ->
  _stable_hash (ODataFrame before) = Returns input_hash ->
  _stable_hash (ODataFrame after) = Returns output_hash ->
  (forall table condition data e,
      exists b e', update table condition data e = (Returns b, e')) ->
  exists self' updated new_step,
    track_transformation step_name (ODataFrame before) (ODataFrame after)
                         transformation_code self = (Returns tt, self') /\
    current_lineage self' = Some updated /\
    transformation_pipeline updated = (transformation_pipeline lineage ++ [new_step])%list /\
    dataset_id updated = dataset_id lineage /\
    source_systems updated = source_systems lineage /\
    extraction_timestamp updated = extraction_timestamp lineage /\
    data_quality_metrics updated = data_quality_metrics lineage /\
    content_hash updated = output_hash /\
    dict_get "step" new_step = Some (VStr step_name) /\
    dict_get "input_hash" new_step = Some (VStr input_hash) /\
    dict_get "output_hash" new_step = Some (VStr output_hash) /\
    dict_get "timestamp" new_step = Some (VDatetime (fst (now (env (storage self))))) /\
    dict_get "rows_removed" new_step
    = Some (VInt (Z.of_nat (List.length (rows before))
                  - Z.of_nat (List.length (rows after)))) /\
    calls (storage self')
    = (calls (storage self)
         ++ [CallUpdate "data_lineage"
               [("dataset_id", VStr (dataset_id lineage))]
               [("transformation_pipeline",
                 VList (map VDict (transformation_pipeline updated)));
                ("content_hash", VStr output_hash)]])%list.
Proof.
  intros Hcur Hin Hout Hupd.
  pose proof (TrackingFacts.transformation_run step_name transformation_code before after
                input_hash output_hash lineage self Hcur Hin Hout) as Hrun.
  cbv zeta in Hrun.
  match type of Hrun with
  | _ = match update ?t ?c ?d ?e with _ => _ end =>
      destruct (Hupd t c d e) as (b & e2 & Hb); rewrite Hb in Hrun
  end.
  do 3 eexists. split; [exact Hrun|].
  cbn [current_lineage storage calls extended dataset_id source_systems
       extraction_timestamp transformation_pipeline data_quality_metrics content_hash].
  repeat (split; [reflexivity|]). reflexivity.
Qed.

(** A lineage that validates, extended by [track_transformation] on two
    frames: the tracker's lineage validates afterwards exactly when the
    clock reading is not earlier than the last step's timestamp and the
    hash of the input frame is the content hash recorded so far. *)
Theorem transformed_lineage_valid_iff_input_matches (step_name transformation_code : string)
        (before after : DataFrame) (input_hash output_hash : string)
        (lineage : DataLineage) (last_stamp : Z) (self : LineageTracker E) :
  current_lineage self = Some lineage ->
  stamped (transformation_pipeline lineage) = true ->
  validate_lineage_chain lineage = Returns true ->
  last_timestamp (transformation_pipeline lineage) = Some last_stamp ->
  _stable_hash (ODataFrame before) = Returns input_hash ->
  _stable_hash (ODataFrame after) = Returns output_hash ->
  exists outcome self' updated,
    track_transformation step_name (ODataFrame before) (ODataFrame after)
                         transformation_code self = (outcome, self') /\
    current_lineage self' = Some updated /\
    validate_lineage_chain updated
    = Returns ((last_stamp <=? fst (now (env (storage self))))
               && String.eqb (content_hash lineage) input_hash).
Proof.
  intros Hcur Hst Hvalid Hlast Hin Hout.
  pose proof (TrackingFacts.transformation_run step_name transformation_code before after
                input_hash output_hash lineage self Hcur Hin Hout) as Hrun.
  cbv zeta in Hrun.
  destruct (update "data_lineage" _ _ _) as [[b|x] e2]; do 3 eexists;
    (split; [exact Hrun|]); cbn [current_lineage]; (split; [reflexivity|]);
    apply (TrackingFacts.validate_extended lineage _ input_hash output_hash last_stamp);
    try assumption; reflexivity.
Qed.

(** When [track_transformation] raises, either nothing was recorded (the
    tracker's lineage and the log of storage calls are as before), or the
    call that raised is the storage update, and the tracker already holds
    the lineage with the new step that the storage did not take. *)
Theorem failed_transformation_is_unrecorded_or_unsaved
        (step_name transformation_code : string) (input_data output_data : pyobj)
        (self self' : LineageTracker E) (e : exn) :
  track_transformation step_name input_data output_data transformation_code self
  = (Raises e, self') ->
  (current_lineage self' = current_lineage self /\
   calls (storage self') = calls (storage self)) \/
  (exists lineage new_step new_hash,
      current_lineage self = Some lineage /\
      current_lineage self' = Some (extended lineage new_step new_hash) /\
      calls (storage self')
      = (calls (storage self) ++ [update_call (extended lineage new_step new_hash)])%list).
Proof. apply TrackingFacts.transformation_failure. Qed.

(** The tracker takes frames only: data that is not a frame, though
    [_stable_hash] may hash it, makes [track_extraction] raise, and makes
    [track_transformation] raise whether it is the input or the output;
    the tracker's lineage and the log of storage calls stay as they were. *)
Theorem tracker_takes_frames_only (source query step_name transformation_code : string)
        (v : pyval) (other : pyobj) (self : LineageTracker E) :
  (exists e self',
      track_extraction source query (OValue v) self = (Raises e, self') /\
      current_lineage self' = current_lineage self /\
      calls (storage self') = calls (storage self)) /\
  (exists e self',
      track_transformation step_name (OValue v) other transformation_code self
      = (Raises e, self') /\
      current_lineage self' = current_lineage self /\
      calls (storage self') = calls (storage self)) /\
  (exists e self',
      track_transformation step_name other (OValue v) transformation_code self
      = (Raises e, self') /\
      current_lineage self' = current_lineage self /\
      calls (storage self') = calls (storage self)).
Proof.
  split; [apply TrackingFacts.extraction_rejects|].
  split; apply TrackingFacts.transformation_rejects; intros ? ? ? ?; discriminate.
Qed.

(** A frame without rows hashes to the digest of the text of an empty JSON
    list, whatever its columns: on empty data the schema leaves no trace in
    the hash. *)
Theorem frames_without_rows_hash_alike (cols : list string) :
  _stable_hash (ODataFrame {| columns := cols; rows := [] |})
  = Returns "4f53cda18c2baa0c0354bb5f9a3ecbe5ed12ab4d8e11ba873c2f11161202b945".
Proof.
  unfold _stable_hash, Json.dumps, to_dict_records. cbn [rows map Json.sort_keys].
  cbn [Json.encode obind]. vm_compute. reflexivity.
Qed.

End TrackerStepClaims.

Module TrackerStepScenarios.
Import Py World Lineage LineageProps Tracking TrackingProps Demo.
#[local] Existing Instance Outage.outage_storage.
#[local] Existing Instance Outage.outage_registry.
#[local] Existing Instance Outage.outage_clock.

Lemma two_columns_hash : _stable_hash (ODataFrame two_columns) = Returns two_columns_digest.
Proof. vm_compute. reflexivity. Qed.

Lemma two_columns_filtered_hash :
  _stable_hash (ODataFrame two_columns_filtered) = Returns two_columns_filtered_digest.
Proof. vm_compute. reflexivity. Qed.

Lemma two_columns_metrics : metrics_computable two_columns.
Proof.
  split; [|split].
  - eexists. reflexivity.
  - eexists. reflexivity.
  - discriminate.
Qed.

Lemma inserts_return :
  forall table record (e : Demo.env), exists b e', insert table record e = (Returns b, e').
Proof. intros. eexists. eexists. reflexivity. Qed.

Lemma updates_return :
  forall table condition data (e : Demo.env),
    exists b e', update table condition data e = (Returns b, e').
Proof. intros. eexists. eexists. reflexivity. Qed.

Lemma validate_lineage_chain_characterised_witness :
  stamped (transformation_pipeline valid_chain) = true /\
  validate_lineage_chain valid_chain
  = Returns (nondecreasing_from (extraction_timestamp valid_chain)
                                (transformation_pipeline valid_chain)
             && forallb has_required_fields (transformation_pipeline valid_chain)
             && chained (transformation_pipeline valid_chain)
             && final_hash_matches valid_chain).
Proof.
  refine (conj eq_refl _).
  exact (validate_lineage_chain_characterised valid_chain eq_refl).
Defined.

Lemma track_extraction_records_one_step_witness :
  _stable_hash (ODataFrame two_columns) = Returns two_columns_digest /\
  metrics_computable two_columns /\
  (forall table record (e : Demo.env),
      exists b e', insert table record e = (Returns b, e')) /\
  exists id self' lineage first_step,
    track_extraction "customer_db" "SELECT * FROM users" (ODataFrame two_columns)
                     fresh_tracker = (Returns id, self') /\
    current_lineage self' = Some lineage /\
    dataset_id lineage = id /\
    source_systems lineage = ["customer_db"] /\
    transformation_pipeline lineage = [first_step] /\
    dict_get "step" first_step = Some (VStr "extraction") /\
    dict_get "input_hash" first_step = Some (VStr "") /\
    dict_get "output_hash" first_step = Some (VStr two_columns_digest) /\
    dict_get "row_count" first_step
    = Some (VInt (Z.of_nat (List.length (rows two_columns)))) /\
    content_hash lineage = two_columns_digest /\
    calls (storage self')
    = (calls (storage fresh_tracker)
         ++ [CallInsert "data_lineage" (lineage_dict lineage)])%list.
Proof.
  refine (conj two_columns_hash (conj two_columns_metrics (conj inserts_return _))).
  exact (track_extraction_records_one_step "customer_db" "SELECT * FROM users" two_columns
           two_columns_digest fresh_tracker two_columns_hash two_columns_metrics
           inserts_return).
Defined.

Lemma extracted_lineage_valid_iff_clock_monotone_witness :
  _stable_hash (ODataFrame two_columns) = Returns two_columns_digest /\
  metrics_computable two_columns /\
  exists outcome self' lineage,
    track_extraction "customer_db" "SELECT * FROM users" (ODataFrame two_columns)
                     fresh_tracker = (outcome, self') /\
    current_lineage self' = Some lineage /\
    let e1 := snd (now (World.env (storage fresh_tracker))) in
    let started := fst (now e1) in
    let stamp := fst (now (snd (now e1))) in
    extraction_timestamp lineage = started /\
    last_timestamp (transformation_pipeline lineage) = Some stamp /\
    validate_lineage_chain lineage = Returns (started <=? stamp).
Proof.
  refine (conj two_columns_hash (conj two_columns_metrics _)).
  exact (extracted_lineage_valid_iff_clock_monotone "customer_db" "SELECT * FROM users"
           two_columns two_columns_digest fresh_tracker two_columns_hash
           two_columns_metrics).
Defined.

Lemma track_transformation_appends_one_step_witness :
  current_lineage tracking = Some tracked_lineage /\
  _stable_hash (ODataFrame two_columns) = Returns two_columns_digest /\
  _stable_hash (ODataFrame two_columns_filtered) = Returns two_columns_filtered_digest /\
  (forall table condition data (e : Demo.env),
      exists b e', update table condition data e = (Returns b, e')) /\
  exists self' updated new_step,
    track_transformation "drop_second_row" (ODataFrame two_columns)
                         (ODataFrame two_columns_filtered) "df.drop(1)" tracking
    = (Returns tt, self') /\
    current_lineage self' = Some updated /\
    transformation_pipeline updated
    = (transformation_pipeline tracked_lineage ++ [new_step])%list /\
    dataset_id updated = dataset_id tracked_lineage /\
    source_systems updated = source_systems tracked_lineage /\
    extraction_timestamp updated = extraction_timestamp tracked_lineage /\
    data_quality_metrics updated = data_quality_metrics tracked_lineage /\
    content_hash updated = two_columns_filtered_digest /\
    dict_get "step" new_step = Some (VStr "drop_second_row") /\
    dict_get "input_hash" new_step = Some (VStr two_columns_digest) /\
    dict_get "output_hash" new_step = Some (VStr two_columns_filtered_digest) /\
    dict_get "timestamp" new_step
    = Some (VDatetime (fst (now (World.env (storage tracking))))) /\
    dict_get "rows_removed" new_step
    = Some (VInt (Z.of_nat (List.length (rows two_columns))
                  - Z.of_nat (List.length (rows two_columns_filtered)))) /\
    calls (storage self')
    = (calls (storage tracking)
         ++ [CallUpdate "data_lineage"
               [("dataset_id", VStr (dataset_id tracked_lineage))]
               [("transformation_pipeline",
                 VList (map VDict (transformation_pipeline updated)));
                ("content_hash", VStr two_columns_filtered_digest)]])%list.
Proof.
  refine (conj eq_refl (conj two_columns_hash (conj two_columns_filtered_hash
            (conj updates_return _)))).
  exact (track_transformation_appends_one_step "drop_second_row" "df.drop(1)" two_columns
           two_columns_filtered two_columns_digest two_columns_filtered_digest
           tracked_lineage tracking eq_refl two_columns_hash two_columns_filtered_hash
           updates_return).
Defined.

(** The input is the frame that was extracted: the chain stays valid. *)
Lemma transformed_lineage_valid_iff_input_matches_witness :
  current_lineage tracking = Some tracked_lineage /\
  stamped (transformation_pipeline tracked_lineage) = true /\
  validate_lineage_chain tracked_lineage = Returns true /\
  last_timestamp (transformation_pipeline tracked_lineage) = Some 10 /\
  _stable_hash (ODataFrame two_columns) = Returns two_columns_digest /\
  _stable_hash (ODataFrame two_columns_filtered) = Returns two_columns_filtered_digest /\
  exists outcome self' updated,
    track_transformation "drop_second_row" (ODataFrame two_columns)
                         (ODataFrame two_columns_filtered) "df.drop(1)" tracking
    = (outcome, self') /\
    current_lineage self' = Some updated /\
    validate_lineage_chain updated
    = Returns ((10 <=? fst (now (World.env (storage tracking))))
               && String.eqb (content_hash tracked_lineage) two_columns_digest).
Proof.
  refine (conj eq_refl (conj eq_refl (conj eq_refl (conj eq_refl
            (conj two_columns_hash (conj two_columns_filtered_hash _)))))).
  exact (transformed_lineage_valid_iff_input_matches "drop_second_row" "df.drop(1)"
           two_columns two_columns_filtered two_columns_digest two_columns_filtered_digest
           tracked_lineage 10 tracking eq_refl eq_refl eq_refl eq_refl two_columns_hash
           two_columns_filtered_hash).
Defined.

(** The storage is down: the update raises, and the tracker holds a step
    the storage never took. *)
Lemma failed_transformation_is_unrecorded_or_unsaved_witness :
  let run :=
    track_transformation "drop_second_row" (ODataFrame two_columns)
                         (ODataFrame two_columns_filtered) "df.drop(1)"
                         tracking_during_outage in
  run = (Raises Outage.unavailable, snd run) /\
  ((current_lineage (snd run) = current_lineage tracking_during_outage /\
    calls (storage (snd run)) = calls (storage tracking_during_outage)) \/
   (exists lineage new_step new_hash,
       current_lineage tracking_during_outage = Some lineage /\
       current_lineage (snd run) = Some (extended lineage new_step new_hash) /\
       calls (storage (snd run))
       = (calls (storage tracking_during_outage)
            ++ [update_call (extended lineage new_step new_hash)])%list)).
Proof.
  cbv zeta.
  assert (Hrun : track_transformation "drop_second_row" (ODataFrame two_columns)
                   (ODataFrame two_columns_filtered) "df.drop(1)" tracking_during_outage
                 = (Raises Outage.unavailable,
                    snd (track_transformation "drop_second_row" (ODataFrame two_columns)
                           (ODataFrame two_columns_filtered) "df.drop(1)"
                           tracking_during_outage)))
    by (vm_compute; reflexivity).
  refine (conj Hrun _).
  exact (failed_transformation_is_unrecorded_or_unsaved "drop_second_row" "df.drop(1)"
           (ODataFrame two_columns) (ODataFrame two_columns_filtered)
           tracking_during_outage _ Outage.unavailable Hrun).
Defined.

End TrackerStepScenarios.

(** ** The storage backends *)

Module PostgresFacts.
Import Py World PostgresGovernanceStorage BackendProps.
Local Open Scope monad_scope.

Lemma unique_keys_NoDup (keys : list string) : unique_keys keys = true -> NoDup keys.
Proof.
  induction keys as [|k rest IH]; cbn [unique_keys]; intros Hu; [constructor|].
  apply andb_prop in Hu as [Hk Hrest]. constructor; [|auto].
  intros Hin. apply negb_true_iff in Hk.
  assert (existsb (String.eqb k) rest = true); [|congruence].
  apply existsb_exists. exists k. split; [exact Hin|apply String.eqb_refl].
Qed.

Lemma map_value_keys {A B : Type} (f : A -> B) (d : list (string * A)) :
  map fst (map (fun kv => (fst kv, f (snd kv))) d) = map fst d.
Proof. rewrite map_map. cbn [fst]. reflexivity. Qed.

Section Dates.
Context `{Builtins}.

(** On a dict with each key once, [result[key] = ...] key by key is a map
    over the items. *)
Lemma serialize_dates_map (d : dict) :
  unique_keys (map fst d) = true ->
  _serialize_dates d = map (fun kv => (fst kv, serialized (snd kv))) d.
Proof.
  intros Hu. unfold _serialize_dates. apply HashFacts.dict_of_pairs_unique.
  rewrite map_value_keys. now apply unique_keys_NoDup.
Qed.

Lemma serialized_dict (d : dict) : serialized (VDict d) = VDict (_serialize_dates d).
Proof. reflexivity. Qed.

Lemma serializable_serialized :
  forall v, well_keyed v = true ->
            GateProps.serializable (serialized v) = dates_within_reach v.
Proof.
  fix IH 1. intros [| | | | | |l|d] Hw; try reflexivity.
  - cbn [serialized GateProps.serializable dates_within_reach]. cbn [well_keyed] in Hw.
    induction l as [|item l IHl]; [reflexivity|].
    cbn [forallb] in Hw. apply andb_prop in Hw as [Hitem Hl].
    cbn [map forallb]. rewrite (IHl Hl). f_equal.
    pose proof (IH item Hitem) as IHitem.
    destruct item as [| | | | | |l'|d']; try reflexivity.
    exact IHitem.
  - rewrite serialized_dict. cbn [well_keyed] in Hw. apply andb_prop in Hw as [Hu Hvalues].
    rewrite (serialize_dates_map d Hu).
    cbn [GateProps.serializable dates_within_reach]. clear Hu.
    induction d as [|[k v] d IHd]; [reflexivity|].
    cbn [forallb snd] in Hvalues. apply andb_prop in Hvalues as [Hv Hd].
    cbn [map forallb fst snd]. rewrite (IHd Hd). f_equal. exact (IH v Hv).
Qed.

Lemma serialized_twice :
  forall v, well_keyed v = true -> serialized (serialized v) = serialized v.
Proof.
  fix IH 1. intros [| | | | | |l|d] Hw; try reflexivity.
  - cbn [serialized]. cbn [well_keyed] in Hw. f_equal. rewrite map_map.
    induction l as [|item l IHl]; [reflexivity|].
    cbn [forallb] in Hw. apply andb_prop in Hw as [Hitem Hl].
    cbn [map]. rewrite (IHl Hl). f_equal.
    pose proof (IH item Hitem) as IHitem.
    destruct item as [| | | | | |l'|d']; try reflexivity.
    exact IHitem.
  - rewrite !serialized_dict. f_equal.
    cbn [well_keyed] in Hw. apply andb_prop in Hw as [Hu Hvalues].
    rewrite (serialize_dates_map d Hu).
    rewrite serialize_dates_map by (now rewrite map_value_keys).
    rewrite map_map. cbn [fst snd]. clear Hu.
    induction d as [|[k v] d IHd]; [reflexivity|].
    cbn [forallb snd] in Hvalues. apply andb_prop in Hvalues as [Hv Hd].
    cbn [map fst snd]. rewrite (IHd Hd). f_equal. f_equal. exact (IH v Hv).
Qed.

Lemma serialized_date_free :
  forall v, well_keyed v = true -> GateProps.serializable v = true -> serialized v = v.
Proof.
  fix IH 1. intros [| | | | | |l|d] Hw Hs; try reflexivity; try discriminate.
  - cbn [serialized]. cbn [well_keyed] in Hw. cbn [GateProps.serializable] in Hs. f_equal.
    induction l as [|item l IHl]; [reflexivity|].
    cbn [forallb] in Hw, Hs. apply andb_prop in Hw as [Hitem Hl].
    apply andb_prop in Hs as [Hsi Hsl].
    cbn [map]. rewrite (IHl Hl Hsl). f_equal.
    pose proof (IH item Hitem Hsi) as IHitem.
    destruct item as [| | | | | |l'|d']; try reflexivity.
    exact IHitem.
  - rewrite serialized_dict. f_equal.
    cbn [well_keyed] in Hw. apply andb_prop in Hw as [Hu Hvalues].
    cbn [GateProps.serializable] in Hs.
    rewrite (serialize_dates_map d Hu). clear Hu.
    induction d as [|[k v] d IHd]; [reflexivity|].
    cbn [forallb snd] in Hvalues, Hs. apply andb_prop in Hvalues as [Hv Hd].
    apply andb_prop in Hs as [Hsv Hsd].
    cbn [map fst snd]. rewrite (IHd Hd Hsd). f_equal. f_equal. exact (IH v Hv Hsv).
Qed.

End Dates.

Section Quiet.
Context {D : Type} `{Psycopg2 D} `{Builtins}.

(** A computation that prints nothing and keeps the connection parameters. *)
Definition quiet {A : Type} (m : M (backend D) A) : Prop :=
  forall self, printed (snd (m self)) = printed self /\
               connection_params (snd (m self)) = connection_params self.

Lemma quiet_ret {A : Type} (a : A) : quiet (@ret (backend D) A a).
Proof. intros self. split; reflexivity. Qed.

Lemma quiet_lift {A : Type} (o : outcome A) : quiet (@lift (backend D) A o).
Proof. intros self. split; reflexivity. Qed.

Lemma quiet_database {A : Type} (m : D -> outcome A * D) : quiet (on_database m).
Proof.
  intros self. unfold on_database. destruct (m (database self)). split; reflexivity.
Qed.

Lemma quiet_connection : quiet _get_connection.
Proof. intros self. unfold _get_connection. apply quiet_database. Qed.

Lemma quiet_bind {A B : Type} (m : M (backend D) A) (k : A -> M (backend D) B) :
  quiet m -> (forall a, quiet (k a)) -> quiet (bind m k).
Proof.
  intros Hm Hk self. unfold bind. specialize (Hm self).
  destruct (m self) as [[a|e] s1]; cbn [snd] in *; [|exact Hm].
  destruct (Hk a s1) as [Hp Hc]. destruct Hm as [Hp1 Hc1]. split; congruence.
Qed.

(** [try: body] with every exception printed and answered by [fallback]. *)
Definition guarded {A : Type} (body : M (backend D) A) (message : exn -> string)
           (fallback : A) : M (backend D) A :=
  r <- attempt body ;;
  match r with
  | Returns a => ret a
  | Raises e => print (message e) ;;; ret fallback
  end.

Lemma guarded_run {A : Type} (body : M (backend D) A) (message : exn -> string)
      (fallback : A) (self : backend D) :
  quiet body ->
  match body self with
  | (Returns a, s1) => guarded body message fallback self = (Returns a, s1)
  | (Raises e, s1) =>
      guarded body message fallback self
      = (Returns fallback,
         {| connection_params := connection_params self;
            database := database s1;
            printed := printed self ++ [message e] |})
  end.
Proof.
  intros Hq. unfold guarded, bind, attempt. specialize (Hq self).
  destruct (body self) as [[a|e] s1]; cbn [snd] in Hq; [reflexivity|].
  destruct Hq as [Hp Hc]. unfold print, ret. now rewrite Hp, Hc.
Qed.

Ltac quiet :=
  repeat first
    [ apply quiet_ret | apply quiet_lift | apply quiet_database | apply quiet_connection
    | (apply quiet_bind; [|intros ?]) ].

(** A computation whose only return value is [v]. *)
Definition answers {A : Type} (v : A) (m : M (backend D) A) : Prop :=
  forall self a s1, m self = (Returns a, s1) -> a = v.

Lemma answers_ret {A : Type} (v : A) : answers v (@ret (backend D) A v).
Proof. intros self a s1 [= <- _]. reflexivity. Qed.

Lemma answers_bind {A B : Type} (v : B) (m : M (backend D) A) (k : A -> M (backend D) B) :
  (forall a, answers v (k a)) -> answers v (bind m k).
Proof.
  intros Hk self b s1. unfold bind. destruct (m self) as [[a|e] s]; [|discriminate].
  apply Hk.
Qed.

Ltac answers := repeat first [ apply answers_ret | (apply answers_bind; intros ?) ].

Lemma insert_guarded (table : string) (data : dict) :
  exists body, quiet body /\ answers true body /\
    insert table data
    = guarded body (fun e => "Error inserting into " ++ table ++ ": " ++ exn_str e) false.
Proof. eexists. split; [|split; [|reflexivity]]; [quiet|answers]. Qed.

Lemma update_guarded (table : string) (condition data : dict) :
  exists body, quiet body /\ answers true body /\
    update table condition data
    = guarded body (fun e => "Error updating " ++ table ++ ": " ++ exn_str e) false.
Proof. eexists. split; [|split; [|reflexivity]]; [quiet|answers]. Qed.

Lemma query_guarded (sql : string) (params : list pyval) :
  exists body, quiet body /\
    query sql params
    = guarded body (fun e => "Error executing query: " ++ exn_str e) [].
Proof. eexists. split; [|reflexivity]. quiet. Qed.

Lemma bulk_insert_guarded (table : string) (first : dict) (others : list dict) :
  exists body, quiet body /\ answers true body /\
    bulk_insert table (first :: others)
    = guarded body (fun e => "Error bulk inserting into " ++ table ++ ": " ++ exn_str e)
              false.
Proof. eexists. split; [|split; [|reflexivity]]; [quiet|answers]. Qed.

(** What a guarded method that answers [true] does. *)
Lemma guarded_bool (body : M (backend D) bool) (message : exn -> string)
      (self : backend D) :
  quiet body -> answers true body ->
  exists b self',
    guarded body message false self = (Returns b, self') /\
    (b = true -> printed self' = printed self) /\
    (b = false -> exists e, printed self' = (printed self ++ [message e])%list) /\
    connection_params self' = connection_params self.
Proof.
  intros Hq Ha. pose proof (guarded_run body message false self Hq) as Hrun.
  pose proof (Hq self) as [Hp Hc]. pose proof (Ha self) as Hans.
  destruct (body self) as [[a|e] s1]; cbn [snd] in *.
  - rewrite (Hans a s1 eq_refl) in *. exists true, s1. split; [exact Hrun|].
    split; [auto|]. split; [discriminate|exact Hc].
  - eexists. eexists. split; [exact Hrun|]. cbn [printed connection_params].
    split; [discriminate|]. split; [eauto|reflexivity].
Qed.

Lemma getitems_length (record : dict) (columns : list string) (values : list pyval) :
  getitems record columns = Returns values -> List.length values = List.length columns.
Proof.
  revert values. induction columns as [|col rest IH]; intros values; cbn [getitems].
  - now intros [= <-].
  - destruct (dict_getitem record col) as [v|e]; [|discriminate]. cbn [obind].
    destruct (getitems record rest) as [vs|e]; [|discriminate]. cbn [obind].
    intros [= <-]. cbn [List.length]. now rewrite (IH vs eq_refl).
Qed.

Lemma getitems_key_error (record : dict) (columns : list string) (e : exn) :
  getitems record columns = Raises e ->
  exists col, In col columns /\ dict_get col record = None /\
              e = Exn KeyError ("'" ++ col ++ "'").
Proof.
  induction columns as [|col rest IH]; cbn [getitems]; [discriminate|].
  unfold dict_getitem at 1. destruct (dict_get col record) as [v|] eqn:Hget.
  - cbn [obind]. destruct (getitems record rest) as [vs|e'] eqn:Hrest; [discriminate|].
    cbn [obind]. intros [= <-]. destruct (IH eq_refl) as (c & Hin & Hc & He).
    exists c. split; [now right|]. now split.
  - cbn [obind]. intros [= <-]. exists col. split; [now left|]. now split.
Qed.

Lemma value_tuples_shape (columns : list string) (records : list dict)
      (tuples : list (list parameter)) :
  value_tuples columns records = Returns tuples ->
  List.length tuples = List.length records /\
  Forall (fun tuple => List.length tuple = List.length columns) tuples.
Proof.
  revert tuples. induction records as [|record rest IH]; intros tuples; cbn [value_tuples].
  - intros [= <-]. split; [reflexivity|constructor].
  - destruct (getitems record columns) as [values|e] eqn:Hvalues; [|discriminate].
    cbn [obind]. destruct (value_tuples columns rest) as [ts|e]; [|discriminate].
    cbn [obind]. intros [= <-]. destruct (IH ts eq_refl) as [Hlen Hall]. split.
    + cbn [List.length]. now rewrite Hlen.
    + constructor; [|exact Hall]. rewrite length_map.
      exact (getitems_length record columns values Hvalues).
Qed.

Lemma value_tuples_key_error (columns : list string) (records : list dict) (e : exn) :
  value_tuples columns records = Raises e ->
  exists record col, In record records /\ In col columns /\
                     dict_get col record = None /\ e = Exn KeyError ("'" ++ col ++ "'").
Proof.
  induction records as [|record rest IH]; cbn [value_tuples]; [discriminate|].
  destruct (getitems record columns) as [values|e'] eqn:Hvalues.
  - cbn [obind]. destruct (value_tuples columns rest) as [ts|e'']; [discriminate|].
    cbn [obind]. intros [= <-]. destruct (IH eq_refl) as (r & c & Hr & Hc & Hget & He).
    exists r, c. split; [now right|]. now repeat split.
  - cbn [obind]. intros [= <-].
    destruct (getitems_key_error _ _ _ Hvalues) as (c & Hc & Hget & He).
    exists record, c. split; [now left|]. now repeat split.
Qed.

(** [bulk_insert] when a value tuple cannot be built, the connection and
    the cursor having been obtained. *)
Lemma bulk_insert_key_error (table : string) (first : dict) (others : list dict)
      (self : backend D) (d1 d2 : D) (e : exn) :
  connect (connection_params self) (database self) = (Returns tt, d1) ->
  cursor d1 = (Returns tt, d2) ->
  value_tuples (map fst (_serialize_dates first))
               (map _serialize_dates (first :: others)) = Raises e ->
  bulk_insert table (first :: others) self
  = (Returns false,
     {| connection_params := connection_params self;
        database := d2;
        printed := printed self
                     ++ ["Error bulk inserting into " ++ table ++ ": " ++ exn_str e] |}).
Proof.
  intros Hconnect Hcursor Htuples. unfold bulk_insert.
  cbv beta iota delta [bind attempt lift ret print on_database _get_connection
                         connection_params database printed].
  destruct self as [params db out]. cbn [connection_params database printed] in *.
  rewrite Hconnect, Hcursor.
  cbn [map] in Htuples |- *. rewrite Htuples. reflexivity.
Qed.

End Quiet.

End PostgresFacts.

Section DateClaims.
Import Py World PostgresGovernanceStorage BackendProps.
Context `{Builtins}.

(** [_serialize_dates] turns into text the datetimes stored under a key of
    the dict, of a dict nested in it, or of a dict listed directly in one
    of its lists, and no other: on a dict with each key once at every
    depth, the result is free of datetimes exactly when the dict holds none
    directly in a list or below a list in a list. *)
Theorem serialize_dates_reach (data : dict) :
  well_keyed (VDict data) = true ->
  GateProps.serializable (VDict (_serialize_dates data))
  = forallb (fun kv => dates_within_reach (snd kv)) data.
Proof.
  intros Hw. rewrite <- PostgresFacts.serialized_dict.
  now rewrite PostgresFacts.serializable_serialized.
Qed.

(** On a dict with each key once at every depth, [_serialize_dates] keeps
    the keys in their order, changes nothing when applied a second time,
    and changes nothing at all when the dict holds no datetime. *)
Theorem serialize_dates_stable (data : dict) :
  well_keyed (VDict data) = true ->
  map fst (_serialize_dates data) = map fst data /\
  _serialize_dates (_serialize_dates data) = _serialize_dates data /\
  (GateProps.serializable (VDict data) = true -> _serialize_dates data = data).
Proof.
  intros Hw. split; [|split].
  - cbn [well_keyed] in Hw. apply andb_prop in Hw as [Hu _].
    rewrite (PostgresFacts.serialize_dates_map data Hu).
    apply PostgresFacts.map_value_keys.
  - pose proof (PostgresFacts.serialized_twice (VDict data) Hw) as Htwice.
    rewrite !PostgresFacts.serialized_dict in Htwice. now injection Htwice.
  - intros Hs. pose proof (PostgresFacts.serialized_date_free (VDict data) Hw Hs) as Hid.
    rewrite PostgresFacts.serialized_dict in Hid. now injection Hid.
Qed.

End DateClaims.

Section PostgresClaims.
Import Py World PostgresGovernanceStorage BackendProps.
Context {D : Type} `{Psycopg2 D} `{Builtins}.

(** No method of the PostgreSQL backend raises, whatever psycopg2 does:
    [insert], [update] and [bulk_insert] return [True] having printed
    nothing, or [False] having printed one line that names the table and
    the error; [query] returns a list. The connection parameters are kept. *)
Theorem postgres_methods_never_raise (table sql : string) (data condition : dict)
        (params : list pyval) (records : list dict) (self : backend D) :
  (exists b self',
      insert table data self = (Returns b, self') /\
      (b = true -> printed self' = printed self) /\
      (b = false ->
       exists e, printed self'
                 = (printed self
                      ++ [("Error inserting into " ++ table ++ ": " ++ exn_str e)%string])%list) /\
      connection_params self' = connection_params self) /\
  (exists b self',
      update table condition data self = (Returns b, self') /\
      (b = true -> printed self' = printed self) /\
      (b = false ->
       exists e, printed self'
                 = (printed self ++ [("Error updating " ++ table ++ ": " ++ exn_str e)%string])%list) /\
      connection_params self' = connection_params self) /\
  (exists rows self', query sql params self = (Returns rows, self')) /\
  (exists b self',
      bulk_insert table records self = (Returns b, self') /\
      (b = true -> printed self' = printed self) /\
      (b = false ->
       exists e, printed self'
                 = (printed self
                      ++ [("Error bulk inserting into " ++ table ++ ": " ++ exn_str e)%string])%list) /\
      connection_params self' = connection_params self).
Proof.
  split; [|split; [|split]].
  - destruct (PostgresFacts.insert_guarded table data) as (body & Hq & Ha & ->).
    exact (PostgresFacts.guarded_bool body _ self Hq Ha).
  - destruct (PostgresFacts.update_guarded table condition data) as (body & Hq & Ha & ->).
    exact (PostgresFacts.guarded_bool body _ self Hq Ha).
  - destruct (PostgresFacts.query_guarded sql params) as (body & Hq & ->).
    pose proof (PostgresFacts.guarded_run body
                  (fun e => "Error executing query: " ++ exn_str e) [] self Hq) as Hrun.
    destruct (body self) as [[rows|e] s1]; eauto.
  - destruct records as [|first others].
    + exists true, self. split; [reflexivity|]. split; [auto|]. split; [discriminate|].
      reflexivity.
    + destruct (PostgresFacts.bulk_insert_guarded table first others)
        as (body & Hq & Ha & ->).
      exact (PostgresFacts.guarded_bool body _ self Hq Ha).
Qed.

(** [bulk_insert] of no record returns [True] without touching the
    database. Otherwise the columns are those of the first record: when
    every record has them, each value tuple has exactly that many values,
    whatever other keys the record holds; when a record lacks one, the
    [KeyError] makes the call return [False] once the connection and the
    cursor are obtained, with nothing executed, committed or closed. *)
Theorem bulk_insert_follows_first_record (table : string) (first : dict)
        (others : list dict) (self : backend D) :
  bulk_insert table [] self = (Returns true, self) /\
  match value_tuples (map fst (_serialize_dates first))
                     (map _serialize_dates (first :: others)) with
  | Returns tuples =>
      List.length tuples = List.length (first :: others) /\
      Forall (fun tuple => List.length tuple = List.length (_serialize_dates first)) tuples
  | Raises e =>
      (exists record column,
          In record (map _serialize_dates (first :: others)) /\
          In column (map fst (_serialize_dates first)) /\
          dict_get column record = None /\
          e = Exn KeyError ("'" ++ column ++ "'")) /\
      match connect (connection_params self) (database self) with
      | (Returns _, d1) =>
          match cursor d1 with
          | (Returns _, d2) =>
              bulk_insert table (first :: others) self
              = (Returns false,
                 {| connection_params := connection_params self;
                    database := d2;
                    printed :=
                      (printed self
                         ++ [("Error bulk inserting into " ++ table ++ ": "
                                ++ exn_str e)%string])%list |})
          | (Raises _, _) => True
          end
      | (Raises _, _) => True
      end
  end.
Proof.
  split; [reflexivity|].
  destruct (value_tuples _ _) as [tuples|e] eqn:Htuples.
  - destruct (PostgresFacts.value_tuples_shape _ _ _ Htuples) as [Hlen Hall].
    rewrite length_map in Hlen. split; [exact Hlen|].
    eapply Forall_impl; [|exact Hall]. intros tuple Ht. now rewrite length_map in Ht.
  - split; [exact (PostgresFacts.value_tuples_key_error _ _ _ Htuples)|].
    destruct (connect _ _) as [[[]|x] d1] eqn:Hconnect; [|exact I].
    destruct (cursor d1) as [[[]|x] d2] eqn:Hcursor; [|exact I].
    exact (PostgresFacts.bulk_insert_key_error table first others self d1 d2 e
             Hconnect Hcursor Htuples).
Qed.

End PostgresClaims.

Section PostgresCompositions.
Import Py World Lineage Gate PostgresGovernanceStorage BackendProps.
Context {D : Type} `{Psycopg2 D} `{Builtins}
        `{ModelRegistry (backend D)} `{Clock (backend D)}.

(** Behind the PostgreSQL backend the gate always answers: whatever
    psycopg2, the registry and the clock do, [validate_deployment] returns
    its verdict and report. *)
Theorem gate_over_postgres_always_answers (cfg : option dict) (model_id : string)
        (risk_level : RiskLevel) (w : world (backend D)) :
  exists can_deploy report w',
    validate_deployment (ComplianceGate_init cfg) model_id risk_level w
    = (Returns (can_deploy, report), w').
Proof.
  destruct (GateFacts.validate_deployment_run (ComplianceGate_init cfg) model_id
              risk_level w) as (ev & w1 & js & Hev & Hfst & Hrest).
  cbv zeta in Hrest. destruct Hrest as [Hjs Hrun].
  match type of Hrun with
  | _ = match World.insert ?t ?r ?e with _ => _ end =>
      destruct (PostgresFacts.insert_guarded t r) as (body & Hq & Ha & Hins);
      destruct (PostgresFacts.guarded_bool body
                  (fun x => "Error inserting into " ++ t ++ ": " ++ exn_str x) e Hq Ha)
        as (b & e4 & Hb & _);
      change (World.insert t r e) with (insert t r e) in Hrun;
      rewrite Hins, Hb in Hrun
  end.
  eauto.
Qed.

(** Behind the PostgreSQL backend a database that cannot be reached reads
    as a missing assessment: [query] prints the error and returns no row,
    so [_verify_risk_assessment] answers "No risk assessment found". *)
Theorem outage_reads_as_missing_assessment (self : ComplianceGate (backend D))
        (model_id : string) (risk_level : RiskLevel) (w : world (backend D))
        (e : exn) (d1 : D) :
  connect (connection_params (env w)) (database (env w)) = (Raises e, d1) ->
  _verify_risk_assessment self model_id risk_level w
  = (Returns (false, "No risk assessment found"),
     World {| connection_params := connection_params (env w);
              database := d1;
              printed := (printed (env w)
                            ++ [("Error executing query: " ++ exn_str e)%string])%list |}
           (calls w ++ [CallQuery RuleProps.risk_assessment_sql [VStr model_id]])).
Proof.
  intros Hconnect. unfold _verify_risk_assessment.
  unfold bind at 1. unfold attempt at 1. unfold storage_query.
  change (World.query ?sql ?params ?e) with (query sql params e).
  unfold query.
  cbv beta iota delta [bind attempt lift ret print on_database _get_connection].
  rewrite Hconnect. reflexivity.
Qed.

(** Behind the PostgreSQL backend the tracker does not notice a database
    that cannot be reached: [track_transformation] on two frames returns,
    its lineage holds the new step, and all the backend did was print the
    error. *)
Theorem tracker_does_not_notice_outage (step_name transformation_code : string)
        (before after : DataFrame) (input_hash output_hash : string)
        (lineage : DataLineage) (self : LineageTracker (backend D)) (e : exn) (d1 : D) :
  current_lineage self = Some lineage ->
  _stable_hash (ODataFrame before) = Returns input_hash ->
  _stable_hash (ODataFrame after) = Returns output_hash ->
  let e1 := snd (now (env (storage self))) in
  connect (connection_params e1) (database e1) = (Raises e, d1) ->
  exists self' new_step,
    track_transformation step_name (ODataFrame before) (ODataFrame after)
                         transformation_code self = (Returns tt, self') /\
    current_lineage self'
    = Some (TrackingProps.extended lineage new_step output_hash) /\
    env (storage self')
    = {| connection_params := connection_params e1;
         database := d1;
         printed := (printed e1
                       ++ [("Error updating data_lineage: " ++ exn_str e)%string])%list |}.
Proof.
  intros Hcur Hin Hout e1 Hconnect.
  pose proof (TrackingFacts.transformation_run step_name transformation_code before after
                input_hash output_hash lineage self Hcur Hin Hout) as Hrun.
  cbv zeta in Hrun. fold e1 in Hrun.
  match type of Hrun with
  | _ = match World.update ?t ?c ?d ?at_ with _ => _ end =>
      assert (Hupdate : World.update t c d at_
                        = (Returns false,
                           {| connection_params := connection_params e1;
                              database := d1;
                              printed := (printed e1
                                            ++ [("Error updating data_lineage: "
                                                   ++ exn_str e)%string])%list |}))
  end.
  { change (World.update ?t ?c ?d ?e) with (update t c d e). unfold update.
    cbv beta iota delta [bind attempt lift ret print on_database _get_connection].
    rewrite Hconnect. reflexivity. }
  rewrite Hupdate in Hrun. do 2 eexists. split; [exact Hrun|]. split; reflexivity.
Qed.

End PostgresCompositions.

Module BackendScenarios.
Import Py World Lineage Gate PostgresGovernanceStorage BackendProps.
#[local] Existing Instance Demo.demo_builtins.

(** The datetime listed directly in the list is the one left. *)
Lemma serialize_dates_reach_witness :
  well_keyed (VDict dated_record) = true /\
  _serialize_dates dated_record
  = [("created_at", VStr "5");
     ("steps", VList [VDict [("timestamp", VStr "7")]; VDatetime 9])] /\
  GateProps.serializable (VDict (_serialize_dates dated_record))
  = forallb (fun kv => dates_within_reach (snd kv)) dated_record.
Proof.
  refine (conj eq_refl (conj eq_refl _)).
  exact (serialize_dates_reach dated_record eq_refl).
Defined.

Lemma serialize_dates_stable_witness :
  well_keyed (VDict plain_record) = true /\
  map fst (_serialize_dates plain_record) = map fst plain_record /\
  _serialize_dates (_serialize_dates plain_record) = _serialize_dates plain_record /\
  (GateProps.serializable (VDict plain_record) = true ->
   _serialize_dates plain_record = plain_record).
Proof.
  refine (conj eq_refl _).
  exact (serialize_dates_stable plain_record eq_refl).
Defined.

Lemma outage_reads_as_missing_assessment_witness :
  connect (connection_params (env (World offline []))) (database (env (World offline [])))
  = (Raises unreachable, database offline) /\
  _verify_risk_assessment (ComplianceGate_init None) "model_v1" HIGH (World offline [])
  = (Returns (false, "No risk assessment found"),
     World {| connection_params := connection_params offline;
              database := database offline;
              printed := ["Error executing query: could not connect to server"] |}
           [CallQuery RuleProps.risk_assessment_sql [VStr "model_v1"]]).
Proof.
  refine (conj eq_refl _).
  exact (outage_reads_as_missing_assessment (ComplianceGate_init None) "model_v1" HIGH
           (World offline []) unreachable (database offline) eq_refl).
Defined.

Lemma tracker_does_not_notice_outage_witness :
  current_lineage offline_tracker = Some TrackingProps.tracked_lineage /\
  _stable_hash (ODataFrame TrackingProps.two_columns)
  = Returns TrackingProps.two_columns_digest /\
  _stable_hash (ODataFrame TrackingProps.two_columns_filtered)
  = Returns TrackingProps.two_columns_filtered_digest /\
  connect (connection_params offline) (database offline)
  = (Raises unreachable, database offline) /\
  exists self' new_step,
    track_transformation "drop_second_row" (ODataFrame TrackingProps.two_columns)
                         (ODataFrame TrackingProps.two_columns_filtered) "df.drop(1)"
                         offline_tracker = (Returns tt, self') /\
    current_lineage self'
    = Some (TrackingProps.extended TrackingProps.tracked_lineage new_step
                                   TrackingProps.two_columns_filtered_digest) /\
    env (storage self')
    = {| connection_params := connection_params offline;
         database := database offline;
         printed := ["Error updating data_lineage: could not connect to server"] |}.
Proof.
  refine (conj eq_refl (conj TrackerStepScenarios.two_columns_hash
            (conj TrackerStepScenarios.two_columns_filtered_hash (conj eq_refl _)))).
  exact (tracker_does_not_notice_outage "drop_second_row" "df.drop(1)"
           TrackingProps.two_columns TrackingProps.two_columns_filtered
           TrackingProps.two_columns_digest TrackingProps.two_columns_filtered_digest
           TrackingProps.tracked_lineage offline_tracker unreachable (database offline)
           eq_refl TrackerStepScenarios.two_columns_hash
           TrackerStepScenarios.two_columns_filtered_hash eq_refl).
Defined.

End BackendScenarios.

Section MongoClaims.
Import Py World MongoGovernanceStorage.
Context {D : Type} `{PyMongo D} `{Builtins}.

(** The write methods of the MongoDB backend never raise: each hands its
    arguments to pymongo once ([update] as a [$set]) and returns [True], or,
    when pymongo raises, prints one line naming the collection and the
    error and returns [False]. *)
Theorem mongo_writes_never_raise (table : string) (data condition : dict)
        (records : list dict) (self : backend D) :
  insert table data self
  = match insert_one table data (database self) with
    | (Returns _, d1) => (Returns true, {| database := d1; printed := printed self |})
    | (Raises e, d1) =>
        (Returns false,
         {| database := d1;
            printed := (printed self
                          ++ [("Error inserting into " ++ table ++ ": "
                                 ++ exn_str e)%string])%list |})
    end /\
  update table condition data self
  = match update_many table condition [("$set", VDict data)] (database self) with
    | (Returns _, d1) => (Returns true, {| database := d1; printed := printed self |})
    | (Raises e, d1) =>
        (Returns false,
         {| database := d1;
            printed := (printed self
                          ++ [("Error updating " ++ table ++ ": " ++ exn_str e)%string])%list |})
    end /\
  bulk_insert table records self
  = match insert_many table records (database self) with
    | (Returns _, d1) => (Returns true, {| database := d1; printed := printed self |})
    | (Raises e, d1) =>
        (Returns false,
         {| database := d1;
            printed := (printed self
                          ++ [("Error bulk inserting into " ++ table ++ ": "
                                 ++ exn_str e)%string])%list |})
    end.
Proof.
  split; [|split].
  - unfold insert. cbv beta iota delta [bind attempt ret print on_database].
    destruct (insert_one table data (database self)) as [[[]|e] d1]; reflexivity.
  - unfold update. cbv beta iota delta [bind attempt ret print on_database].
    destruct (update_many table condition _ (database self)) as [[[]|e] d1]; reflexivity.
  - unfold bulk_insert. cbv beta iota delta [bind attempt ret print on_database].
    destruct (insert_many table records (database self)) as [[[]|e] d1]; reflexivity.
Qed.

(** [query] of the MongoDB backend never raises. It reads its first
    parameter as the filter (an empty dict when there is none) and the
    second as the projection; of each document found it replaces [_id] by
    its [str] and leaves every other field as it is; when pymongo raises
    it prints one line and returns no document. *)
Theorem mongo_query_stringifies_ids (sql : string) (params : list pyval)
        (self : backend D) :
  let filter := match params with q :: _ => q | [] => VDict [] end in
  let projection := match params with _ :: p :: _ => p | _ => VNone end in
  match find sql filter projection (database self) with
  | (Returns found, d1) =>
      exists rows,
        query sql params self
        = (Returns rows, {| database := d1; printed := printed self |}) /\
        Forall2 (fun doc row =>
                   map fst row = map fst doc /\
                   (forall key, key <> "_id" -> dict_get key row = dict_get key doc) /\
                   dict_get "_id" row
                   = option_map (fun id => VStr (str_of id)) (dict_get "_id" doc))
                found rows
  | (Raises e, d1) =>
      query sql params self
      = (Returns [],
         {| database := d1;
            printed := (printed self
                          ++ [("Error querying " ++ sql ++ ": " ++ exn_str e)%string])%list |})
  end.
Proof.
  cbv zeta. unfold query. cbv beta iota delta [bind attempt ret print on_database].
  destruct (find sql _ _ (database self)) as [[found|e] d1]; [|reflexivity].
  eexists. split; [reflexivity|].
  induction found as [|doc found IH]; cbn [map]; constructor; [|exact IH].
  unfold stringify_id. destruct (dict_get "_id" doc) as [id|] eqn:Hid.
  - split; [|split].
    + clear IH. induction doc as [|[k v] doc IHd]; [discriminate|].
      cbn [dict_get] in Hid. cbn [dict_set map fst].
      destruct (String.eqb "_id" k) eqn:Hk; [reflexivity|].
      cbn [map fst]. f_equal. now apply IHd.
    + intros key Hkey. apply LineageFacts.dict_get_set_other. congruence.
    + cbn [option_map]. apply LineageFacts.dict_get_set_same.
  - split; [reflexivity|]. split; [reflexivity|]. now rewrite Hid.
Qed.

End MongoClaims.

(** ** Deployment behind the gate *)

Module DeployFacts.
Import Py World Gate GateProps Deploy DeployProps.
Local Open Scope monad_scope.

Lemma RiskLevel_round_trip `{Reprs} (risk_level : RiskLevel) :
  RiskLevel_of (VStr (RiskLevel_value risk_level)) = Returns risk_level.
Proof. destruct risk_level; reflexivity. Qed.

Section Runs.
Context {E : Type} `{GovernanceStorageBackend E} `{Clock E} `{Builtins} `{Reprs}.

Lemma print_failures_results {R : ModelRegistry E}
      (results : list (ComplianceCheck E * outcome (bool * string))) :
  forall c : console E,
    print_failures (map VDict (map result_of results)) c
    = (Returns tt,
       Console (world_of c) (stdout c ++ map failure_line (map result_of results))).
Proof.
  induction results as [|cr results IH]; intros c.
  - cbn [map print_failures]. unfold ret. rewrite app_nil_r. now destruct c.
  - cbn [map print_failures].
    assert (Hname : py_getitem (VDict (result_of cr)) "check_name"
                    = Returns (dict_get_or (result_of cr) "check_name" VNone))
      by (destruct cr as [check [[passed message]|e]]; reflexivity).
    assert (Hmessage : py_getitem (VDict (result_of cr)) "message"
                       = Returns (dict_get_or (result_of cr) "message" VNone))
      by (destruct cr as [check [[passed message]|e]]; reflexivity).
    rewrite Hname, Hmessage.
    unfold bind at 1. unfold lift at 1. unfold bind at 1. unfold lift at 1.
    unfold bind at 1. unfold print at 1.
    fold (failure_line (result_of cr)).
    rewrite IH. cbn [world_of stdout]. now rewrite <- app_assoc.
Qed.

Ltac step_print := unfold bind at 1; unfold print at 1; cbn [world_of stdout].
Ltac step_lift := unfold bind at 1; unfold lift at 1.

(** [deploy_model_with_gate] once the registry has named a risk level and
    with a storage whose insert returns. *)
Lemma deploy_run {gate_registry : ModelRegistry E} (model_registry : ModelRegistry E)
      (cfg : option dict) (model_id environment : string) (c : console E)
      (metadata : dict) (e1 : E) (risk_level : RiskLevel) :
  @get_compliance_report E model_registry model_id (env (world_of c))
  = (Returns metadata, e1) ->
  dict_get "risk_level" metadata = Some (VStr (RiskLevel_value risk_level)) ->
  (forall table record e, exists b e', insert table record e = (Returns b, e')) ->
  let w1 := World e1 (calls (world_of c) ++ [CallRegistry model_id]) in
  exists ev report w2,
    let passed := map result_of (filter rule_passed ev) in
    let warned := map result_of (filter rule_failed_warning ev) in
    let failed := map result_of (filter rule_failed_blocking ev) in
    map fst ev = applicable (ComplianceGate_init cfg) risk_level /\
    validate_deployment (ComplianceGate_init cfg) model_id risk_level w1
    = (Returns (Nat.eqb (List.length failed) 0, report), w2) /\
    dict_get "passed" report = Some (VList (map VDict passed)) /\
    dict_get "warnings" report = Some (VList (map VDict warned)) /\
    dict_get "failures" report = Some (VList (map VDict failed)) /\
    deploy_model_with_gate model_id environment (ComplianceGate_init cfg) model_registry c
    = (if Nat.eqb (List.length failed) 0 then Returns tt
       else Raises (DeploymentBlockedException
                      ("Model failed " ++ str_int (Z.of_nat (List.length failed))
                         ++ " compliance checks")),
       Console w2
         (stdout c
            ++ summary_lines model_id environment risk_level
                 (List.length passed) (List.length warned) (List.length failed)
            ++ (if Nat.eqb (List.length failed) 0 then allowed_lines environment
                else blocked_lines failed))%list).
Proof.
  intros Hreg Hlevel Hins w1.
  destruct (GateFacts.validate_deployment_run (ComplianceGate_init cfg) model_id
              risk_level w1) as (ev & wv & js & Hev & Hfst & Hrest).
  cbv zeta in Hrest. destruct Hrest as [Hjs Hrun].
  match type of Hrun with
  | _ = match insert ?t ?r ?e with _ => _ end =>
      destruct (Hins t r e) as (b & e4 & Hb); rewrite Hb in Hrun
  end.
  rewrite <- (length_map result_of (filter rule_failed_blocking ev)) in Hrun.
  do 3 eexists. cbv zeta.
  split; [exact Hfst|]. split; [exact Hrun|].
  split; [reflexivity|]. split; [reflexivity|]. split; [reflexivity|].
  unfold deploy_model_with_gate.
  step_print.
  unfold bind at 1. unfold on_world at 1. cbn [world_of stdout].
  unfold registry_get_compliance_report. rewrite Hreg.
  step_lift. unfold dict_getitem at 1. rewrite Hlevel.
  step_lift. rewrite RiskLevel_round_trip.
  step_print. step_print.
  unfold bind at 1. unfold on_world at 1. cbn [world_of stdout].
  fold w1. rewrite Hrun. cbn [fst snd].
  step_print.
  match goal with
  | |- context [dict_getitem ?r "passed"] =>
      replace (dict_getitem r "passed")
        with (Returns (VList (map VDict (map result_of (filter rule_passed ev)))))
        by reflexivity;
      replace (dict_getitem r "warnings")
        with (Returns (VList (map VDict (map result_of (filter rule_failed_warning ev)))))
        by reflexivity;
      replace (dict_getitem r "failures")
        with (Returns (VList (map VDict (map result_of (filter rule_failed_blocking ev)))))
        by reflexivity
  end.
  step_lift. step_lift. cbn [py_len]. step_print.
  step_lift. step_lift. cbn [py_len]. step_print.
  step_lift. step_lift. cbn [py_len]. step_print.
  rewrite !(length_map VDict).
  destruct (Nat.eqb (List.length (map result_of (filter rule_failed_blocking ev))) 0);
    cbn [negb].
  - step_print. unfold print. cbn [world_of stdout]. unfold summary_lines, allowed_lines.
    rewrite <- !app_assoc. reflexivity.
  - step_print. step_lift. step_lift. cbn [py_iter].
    unfold bind at 1. rewrite print_failures_results. cbn [world_of stdout].
    step_lift. step_lift. cbn [py_len]. rewrite !(length_map VDict).
    unfold raise, summary_lines, blocked_lines. rewrite <- !app_assoc. reflexivity.
Qed.

(** No check applies to [UNACCEPTABLE]. *)
Lemma unacceptable_run {gate_registry : ModelRegistry E} (cfg : option dict)
      (model_id : string) (w : world E) :
  (forall table record e, exists b e', insert table record e = (Returns b, e')) ->
  exists report entry w',
    validate_deployment (ComplianceGate_init cfg) model_id UNACCEPTABLE w
    = (Returns (true, report), w') /\
    calls w' = (calls w ++ [CallInsert "audit_log" entry])%list.
Proof.
  intros Hins.
  destruct (GateFacts.validate_deployment_run (ComplianceGate_init cfg) model_id
              UNACCEPTABLE w) as (ev & w1 & js & Hev & Hfst & Hrest).
  cbv zeta in Hrest. destruct Hrest as [Hjs Hrun].
  change (applicable (ComplianceGate_init cfg) UNACCEPTABLE)
    with (@nil (ComplianceCheck E)) in *.
  apply map_eq_nil in Hfst. subst ev.
  cbn [evaluate] in Hev. unfold ret in Hev. injection Hev as <-.
  match type of Hrun with
  | _ = match insert ?t ?r ?e with _ => _ end =>
      destruct (Hins t r e) as (b & e4 & Hb); rewrite Hb in Hrun
  end.
  do 3 eexists. split; [exact Hrun|]. reflexivity.
Qed.

End Runs.

End DeployFacts.


Section DeployClaims.
Import Py World Gate GateProps Deploy DeployProps.
Context {E : Type} `{GovernanceStorageBackend E} `{Clock E} `{Builtins} `{Reprs}.

(** [deploy_model_with_gate], when the registry names one of the four risk
    levels and the audit insert returns: it returns normally exactly when
    [validate_deployment] allows the deployment, and otherwise raises
    [DeploymentBlockedException] with the number of failures; it prints
    the three counts and then either the two lines of a deployment or one
    line per blocking failure, and leaves the world as the gate left it. *)
Theorem deployment_proceeds_iff_gate_allows {gate_registry : ModelRegistry E}
        (model_registry : ModelRegistry E) (cfg : option dict)
        (model_id environment : string) (c : console E) (metadata : dict) (e1 : E)
        (risk_level : RiskLevel) :
  @get_compliance_report E model_registry model_id (env (world_of c))
  = (Returns metadata, e1) ->
  dict_get "risk_level" metadata = Some (VStr (RiskLevel_value risk_level)) ->
  (forall table record e, exists b e', insert table record e = (Returns b, e')) ->
  exists can_deploy report w2 passed warned failed,
    validate_deployment (ComplianceGate_init cfg) model_id risk_level
                        (World e1 (calls (world_of c) ++ [CallRegistry model_id]))
    = (Returns (can_deploy, report), w2) /\
    dict_get "passed" report = Some (VList (map VDict passed)) /\
    dict_get "warnings" report = Some (VList (map VDict warned)) /\
    dict_get "failures" report = Some (VList (map VDict failed)) /\
    can_deploy = Nat.eqb (List.length failed) 0 /\
    deploy_model_with_gate model_id environment (ComplianceGate_init cfg) model_registry c
    = (if can_deploy then Returns tt
       else Raises (DeploymentBlockedException
                      ("Model failed " ++ str_int (Z.of_nat (List.length failed))
                         ++ " compliance checks")),
       Console w2
         (stdout c
            ++ summary_lines model_id environment risk_level
                 (List.length passed) (List.length warned) (List.length failed)
            ++ (if can_deploy then allowed_lines environment
                else blocked_lines failed))%list).
Proof.
  intros Hreg Hlevel Hins.
  destruct (DeployFacts.deploy_run model_registry cfg model_id environment c metadata e1
              risk_level Hreg Hlevel Hins)
    as (ev & report & w2 & _ & Hrun & Hp & Hw & Hf & Hdeploy).
  do 6 eexists. split; [exact Hrun|].
  split; [exact Hp|]. split; [exact Hw|]. split; [exact Hf|].
  split; [reflexivity|exact Hdeploy].
Qed.

(** [deploy_model_with_gate] stops before any check when the registry
    raises, when the metadata has no [risk_level], or when its value is
    none of the four levels ([ValueError]): it has then printed its first
    line and called the registry, and nothing else; no validation is
    run and no audit entry is written. *)
Theorem deployment_needs_known_risk_level (model_registry : ModelRegistry E)
        (compliance_gate : ComplianceGate E) (model_id environment : string)
        (c : console E) :
  let run :=
    deploy_model_with_gate model_id environment compliance_gate model_registry c in
  let stopped e1 :=
    Console (World e1 (calls (world_of c) ++ [CallRegistry model_id]))
            (stdout c ++ [("Deploying " ++ model_id ++ " to " ++ environment)%string]) in
  match @get_compliance_report E model_registry model_id (env (world_of c)) with
  | (Raises e, e1) => run = (Raises e, stopped e1)
  | (Returns metadata, e1) =>
      match dict_get "risk_level" metadata with
      | None => run = (Raises (Exn KeyError "'risk_level'"), stopped e1)
      | Some value =>
          match RiskLevel_of value with
          | Raises e =>
              run = (Raises e, stopped e1) /\
              e = Exn ValueError (py_repr value ++ " is not a valid RiskLevel")
          | Returns _ => True
          end
      end
  end.
Proof.
  intros run stopped.
  assert (Hrun : run = deploy_model_with_gate model_id environment compliance_gate
                         model_registry c) by reflexivity.
  clearbody run. unfold deploy_model_with_gate in Hrun.
  unfold bind at 1 in Hrun. unfold print at 1 in Hrun. cbn [world_of stdout] in Hrun.
  unfold bind at 1 in Hrun. unfold on_world at 1 in Hrun. cbn [world_of stdout] in Hrun.
  unfold registry_get_compliance_report in Hrun.
  destruct (@get_compliance_report E model_registry model_id (env (world_of c)))
    as [[metadata|e] e1]; [|exact Hrun].
  unfold bind at 1 in Hrun. unfold lift at 1 in Hrun. unfold dict_getitem at 1 in Hrun.
  destruct (dict_get "risk_level" metadata) as [value|]; [|exact Hrun].
  unfold bind at 1 in Hrun. unfold lift at 1 in Hrun.
  destruct (RiskLevel_of value) as [level|e] eqn:Hlevel; [exact I|].
  split; [exact Hrun|].
  unfold RiskLevel_of in Hlevel.
  repeat match type of Hlevel with
         | match ?x with _ => _ end = _ => destruct x; try discriminate
         end;
    now injection Hlevel.
Qed.

(** A model the registry classifies as unacceptable is deployed: no check
    applies to that level, so [deploy_model_with_gate] returns normally
    once the audit insert returns, having printed three counts of zero and
    the two lines of a deployment; it has called the registry once and
    written one audit entry. *)
Theorem unacceptable_model_is_deployed {gate_registry : ModelRegistry E}
        (model_registry : ModelRegistry E) (cfg : option dict)
        (model_id environment : string) (c : console E) (metadata : dict) (e1 : E) :
  @get_compliance_report E model_registry model_id (env (world_of c))
  = (Returns metadata, e1) ->
  dict_get "risk_level" metadata = Some (VStr "unacceptable") ->
  (forall table record e, exists b e', insert table record e = (Returns b, e')) ->
  exists w2 entry,
    deploy_model_with_gate model_id environment (ComplianceGate_init cfg) model_registry c
    = (Returns tt,
       Console w2 (stdout c ++ summary_lines model_id environment UNACCEPTABLE 0 0 0
                     ++ allowed_lines environment)%list) /\
    calls w2
    = (calls (world_of c) ++ [CallRegistry model_id; CallInsert "audit_log" entry])%list.
Proof.
  intros Hreg Hlevel Hins.
  destruct (DeployFacts.deploy_run model_registry cfg model_id environment c metadata e1
              UNACCEPTABLE Hreg Hlevel Hins)
    as (ev & report & w2 & Hfst & Hrun & _ & _ & _ & Hdeploy).
  change (applicable (ComplianceGate_init cfg) UNACCEPTABLE)
    with (@nil (ComplianceCheck E)) in Hfst.
  apply map_eq_nil in Hfst. subst ev.
  destruct (DeployFacts.unacceptable_run cfg model_id
              (World e1 (calls (world_of c) ++ [CallRegistry model_id])) Hins)
    as (report' & entry & w' & Hrun' & Hcalls).
  rewrite Hrun in Hrun'. injection Hrun' as _ <-.
  exists w2, entry. split; [exact Hdeploy|].
  rewrite Hcalls. cbn [calls]. now rewrite <- app_assoc.
Qed.

End DeployClaims.

Module DeployScenarios.
Import Py World Gate GateProps Deploy DeployProps.
#[local] Existing Instance Demo.demo_storage.
#[local] Existing Instance Demo.demo_registry.
#[local] Existing Instance Demo.demo_clock.
#[local] Existing Instance Demo.demo_builtins.

Lemma demo_inserts_return :
  forall table record (e : Demo.env), exists b e', insert table record e = (Returns b, e').
Proof. intros. eexists. eexists. reflexivity. Qed.

Lemma deployment_proceeds_iff_gate_allows_witness :
  get_compliance_report "model_v1" (env (world_of (at_start Demo.compliant_env)))
  = (Returns Demo.compliant_metadata, Demo.compliant_env) /\
  dict_get "risk_level" Demo.compliant_metadata = Some (VStr (RiskLevel_value HIGH)) /\
  (forall table record (e : Demo.env),
      exists b e', insert table record e = (Returns b, e')) /\
  exists can_deploy report w2 passed warned failed,
    validate_deployment Demo.default_gate "model_v1" HIGH
      (World Demo.compliant_env
             (calls (world_of (at_start Demo.compliant_env)) ++ [CallRegistry "model_v1"]))
    = (Returns (can_deploy, report), w2) /\
    dict_get "passed" report = Some (VList (map VDict passed)) /\
    dict_get "warnings" report = Some (VList (map VDict warned)) /\
    dict_get "failures" report = Some (VList (map VDict failed)) /\
    can_deploy = Nat.eqb (List.length failed) 0 /\
    deploy_model_with_gate "model_v1" "production" Demo.default_gate Demo.demo_registry
                           (at_start Demo.compliant_env)
    = (if can_deploy then Returns tt
       else Raises (DeploymentBlockedException
                      ("Model failed " ++ str_int (Z.of_nat (List.length failed))
                         ++ " compliance checks")),
       Console w2
         (stdout (at_start Demo.compliant_env)
            ++ summary_lines "model_v1" "production" HIGH
                 (List.length passed) (List.length warned) (List.length failed)
            ++ (if can_deploy then allowed_lines "production"
                else blocked_lines failed))%list).
Proof.
  refine (conj eq_refl (conj eq_refl (conj demo_inserts_return _))).
  exact (deployment_proceeds_iff_gate_allows Demo.demo_registry None "model_v1" "production"
           (at_start Demo.compliant_env) Demo.compliant_metadata Demo.compliant_env HIGH
           eq_refl eq_refl demo_inserts_return).
Defined.

Lemma unacceptable_model_is_deployed_witness :
  get_compliance_report "model_v1"
    (env (world_of (at_start (Demo.env_with unacceptable_metadata))))
  = (Returns unacceptable_metadata, Demo.env_with unacceptable_metadata) /\
  dict_get "risk_level" unacceptable_metadata = Some (VStr "unacceptable") /\
  (forall table record (e : Demo.env),
      exists b e', insert table record e = (Returns b, e')) /\
  exists w2 entry,
    deploy_model_with_gate "model_v1" "production" Demo.default_gate Demo.demo_registry
                           (at_start (Demo.env_with unacceptable_metadata))
    = (Returns tt,
       Console w2 (stdout (at_start (Demo.env_with unacceptable_metadata))
                     ++ summary_lines "model_v1" "production" UNACCEPTABLE 0 0 0
                     ++ allowed_lines "production")%list) /\
    calls w2
    = (calls (world_of (at_start (Demo.env_with unacceptable_metadata)))
         ++ [CallRegistry "model_v1"; CallInsert "audit_log" entry])%list.
Proof.
  refine (conj eq_refl (conj eq_refl (conj demo_inserts_return _))).
  exact (unacceptable_model_is_deployed Demo.demo_registry None "model_v1" "production"
           (at_start (Demo.env_with unacceptable_metadata)) unacceptable_metadata
           (Demo.env_with unacceptable_metadata) eq_refl eq_refl demo_inserts_return).
Defined.

(** A risk level the enum does not know stops the deployment at once. *)
Example unknown_risk_level_stops :
  fst (deploy_model_with_gate "model_v1" "production" Demo.default_gate Demo.demo_registry
         (at_start (Demo.env_with unknown_level_metadata)))
  = Raises (Exn ValueError "<str> is not a valid RiskLevel").
Proof. vm_compute. reflexivity. Qed.

End DeployScenarios.
